(** * icris-ocr: a shallow embedding of the text normaliser, the box
      detector, the segmented-cell splitter and the Annual Return page
      layouts, with the properties stated about them.

    Conventions of the embedding.
    - A Python [str] is a list of Unicode code points ([N]); [py] turns a
      Rocq string literal into such a list.
    - Python exceptions are values of [exn]; a computation that may raise
      has type [result A].
    - OpenCV, scikit-image, SciPy, pytesseract and the regular expressions
      with look-around are external: they are the [Variable]s of a
      [Section], total functions on an abstract type of images.
    - An angle is a rational number.  Every finite binary64 value is one,
      and the comparisons of the source ([!= 0], [> 30], [> 0.15], ...)
      are exact on them; no binary64 value lies strictly between the
      double nearest to 0.15 and 15/100, so the tolerance test reads the
      same on both. *)

From Stdlib Require Import ZArith NArith QArith List Bool String Ascii Lia Lqa.
From Stdlib Require Import Sorted.
Import ListNotations.

Set Implicit Arguments.

(* ================================================================== *)
(** * Python values: strings, lists, exceptions *)
(* ================================================================== *)

Module Py.

Local Open Scope N_scope.

(** A [str]: the sequence of its code points. *)
Definition str := list N.

Definition ord (c : ascii) : N := N_of_ascii c.

Definition py (s : string) : str := map N_of_ascii (list_ascii_of_string s).

Fixpoint str_eqb (a b : str) : bool :=
  match a, b with
  | [], [] => true
  | x :: a', y :: b' => (x =? y) && str_eqb a' b'
  | _, _ => false
  end.

Definition in_range (lo hi c : N) : bool := (lo <=? c) && (c <=? hi).

(** The character classes [0-9], [A-Z], [a-z] of the patterns. *)
Definition is_digit (c : N) : bool := in_range (ord "0") (ord "9") c.
Definition is_upper (c : N) : bool := in_range (ord "A") (ord "Z") c.
Definition is_lower (c : N) : bool := in_range (ord "a") (ord "z") c.

(** [str.isspace] on one code point: the Unicode white space. *)
Definition is_space (c : N) : bool :=
  in_range 9 13 c || in_range 28 32 c || (c =? 133) || (c =? 160)
  || (c =? 5760) || in_range 8192 8202 c || (c =? 8232) || (c =? 8233)
  || (c =? 8239) || (c =? 8287) || (c =? 12288).

(** [re.sub(r'[...]', repl, s)] for a pattern that is one character
    class: every character of the class is replaced by [repl]. *)
Definition re_sub_class (cls : N -> bool) (repl : str) (s : str) : str :=
  flat_map (fun c => if cls c then repl else [c]) s.

(** [s.startswith(pre)]. *)
Fixpoint startswith (s pre : str) : bool :=
  match pre, s with
  | [], _ => true
  | p :: pre', c :: s' => (p =? c) && startswith s' pre'
  | _ :: _, [] => false
  end.

(** [re.sub(pat, repl, s)] for a pattern [pat] that is a non-empty
    sequence of literal characters: the occurrences of [pat] are replaced
    from the left, without overlap.  [skip] counts the characters of a
    match that are still to be consumed. *)
Fixpoint re_sub_literal_from (pat repl : str) (skip : nat) (s : str) : str :=
  match s with
  | [] => []
  | c :: t =>
      match skip with
      | S k => re_sub_literal_from pat repl k t
      | O =>
          if startswith s pat
          then repl ++ re_sub_literal_from pat repl (Nat.pred (List.length pat)) t
          else c :: re_sub_literal_from pat repl O t
      end
  end.

Definition re_sub_literal (pat repl s : str) : str :=
  re_sub_literal_from pat repl O s.

(** [s.index(c)]: the position of the first [c]; [None] stands for the
    [ValueError] raised when there is none. *)
Fixpoint index (s : str) (c : N) : option nat :=
  match s with
  | [] => None
  | x :: t => if x =? c then Some O
              else match index t c with
                   | Some i => Some (S i)
                   | None => None
                   end
  end.

(** [s.strip()]. *)
Fixpoint lstrip (s : str) : str :=
  match s with
  | [] => []
  | c :: t => if is_space c then lstrip t else s
  end.

Definition rstrip (s : str) : str := rev (lstrip (rev s)).

Definition strip (s : str) : str := rstrip (lstrip s).

(** [l.insert(i, x)]: a negative index counts from the end, and an index
    out of range is clamped. *)
Definition list_insert {A} (l : list A) (i : Z) (x : A) : list A :=
  let n := Z.of_nat (List.length l) in
  let k := if (i <? 0)%Z then Z.max 0 (i + n) else Z.min i n in
  firstn (Z.to_nat k) l ++ x :: skipn (Z.to_nat k) l.

(** [sep.join(l)]. *)
Fixpoint join (sep : str) (l : list str) : str :=
  match l with
  | [] => []
  | [x] => x
  | x :: t => x ++ sep ++ join sep t
  end.

(** [s.replace(old, new)] for a non-empty [old]. *)
Definition replace (s old new : str) : str := re_sub_literal old new s.

(** [s.split()] : the maximal runs of characters that are not white
    space.  [cur] is the run being read, in reverse. *)
Fixpoint split_ws_from (cur : str) (s : str) : list str :=
  match s with
  | [] => match cur with [] => [] | _ => [rev cur] end
  | c :: t =>
      if is_space c
      then match cur with
           | [] => split_ws_from [] t
           | _ => rev cur :: split_ws_from [] t
           end
      else split_ws_from (c :: cur) t
  end.

Definition split_ws (s : str) : list str := split_ws_from [] s.

(** [pat in s]. *)
Fixpoint contains (s pat : str) : bool :=
  startswith s pat
  || match s with
     | [] => false
     | _ :: t => contains t pat
     end.

(** [s.lower()] on a text of ASCII characters and white space, which
    is what [clean_chinese] leaves. *)
Definition lower (s : str) : str :=
  map (fun c => if is_upper c then c + 32 else c) s.

(** The length of the white space that [s] starts with. *)
Fixpoint space_run (s : str) : nat :=
  match s with
  | [] => O
  | c :: t => if is_space c then S (space_run t) else O
  end.

(** [re.sub(r'\s{n,}', repl, s)] for [n >= 1]: every maximal run of at
    least [n] white space characters is replaced by [repl]. *)
Fixpoint re_sub_spaces_from (n : nat) (repl : str) (skip : nat) (s : str)
  : str :=
  match s with
  | [] => []
  | c :: t =>
      match skip with
      | S k => re_sub_spaces_from n repl k t
      | O =>
          let run := space_run s in
          if ((n <=? run) && (1 <=? run))%nat
          then repl ++ re_sub_spaces_from n repl (Nat.pred run) t
          else c :: re_sub_spaces_from n repl O t
      end
  end.

Definition re_sub_spaces (n : nat) (repl s : str) : str :=
  re_sub_spaces_from n repl O s.

(** Python exceptions, and the result of a call that may raise. *)
Inductive exn : Type :=
| IndexError | ValueError | TypeError | AssertionError
| UnboundLocalError | ZeroDivisionError | RecursionError | CvError.

Inductive result (A : Type) : Type :=
| Ok (a : A)
| Raise (e : exn).

Arguments Ok {A} a.
Arguments Raise {A} e.

Definition bind {A B} (r : result A) (k : A -> result B) : result B :=
  match r with
  | Ok a => k a
  | Raise e => Raise e
  end.

Definition raises {A} (r : result A) : Prop := exists e, r = Raise e.

(** [s.split(sep)]: every occurrence of [sep] separates two entries, the
    empty ones are kept; an empty separator is a [ValueError]. *)
Fixpoint split_from (sep : str) (skip : nat) (cur : str) (s : str)
  : list str :=
  match s with
  | [] => [rev cur]
  | c :: t =>
      match skip with
      | S k => split_from sep k cur t
      | O =>
          if startswith s sep
          then rev cur :: split_from sep (Nat.pred (List.length sep)) [] t
          else split_from sep O (c :: cur) t
      end
  end.

Definition split (s sep : str) : result (list str) :=
  match sep with
  | [] => Raise ValueError
  | _ => Ok (split_from sep O [] s)
  end.

(** [l[i]]: a negative index counts from the end; out of range is an
    [IndexError]. *)
Definition getitem {A} (l : list A) (i : Z) : result A :=
  let n := Z.of_nat (List.length l) in
  let k := if (i <? 0)%Z then (i + n)%Z else i in
  if ((0 <=? k) && (k <? n))%Z
  then match nth_error l (Z.to_nat k) with
       | Some x => Ok x
       | None => Raise IndexError
       end
  else Raise IndexError.

(** [l[a:b]], [l[a:]] and [l[:b]] for literal bounds [0 <= a <= b]:
    a slice never raises, it is cut to what the list holds. *)
Definition slice {A} (l : list A) (a b : nat) : list A :=
  firstn (b - a) (skipn a l).

(** [sorted(l, key = key, reverse = reverse)]: a stable sort; with
    [reverse] the keys descend and equal keys keep their order. *)
Fixpoint insert_by {A} (before : A -> A -> bool) (x : A) (l : list A)
  : list A :=
  match l with
  | [] => [x]
  | y :: t => if before x y then x :: y :: t else y :: insert_by before x t
  end.

Definition sorted {A K} (leb : K -> K -> bool) (key : A -> K)
    (reverse : bool) (l : list A) : list A :=
  fold_right
    (insert_by (fun a b => if reverse then leb (key b) (key a)
                           else leb (key a) (key b)))
    [] l.

(** The number of positions that [start:stop] selects on an axis of
    [dim] entries (NumPy and list slicing with step 1). *)
Definition slice_bound (dim i : Z) : Z :=
  if (i <? 0)%Z then Z.max 0 (i + dim) else Z.min i dim.

Definition slice_len (dim start stop : Z) : Z :=
  Z.max 0 (slice_bound dim stop - slice_bound dim start).

End Py.

Module PyNotations.
Notation "x <- c ;; k" := (Py.bind c (fun x => k))
  (at level 61, c at next level, right associativity).
Notation "' pat <- c ;; k" :=
  (Py.bind c (fun x => match x with pat => k end))
  (at level 61, pat pattern, c at next level, right associativity).
End PyNotations.

(* ================================================================== *)
(** * document_processing/string_processing.py *)
(* ================================================================== *)

Module StringProcessing.

Import Py.

(** The class [[\[\]Iil!|]]. *)
Definition one_like (c : N) : bool :=
  (c =? ord "[")%N || (c =? ord "]")%N || (c =? ord "I")%N
  || (c =? ord "i")%N || (c =? ord "l")%N || (c =? ord "!")%N
  || (c =? ord "|")%N.

(** The three nested [re.sub] calls of [clean_number] and of
    [clean_single_character]:
    [re.sub(r'sS', '5', re.sub(r'oO', '0', re.sub(r'[\[\]Iil!|]', '1', s)))]. *)
Definition confusables (s : str) : str :=
  re_sub_literal (py "sS") (py "5")
    (re_sub_literal (py "oO") (py "0")
       (re_sub_class one_like (py "1") s)).

(** [re.sub(r'[^0-9]', '', s)]. *)
Definition keep_digits (s : str) : str :=
  re_sub_class (fun c => negb (is_digit c)) [] s.

Definition clean_number (string : str) (data_type : str) : str :=
  let string :=
    match index string (ord ".") with
    | Some i => firstn i string
    | None => string            (* except: pass *)
    end in
  let cleaned := confusables string in
  let cleaned := keep_digits cleaned in
  let cleaned :=
    if str_eqb data_type (py "contact") then
      let cleaned :=
        if startswith cleaned (py "852") then skipn 3 cleaned
        else if startswith cleaned (py "0852") then skipn 4 cleaned
        else cleaned in
      if (8 <=? List.length cleaned)%nat then firstn 8 cleaned else py "None"
    else if str_eqb data_type (py "number") then keep_digits cleaned
    else cleaned in
  if negb (str_eqb cleaned []) && negb (str_eqb cleaned (py "()"))
  then cleaned else py "None".

(** [re.sub(r'[^A-Z0-9]', '', s)]. *)
Definition keep_upper_digits (s : str) : str :=
  re_sub_class (fun c => negb (is_upper c || is_digit c)) [] s.

Definition clean_hkid (string : str) : str :=
  let cleaned := keep_upper_digits string in
  let cleaned_list := cleaned in
  let cleaned_list := list_insert cleaned_list (-1) (ord "(") in
  let cleaned_list := cleaned_list ++ [ord ")"] in
  let cleaned := cleaned_list in
  if (7 <? List.length cleaned)%nat then cleaned else py "None".

Definition clean_single_character (string : str) (data_type : str)
  : result str :=
  if str_eqb data_type (py "letter") then
    Ok (firstn 1 (re_sub_class (fun c => negb (is_upper c)) [] (strip string)))
  else if str_eqb data_type (py "number") then
    let cleaned := confusables string in
    Ok (firstn 1 (keep_digits cleaned))
  else Raise UnboundLocalError.      (* [cleaned] was never assigned *)

(** [re.sub('[^a-zA-Z,\-0-9\s.]', '', string)]. *)
Definition clean_chinese (string : str) : str :=
  re_sub_class
    (fun c => negb (is_lower c || is_upper c || (c =? ord ",")%N
                    || (c =? ord "-")%N || is_digit c || is_space c
                    || (c =? ord ".")%N))
    [] string.

(** [check_empty(string)], with its default delimiter [' ']. *)
Definition check_empty (string : str) : str :=
  let string_list := split_from (py " ") O [] string in
  let check :=
    List.length (filter (fun s => (List.length s <? 3)%nat) string_list) in
  if (check =? List.length string_list)%nat then py "None"
  else join (py " ") string_list.

Definition clean_alphabet (string : str) : str :=
  let cleaned :=
    re_sub_class
      (fun c => negb (is_upper c || is_lower c || (c =? ord " ")%N
                      || (c =? 10)%N))
      [] string in
  let cleaned := replace (replace cleaned [10%N] (py " ")) (py "  ") (py " ") in
  let cleaned_list := split_ws cleaned in
  let check_empty :=
    List.length (filter (fun s => (List.length s <? 3)%nat) cleaned_list) in
  let cleaned_list :=
    if (check_empty =? List.length cleaned_list)%nat then [py "None"]
    else cleaned_list in
  join (py " ") cleaned_list.

(** [separate_text(string, nSpaces, data_type)], for [nSpaces >= 1];
    the parameters [numbers] and [save] are not used by the source. *)
Definition separate_text (string : str) (nSpaces : nat)
    (data_type : option str) : str :=
  let string := clean_chinese (strip (replace string [10%N] (py " "))) in
  let string := re_sub_spaces nSpaces (py ";") string in
  let string_list :=
    filter (fun s => negb (str_eqb s []))
      (split_from (py ";") O [] string) in
  let is_type (t : str) :=
    match data_type with Some d => str_eqb d t | None => false end in
  let string_list :=
    if is_type (py "letter") then
      map (fun s => if negb (contains (lower s) (py "nil"))
                    then clean_alphabet s else py "None")
          string_list
    else if is_type (py "number") then
      map (fun number => if negb (contains (lower number) (py "nil"))
                         then clean_number number (py "number")
                         else py "None")
          string_list
    else string_list in
  let string := join (py ";") string_list in
  if negb (str_eqb string []) then string else py "None".

End StringProcessing.

(* ================================================================== *)
(** * document_processing/ocr_tools.py *)
(* ================================================================== *)

Module OcrTools.

Import Py PyNotations StringProcessing.

(** ** What the code takes from its libraries *)

(** A structuring element: [np.ones((rows, cols))],
    [cv2.getStructuringElement(cv2.MORPH_RECT, (width, height))], or the
    bare pair [(3,3)] that [ocr_box] hands to [cv2.erode]. *)
Inductive kernel : Type :=
| Ones (rows cols : Z)
| RectElement (width height : Z)
| Size (a b : Z).

Inductive retr_mode : Type := RETR_EXTERNAL | RETR_LIST.

Inductive approx_method : Type := CHAIN_APPROX_SIMPLE | CHAIN_APPROX_NONE.

Definition point : Type := Z * Z.

(** A contour of OpenCV has at least one point. *)
Record contour : Type := { first_point : point; more_points : list point }.

(** A segment of the Hough transform: [x1, y1, x2, y2]. *)
Definition segment : Type := Z * Z * Z * Z.

(** The list [[x, y, w, h]] of a bounding rectangle. *)
Record rect : Type := { rect_x : Z; rect_y : Z; rect_w : Z; rect_h : Z }.

(** The five patterns of [string_processing] that locate a field of
    the presentor's block between two labels. *)
Inductive presentor_regex : Type :=
| regex_presentors_name | regex_presentors_address
| regex_presentors_telephone | regex_presentors_fax
| regex_presentors_email.

(** The libraries: OpenCV, NumPy, scikit-image, SciPy, pytesseract, and
    the parts of Python itself that the embedding does not spell out.
    Every operation is a total function; the constant arguments of the
    source are not repeated where they never vary. *)
Class Externals : Type := {
  Img : Type;
  cv_imread : str -> option Img;
  cv_cvtColor_gray : Img -> Img;
  (** [cv2.threshold(img, thresh, maxval, cv2.THRESH_BINARY)[1]] *)
  cv_threshold : Img -> Z -> Z -> Img;
  (** [255 - img] *)
  np_255_minus : Img -> Img;
  (** [cv2.dilate(img, kernel, iterations = n)], and [cv2.erode] *)
  cv_dilate : Img -> kernel -> Z -> Img;
  cv_erode : Img -> kernel -> Z -> Img;
  (** [cv2.GaussianBlur(img, (k, k), sigma)] *)
  cv_GaussianBlur : Img -> Z -> Z -> Img;
  cv_bitwise_or : Img -> Img -> Img;
  (** [cv2.Canny(img, low, high, apertureSize = a)] *)
  cv_Canny : Img -> Z -> Z -> Z -> Img;
  skeletonize : Img -> Img;
  img_as_float : Img -> Img;
  img_as_ubyte : Img -> Img;
  (** [cv2.HoughLinesP(img, 1, 1 / 180.0, 100, minLineLength = 270,
      maxLineGap = 20)]: [None] when no line is found. *)
  cv_HoughLinesP : Img -> option (list segment);
  (** [math.degrees(math.atan2(dy, dx))] *)
  atan2_degrees : Z -> Z -> Q;
  ndimage_rotate : Img -> Q -> Img;
  (** [cv2.findContours(img, mode, method)[0]] *)
  cv_findContours : Img -> retr_mode -> approx_method -> list contour;
  cv_boundingRect : contour -> rect;
  cv_contourArea : contour -> Q;
  (** [image_to_string(img, lang = lang, config = config)] *)
  image_to_string : Img -> str -> str -> str;
  (** [img[r0:r1, c0:c1]] *)
  np_crop : Img -> Z -> Z -> Z -> Z -> Img;
  (** the first two entries of [img.shape]: height and width *)
  np_shape : Img -> Z * Z;
  (** [cv2.resize(img, (0,0), fx = fx, fy = fy)] *)
  cv_resize : Img -> Z -> Z -> Img;
  (** [cv2.filter2D(img, -1, kernel)] *)
  cv_filter2D : Img -> list (list Z) -> Img;
  (** the truth value of [eval(s)] *)
  py_eval : str -> result bool;
  (** [regex.search(s)]: the text matched, [None] without a match *)
  re_search : presentor_regex -> str -> option str;
  (** [c.isdigit()] on one character *)
  uc_isdigit : N -> bool
}.

Definition Qltb (a b : Q) : bool := negb (Qle_bool b a).

(** [np.mean(l)], without the rounding of binary64. *)
Definition np_mean (l : list Q) : Q :=
  fold_left Qplus l 0 / inject_Z (Z.of_nat (List.length l)).

(** [range(n)]. *)
Definition range (n : Z) : list Z := map Z.of_nat (seq 0 (Z.to_nat n)).

(** What [detect_boxes] returns: a mask, or a pair of an angle and
    what would otherwise be returned. *)
Inductive value {X : Externals} : Type :=
| VMask (m : Img)
| VPair (skew_angle : Q) (v : value).

(** The calls that matter for skew correction, in the order they
    happen: an entry into [detect_boxes] and a call of [rotate_image]. *)
Inductive event {X : Externals} : Type :=
| Call (processed_inv : Img) (align : bool)
| Rotate (img : Img) (angle : Q).

Section Tools.

Context {X : Externals}.

Local Open Scope Z_scope.

Definition morph_kernel := Ones 3 3.
Definition vertical_kernel := Ones 3 1.
Definition horizontal_kernel := Ones 1 3.
Definition vertical_structuringElement := RectElement 1 20.
Definition horizontal_structuringElement := RectElement 30 1.

Definition load_image (img : Img) : Img :=
  let gray := cv_cvtColor_gray img in
  let thresh := cv_threshold gray 120 255 in
  let inv := np_255_minus thresh in
  let dilated_vertical := cv_dilate inv vertical_kernel 1 in
  let dilated := cv_dilate dilated_vertical horizontal_kernel 1 in
  let processed_inv := cv_erode dilated morph_kernel 1 in
  let processed_inv := cv_GaussianBlur processed_inv 3 0 in
  processed_inv.

(** One turn of the loop of [calculate_angle]: the angle of [line] is
    appended to [angles] unless it is 0 or -90. *)
Definition calculate_angle_step (angles : list Q) (line : segment) : list Q :=
  let '(x1, y1, x2, y2) := line in
  let angle := atan2_degrees (y2 - y1) (x2 - x1) in
  if negb (Qeq_bool angle 0) && negb (Qeq_bool angle (-90 # 1)) then
    let angle := if Qltb (30 # 1) angle then ((90 # 1) - angle)%Q else angle in
    let angle := if Qltb angle (-30 # 1) then (angle + (90 # 1))%Q else angle in
    angles ++ [angle]
  else angles.

Definition calculate_angle (boxes : Img) : Q :=
  let img_edges := img_as_ubyte (skeletonize (img_as_float boxes)) in
  let lines := cv_HoughLinesP img_edges in
  let try : result Q :=
    (* [for line in lines] is a TypeError when [lines] is [None] *)
    lines <- match lines with Some l => Ok l | None => Raise TypeError end ;;
    let angles := fold_left calculate_angle_step lines [] in
    Ok (if negb (List.length angles =? 0)%nat then np_mean angles else 0%Q)
  in
  match try with
  | Ok skew_angle => skew_angle
  | Raise _ => 0%Q                      (* except: skew_angle = 0 *)
  end.

(** A segment that the loop of [calculate_angle] passes over: its
    angle is 0 or -90. *)
Definition axis_aligned (line : segment) : Prop :=
  let '(x1, y1, x2, y2) := line in
  let angle := atan2_degrees (y2 - y1) (x2 - x1) in
  (angle == 0)%Q \/ (angle == -90 # 1)%Q.

Definition rotate_image (img : Img) (angle : Q) : Img :=
  ndimage_rotate img angle.

(** The head of [detect_boxes]: the two dilation kernels, vertical
    first. *)
Definition dilate_kernels (thin_lines : bool) (thin_alignment : str)
  : result (kernel * kernel) :=
  if thin_lines then
    if str_eqb thin_alignment (py "vertical")
       || str_eqb thin_alignment (py "horizontal")
    then
      if str_eqb thin_alignment (py "vertical") then Ok (Ones 10 1, Ones 1 2)
      else if str_eqb thin_alignment (py "horizontal")
           then Ok (Ones 2 1, Ones 1 10)
           else Raise UnboundLocalError
    else Raise AssertionError
  else Ok (Ones 10 1, Ones 1 10).

(** The mask [boxes] of [detect_boxes]: the union of the vertical and
    of the horizontal lines. *)
Definition line_mask (processed_inv : Img)
    (vertical_dilate_kernel horizontal_dilate_kernel : kernel)
    (vertical_iterations horizontal_iterations : Z) : Img :=
  let vertical_lines :=
    cv_erode processed_inv vertical_structuringElement vertical_iterations in
  let vertical_lines :=
    cv_dilate vertical_lines vertical_structuringElement vertical_iterations in
  let vertical_lines := cv_dilate vertical_lines horizontal_dilate_kernel 2 in
  let horizontal_lines :=
    cv_erode processed_inv horizontal_structuringElement horizontal_iterations in
  let horizontal_lines :=
    cv_dilate horizontal_lines horizontal_structuringElement
      horizontal_iterations in
  let horizontal_lines := cv_dilate horizontal_lines vertical_dilate_kernel 2 in
  cv_bitwise_or horizontal_lines vertical_lines.

(** The tail of [detect_boxes], from [if canny:] to the two [return]s.
    A local variable that may be unbound is an [option]. *)
Definition thin_and_return (boxes : Img) (skew_angle : option Q)
    (boxes_thinned : option value) (skel canny : bool) (thresh_value : Z)
  : result value :=
  let '(skel, boxes, boxes_thinned) :=
    if canny then
      let boxes := cv_threshold boxes thresh_value 255 in
      (false, boxes, Some (VMask (cv_Canny boxes thresh_value 240 3)))
    else (skel, boxes, boxes_thinned) in
  let boxes_thinned :=
    if skel then
      let boxes := cv_threshold boxes thresh_value 255 in
      let boxes := img_as_float boxes in
      Some (VMask (img_as_ubyte (skeletonize boxes)))
    else boxes_thinned in
  match skew_angle, boxes_thinned with
  | Some a, Some v => Ok (VPair a v)       (* return skew_angle, boxes_thinned *)
  | None, Some v => Ok v                   (* except: return boxes_thinned *)
  | _, None => Raise UnboundLocalError
  end.

(** [detect_boxes].  [fuel] bounds the depth of the calls: [None] is a
    call that would need a deeper stack.  The list of events is the
    history of the call. *)
Fixpoint detect_boxes (fuel : nat) (processed_inv : Img) (align : bool)
    (thin_lines : bool) (thin_alignment : str) (skel canny : bool)
    (thresh_value vertical_iterations horizontal_iterations : Z)
  : option (list event * result value) :=
  match fuel with
  | O => None
  | S fuel' =>
    match dilate_kernels thin_lines thin_alignment with
    | Raise e => Some ([Call processed_inv align], Raise e)
    | Ok (vertical_dilate_kernel, horizontal_dilate_kernel) =>
      let boxes :=
        line_mask processed_inv vertical_dilate_kernel
          horizontal_dilate_kernel vertical_iterations horizontal_iterations in
      if align then
        let align := false in
        let skew_angle := calculate_angle boxes in
        if Qltb (15 # 100) skew_angle || Qltb skew_angle (-15 # 100) then
          let img_rotated := rotate_image processed_inv skew_angle in
          match
            detect_boxes fuel' img_rotated align thin_lines thin_alignment
              skel canny 80 vertical_iterations horizontal_iterations
          with
          | None => None
          | Some (history, Raise e) =>
              Some (Call processed_inv true
                      :: Rotate processed_inv skew_angle :: history,
                    Raise e)
          | Some (history, Ok boxes_thinned) =>
              Some (Call processed_inv true
                      :: Rotate processed_inv skew_angle :: history,
                    thin_and_return boxes (Some skew_angle)
                      (Some boxes_thinned) false false thresh_value)
          end
        else
          Some ([Call processed_inv true],
                thin_and_return boxes (Some skew_angle) None skel canny
                  thresh_value)
      else
        Some ([Call processed_inv false],
              thin_and_return boxes None None skel canny thresh_value)
    end
  end.

(** An entry of [box_info]: the area and the rectangle [[x, y, w, h]]. *)
Definition box_info : Type := Z * rect.

(** [get_boxes_info]; the parameter [approx_method] is not used by the
    source, which always asks for [cv2.CHAIN_APPROX_SIMPLE].  OpenCV
    refuses anything that is not an array. *)
Definition get_boxes_info (boxes_thinned : value) (retr_mode : retr_mode)
    (approx_method : approx_method) : result (list box_info) :=
  match boxes_thinned with
  | VPair _ _ => Raise TypeError
  | VMask boxes_thinned =>
      let contours :=
        cv_findContours boxes_thinned retr_mode CHAIN_APPROX_SIMPLE in
      let areas :=
        map (fun contour =>
               let r := cv_boundingRect contour in rect_w r * rect_h r)
            contours in
      let coordinates_list := map cv_boundingRect contours in
      Ok (combine areas coordinates_list)
  end.

(** The depth of stack that Python grants by default. *)
Definition recursion_limit : nat := 1000.

(** [process_image].  Unpacking the value that [detect_boxes] returns
    needs a pair.  A bare mask is an array of the rows of the page and
    does not unpack into two names; a page of exactly two rows of
    pixels, which would, is left out. *)
Definition process_image (img : Img) (retr_mode : retr_mode)
    (approx_method : approx_method) (align : bool) (thresh_value : Z)
    (thin_lines : bool) (thin_alignment : str) (skel canny : bool)
    (vertical_iterations horizontal_iterations : Z)
  : result (Q * list box_info) :=
  let processed_inv := load_image img in
  match
    detect_boxes recursion_limit processed_inv align thin_lines
      thin_alignment skel canny thresh_value vertical_iterations
      horizontal_iterations
  with
  | None => Raise RecursionError
  | Some (_, returned) =>
      returned <- returned ;;
      match returned with
      | VMask _ => Raise ValueError
      | VPair skew_angle boxes_thinned =>
          boxes_info <- get_boxes_info boxes_thinned retr_mode approx_method ;;
          Ok (skew_angle, boxes_info)
      end
  end.

Definition Qleb (a b : Q) : bool := Qle_bool a b.

Definition get_line_coordinates (gray_box : Img) (v_num h_num : nat)
  : list Z * list Z :=
  let thresh := cv_threshold gray_box 150 255 in
  let inv := np_255_minus thresh in
  let vertical_dilating_kernel := Ones 5 1 in
  let horizontal_eroding_kernel := Ones 1 21 in
  let vertical_eroding_kernel := Ones 21 1 in
  let horizontal_dilating_kernel := Ones 1 5 in
  let gray_box := cv_dilate inv vertical_dilating_kernel 3 in
  let gray_box := cv_dilate gray_box horizontal_dilating_kernel 2 in
  let h_gray_box := cv_erode gray_box horizontal_eroding_kernel 10 in
  let v_gray_box := cv_erode gray_box vertical_eroding_kernel 10 in
  let h_contours :=
    firstn h_num
      (sorted Qleb cv_contourArea true
         (cv_findContours h_gray_box RETR_LIST CHAIN_APPROX_SIMPLE)) in
  let v_contours :=
    firstn v_num
      (sorted Qleb cv_contourArea true
         (cv_findContours v_gray_box RETR_LIST CHAIN_APPROX_SIMPLE)) in
  let y_list :=
    sorted Z.leb (fun y => y) false
      (map (fun c => snd (first_point c)) h_contours) in
  let x_list :=
    sorted Z.leb (fun x => x) false
      (map (fun c => fst (first_point c)) v_contours) in
  (x_list, y_list).

(** The argument [halve] of [ocr_box]: a boolean, or a text such as
    ['True right']. *)
Inductive halve_arg : Type :=
| HalveBool (b : bool)
| HalveStr (s : str).

Definition sharpen_kernel : list (list Z) :=
  [[-1; -1; -1]; [-1; 9; -1]; [-1; -1; -1]].

(** The last line of [ocr_box]: what is returned for the text
    [ocr_string] of the engine. *)
Definition ocr_box_return (ocr_string : str) : str :=
  if negb (str_eqb ocr_string []) && negb (str_eqb ocr_string (py "N/A"))
  then strip ocr_string
  else py "None".

(** The region that [ocr_box] hands to the engine. *)
Definition ocr_box_region (img : Img) (coordinates : rect)
    (concentrate : bool) (halve : halve_arg)
    (resize blur sharpen erode dilate : bool) : result Img :=
  let x := rect_x coordinates in
  let y := rect_y coordinates in
  let w := rect_w coordinates in
  let h := rect_h coordinates in
  '(halve, side) <-
    match halve with
    | HalveStr s =>
        parts <- split s (py " ") ;;
        match parts with
        | [halve; side] => halve <- py_eval halve ;; Ok (halve, side)
        | _ => Raise ValueError
        end
    | HalveBool b => Ok (b, py "left")
    end ;;
  let '(x, w) :=
    if halve then
      if str_eqb side (py "left") then (x, w / 2)
      else if str_eqb side (py "right") then (x + w / 2, w / 2)
      else (x, w)
    else (x, w) in
  let '(x, y, w, h) :=
    if concentrate then (x + 90, y + 65, w - 80, h - 70) else (x, y, w, h) in
  let cropped_img := np_crop img y (y + h) x (x + w) in
  let cropped_img :=
    if resize then cv_resize cropped_img 3 3 else cropped_img in
  let cropped_img :=
    if erode then cv_erode cropped_img (Size 3 3) 2 else cropped_img in
  let cropped_img :=
    if blur then cv_GaussianBlur cropped_img 7 0 else cropped_img in
  let cropped_img :=
    if sharpen
    then cv_filter2D (cv_filter2D cropped_img sharpen_kernel) sharpen_kernel
    else cropped_img in
  let cropped_img :=
    if dilate then cv_dilate cropped_img (Size 3 3) 2 else cropped_img in
  Ok cropped_img.

Definition ocr_box (img : Img) (coordinates : rect) (concentrate : bool)
    (halve : halve_arg) (resize blur sharpen erode dilate : bool)
    (lang config : str) : result str :=
  cropped_img <-
    ocr_box_region img coordinates concentrate halve resize blur sharpen
      erode dilate ;;
  let ocr_string := image_to_string cropped_img lang config in
  Ok (ocr_box_return ocr_string).

(** The loop of [ocr_boxes]. *)
Fixpoint ocr_boxes_loop (img : Img) (boxes : list box_info)
    (halve : halve_arg) (resize blur sharpen erode dilate : bool)
    (lang config : str) (string_list : list str) : result (list str) :=
  match boxes with
  | [] => Ok string_list
  | box :: boxes =>
      let coordinates := snd box in
      box_string <-
        ocr_box img coordinates false halve resize blur sharpen erode dilate
          lang config ;;
      let string_list :=
        if negb (str_eqb box_string (py "None"))
           && negb (str_eqb box_string (py "N/A"))
        then string_list ++ [box_string]
        else string_list in
      ocr_boxes_loop img boxes halve resize blur sharpen erode dilate lang
        config string_list
  end.

Definition ocr_boxes (img : Img) (boxes : list box_info) (halve : halve_arg)
    (resize blur sharpen erode dilate : bool) (lang config : str)
  : result str :=
  string_list <-
    ocr_boxes_loop img boxes halve resize blur sharpen erode dilate lang
      config [] ;;
  match getitem string_list 0 with
  | Ok _ => Ok (join (py " ") string_list)
  | Raise _ => Ok (py "None")
  end.

(** ** The segmented-cell splitter *)

(** [a // b]. *)
Definition floordiv (a b : Z) : result Z :=
  if b =? 0 then Raise ZeroDivisionError else Ok (a / b).

(** The number of cells: the contours, less the first one when it
    starts left of column 50. *)
Definition count_cells (contours : list contour) : result Z :=
  c0 <- getitem contours 0 ;;
  if fst (first_point c0) <? 50
  then Ok (Z.of_nat (List.length contours) - 1)
  else Ok (Z.of_nat (List.length contours)).

(** The bounds [start:stop] of the columns of cell number [step]. *)
Definition cell_slice (step_length length step : Z) : Z * Z :=
  (step_length * step, Z.min (step_length * (step + 1)) length).

(** The bounds of the cells [range(n_boxes)], in order. *)
Definition cell_slices (step_length length n_boxes : Z) : list (Z * Z) :=
  map (cell_slice step_length length) (range n_boxes).

(** [thresh[:, start:stop]] for each cell. *)
Definition box_generator (thresh : Img) (step_length length n_boxes : Z)
  : list Img :=
  map (fun '(start, stop) =>
         np_crop thresh 0 (fst (np_shape thresh)) start stop)
      (cell_slices step_length length n_boxes).

(** The number of columns of a cell cut from a crop [length] columns
    wide. *)
Definition cell_width (length : Z) (cell : Z * Z) : Z :=
  slice_len length (fst cell) (snd cell).

(** The body of the loop over the cells: cell number [order]. *)
Definition ocr_cell (order : Z) (box : Img) (lang data_type : str)
    (single : bool) : result str :=
  let '(height, width) := np_shape box in
  let box :=
    np_crop box (height / 7) (height - height / 7)
      (width / 7) (width - width / 7) in
  let box := cv_GaussianBlur box 9 1 in
  let box_string := image_to_string box lang (py "--psm 10") in
  if negb (order =? 6) then
    if negb single then Ok (clean_number box_string data_type)
    else clean_single_character box_string data_type
  else
    let box_string :=
      re_sub_class
        (fun c => negb (is_lower c || is_upper c || is_digit c)) []
        box_string in
    if negb (existsb is_upper box_string)
    then clean_single_character box_string (py "number")
    else Ok box_string.

Fixpoint ocr_cells (order : Z) (boxes : list Img) (lang data_type : str)
    (single : bool) (img_string_list : list str) : result (list str) :=
  match boxes with
  | [] => Ok img_string_list
  | box :: boxes =>
      box_string <- ocr_cell order box lang data_type single ;;
      ocr_cells (order + 1) boxes lang data_type single
        (img_string_list ++ [box_string])
  end.

Definition ocr_segmented_box (img : Img) (coordinates : rect)
    (lang data_type : str) (single : bool) : result str :=
  let x := rect_x coordinates in
  let y := rect_y coordinates in
  let w := rect_w coordinates in
  let h := rect_h coordinates in
  let cropped_img := np_crop img y (y + h) x (x + w) in
  let height := fst (np_shape cropped_img) in
  let length := snd (np_shape cropped_img) in
  let vertical_thickening_kernel := Ones 3 1 in
  (* [int(height * 0.4)] *)
  let vertical_thinning_kernel := Ones (2 * height / 5) 1 in
  let horizontal_kernel := Ones 1 7 in
  let gray := cv_cvtColor_gray cropped_img in
  let thresh := cv_threshold gray 120 255 in
  let inv := np_255_minus thresh in
  let processed_img := cv_dilate inv horizontal_kernel 3 in
  let processed_img := cv_dilate processed_img vertical_thickening_kernel 7 in
  let processed_img := cv_erode processed_img vertical_thinning_kernel 10 in
  let processed_img := img_as_float processed_img in
  let processed_img := skeletonize processed_img in
  let processed_img := img_as_ubyte processed_img in
  let contours := cv_findContours processed_img RETR_LIST CHAIN_APPROX_NONE in
  (* [contours.sort(key = lambda x: x[0][0][0])], on the list of OpenCV *)
  let contours :=
    sorted Z.leb (fun c => fst (first_point c)) false contours in
  if (2 <=? List.length contours)%nat then
    n_boxes <- count_cells contours ;;
    step_length <- floordiv length n_boxes ;;
    img_string_list <-
      ocr_cells 0 (box_generator thresh step_length length n_boxes) lang
        data_type single [] ;;
    Ok (join (py " ") img_string_list)
  else Ok (py "None").

End Tools.

End OcrTools.

(* ================================================================== *)
(** * document_layouts.py *)
(* ================================================================== *)

Module DocumentLayouts.

Import Py PyNotations StringProcessing OcrTools.

Record PageOne : Type := {
  company_name : str; address : str; company_number : str;
  date_of_return : str; presentors_name : str; presentors_address : str;
  presentors_telephone : str; presentors_fax : str; presentors_email : str }.

Record PageTwo : Type := {
  company_email : str; total_shares : str; total_amount : str;
  total_paid_up : str }.

Record PageThree : Type := {
  company_secretary : str; correspondance_address : str;
  corporate_company_secretary : str;
  corporate_company_secretary_address : str;
  corporate_company_secretary_email : str;
  corporate_company_secretary_crNo : str; secretarys_hkid : str }.

Record PageFour : Type := {
  directors_name : str; directors_address : str; directors_email : str;
  directors_hkid : str }.

Record PageEight : Type := {
  shareholders_names : str; shareholders_addresses : str;
  shareholders_stake : str }.

Section Layouts.

Context {X : Externals}.

Local Open Scope Z_scope.

(** [search_string] of [string_processing]: without a match,
    [match.group()] fails and the bare [except] answers ['None']. *)
Definition search_string (regex : presentor_regex) (input_string : str)
  : str :=
  match re_search regex input_string with
  | Some group => strip group
  | None => py "None"
  end.

(** [s.isdigit()]. *)
Definition isdigit (s : str) : bool :=
  negb (str_eqb s []) && forallb uc_isdigit s.

(** [cv2.imread] answers [None] for a file it cannot read, and the
    first OpenCV call on it, in [load_image], raises. *)
Definition imread (page_path : str) : result Img :=
  match cv_imread page_path with
  | Some img => Ok img
  | None => Raise CvError
  end.

(** [a, b = l]. *)
Definition unpack2 {A} (l : list A) : result (A * A) :=
  match l with
  | [a; b] => Ok (a, b)
  | _ => Raise ValueError
  end.

(** The sort keys [box[0]], [box[1][1]] and [box[1][0]]. *)
Definition by_area (box : box_info) : Z := fst box.
Definition by_y (box : box_info) : Z := rect_y (snd box).
Definition by_x (box : box_info) : Z := rect_x (snd box).

(** [skew_angle > 0.15 or skew_angle < -0.15]. *)
Definition beyond_tolerance (skew_angle : Q) : bool :=
  Qltb (15 # 100) skew_angle || Qltb skew_angle (-15 # 100).

(** [img[y:y + h, x:x + w]] for the rectangle of a box. *)
Definition crop_rect (img : Img) (r : rect) : Img :=
  np_crop img (rect_y r) (rect_y r + rect_h r) (rect_x r)
    (rect_x r + rect_w r).

(** ** Page 1 *)

(** The first two lines of [PageOne.__init__]: the image, the angle and
    the boxes that the detector finds. *)
Definition PageOne_boxes (page_path : str)
  : result (Img * Q * list box_info) :=
  img <- imread page_path ;;
  '(skew_angle, boxes_info) <-
    process_image img RETR_EXTERNAL CHAIN_APPROX_SIMPLE true 80 true
      (py "vertical") true false 4 3 ;;
  Ok (img, skew_angle, boxes_info).

Definition PageOne_init (page_path : str) : result PageOne :=
  '(img, skew_angle, boxes_info) <- PageOne_boxes page_path ;;
  let img :=
    if beyond_tolerance skew_angle then rotate_image img skew_angle
    else img in
  let boxes_of_interest := firstn 8 (sorted Z.leb by_area true boxes_info) in
  presentors_reference_box <- getitem boxes_of_interest 0 ;;
  let large_boxes := sorted Z.leb by_y false (slice boxes_of_interest 1 4) in
  let small_boxes := sorted Z.leb by_y false (skipn 4 boxes_of_interest) in
  company_name_box <- getitem large_boxes 0 ;;
  address_box <- getitem large_boxes 2 ;;
  '(company_number_box, date_of_return_box) <-
    unpack2 (firstn 2 small_boxes) ;;
  presentors_reference_string <-
    ocr_box img (snd presentors_reference_box) true (HalveBool true) true
      true false true false (py "chi_sim+eng") (py "--psm 11") ;;
  company_name_ocr <-
    ocr_box img (snd company_name_box) false (HalveBool false) false true
      false false false (py "chi_sim+eng") [] ;;
  let company_name_string :=
    strip (check_empty (clean_chinese company_name_ocr)) in
  address_ocr <-
    ocr_box img (snd address_box) false (HalveBool false) false true false
      false false (py "chi_sim+eng") (py "--psm 4") ;;
  let address_string :=
    replace (strip (check_empty (clean_chinese address_ocr))) [10%N]
      (py " ") in
  company_number_ocr <-
    ocr_box img (snd company_number_box) false (HalveBool false) false true
      false false false (py "eng") [] ;;
  let company_number_string := strip company_number_ocr in
  date_of_return_ocr <-
    ocr_segmented_box img (snd date_of_return_box) (py "eng") (py "number")
      false ;;
  let date_of_return_string := strip date_of_return_ocr in
  let match_presentors_name :=
    search_string regex_presentors_name presentors_reference_string in
  let match_presentors_address :=
    search_string regex_presentors_address presentors_reference_string in
  let match_presentors_telephone :=
    search_string regex_presentors_telephone presentors_reference_string in
  let match_presentors_fax :=
    search_string regex_presentors_fax presentors_reference_string in
  let match_presentors_email :=
    search_string regex_presentors_email presentors_reference_string in
  Ok {| company_name :=
          if negb (str_eqb company_name_string [])
          then strip (clean_alphabet company_name_string) else py "None";
        address :=
          if negb (str_eqb address_string []) then address_string
          else py "None";
        company_number :=
          if negb (str_eqb company_number_string [])
          then firstn 8 (clean_number company_number_string (py "number"))
          else py "None";
        date_of_return :=
          if isdigit (replace date_of_return_string (py " ") [])
          then replace date_of_return_string (py " ") (py "/")
          else py "None";
        presentors_name := clean_alphabet match_presentors_name;
        presentors_address :=
          check_empty (replace match_presentors_address [10%N] (py " "));
        presentors_telephone :=
          clean_number match_presentors_telephone (py "contact");
        presentors_fax := clean_number match_presentors_fax (py "contact");
        presentors_email := check_empty match_presentors_email |}.

(** ** Page 2 *)

Definition PageTwo_boxes (page_path : str)
  : result (Img * Q * list box_info) :=
  img <- imread page_path ;;
  '(skew_angle, boxes_info) <-
    process_image img RETR_EXTERNAL CHAIN_APPROX_NONE true 80 false
      (py "None") false true 4 3 ;;
  Ok (img, skew_angle, boxes_info).

(** [separate_text] has the parameters [string], [nSpaces], [data_type],
    [numbers] and [save]; pages 2 and 8 call it with a keyword [type],
    which is a [TypeError] once the arguments are evaluated. *)
Definition separate_text_type_keyword (string : str) : result str :=
  Raise TypeError.

Definition PageTwo_init (page_path : str) : result PageTwo :=
  '(img, skew_angle, boxes_info) <- PageTwo_boxes page_path ;;
  let img :=
    if beyond_tolerance skew_angle then rotate_image img skew_angle
    else img in
  let boxes_of_interest := firstn 5 (sorted Z.leb by_area true boxes_info) in
  table_box <- getitem boxes_of_interest 0 ;;
  let small_boxes := sorted Z.leb by_y false (skipn 1 boxes_of_interest) in
  let table_coordinates := snd table_box in
  let table := crop_rect img table_coordinates in
  let table_gray := cv_cvtColor_gray table in
  let '(x_list, y_list) := get_line_coordinates table_gray 9 6 in
  y <- getitem y_list (-1) ;;
  let '(height, _) := np_shape table_gray in
  company_email_box <- getitem small_boxes 1 ;;
  x2 <- getitem x_list 2 ;;
  x3 <- getitem x_list 3 ;;
  let total_shares_box := np_crop table_gray y height x2 x3 in
  x3 <- getitem x_list 3 ;;
  x4 <- getitem x_list 4 ;;
  let total_amount_box := np_crop table_gray y height x3 x4 in
  x4 <- getitem x_list 4 ;;
  x5 <- getitem x_list 5 ;;
  let total_paid_up_box := np_crop table_gray y height x4 x5 in
  company_email_ocr <-
    ocr_box img (snd company_email_box) false (HalveBool false) false true
      false false false (py "eng") [] ;;
  let company_email_string := check_empty company_email_ocr in
  let company_email :=
    if negb (str_eqb company_email_string (py "(Nil)"))
    then company_email_string else py "None" in
  total_shares <-
    separate_text_type_keyword
      (image_to_string (cv_GaussianBlur total_shares_box 5 0) (py "eng")
         (py "--psm 12")) ;;
  total_amount <-
    separate_text_type_keyword
      (image_to_string (cv_GaussianBlur total_amount_box 5 0) (py "eng")
         (py "--psm 12")) ;;
  total_paid_up <-
    separate_text_type_keyword
      (image_to_string (cv_GaussianBlur total_paid_up_box 5 0) (py "eng")
         (py "--psm 12")) ;;
  Ok {| company_email := company_email; total_shares := total_shares;
        total_amount := total_amount; total_paid_up := total_paid_up |}.

(** ** Pages 3 and 4 *)

(** The last lines of [PageThree.__init__] and [PageFour.__init__]. *)
Definition join_hkid (hkid_1 hkid_2 : str) : str :=
  if negb (str_eqb hkid_2 (py "None")) && (5 <? List.length hkid_2)%nat
  then replace hkid_1 (py " ") [] ++ py " " ++ hkid_2
  else py "None".

Definition PageThree_boxes (page_path : str)
  : result (Img * Q * list box_info) :=
  img <- imread page_path ;;
  '(skew_angle, boxes_info) <-
    process_image img RETR_EXTERNAL CHAIN_APPROX_NONE true 80 true
      (py "horizontal") true false 4 3 ;;
  Ok (img, skew_angle, boxes_info).

Definition PageThree_init (page_path : str) : result PageThree :=
  '(img, skew_angle, boxes_info) <- PageThree_boxes page_path ;;
  let img :=
    if beyond_tolerance skew_angle then rotate_image img skew_angle
    else img in
  let boxes_of_interest := firstn 25 (sorted Z.leb by_area true boxes_info) in
  let boxes_of_interest := sorted Z.leb by_y false boxes_of_interest in
  let name_boxes := slice boxes_of_interest 2 4 in
  let address_boxes := slice boxes_of_interest 8 11 in
  email_box <- getitem boxes_of_interest 12 ;;
  let hkid_boxes := sorted Z.leb by_x false (slice boxes_of_interest 13 15) in
  corporate_company_secretary_box <- getitem boxes_of_interest 18 ;;
  let corporate_company_secretary_address_boxes :=
    slice boxes_of_interest 19 22 in
  corporate_company_secretary_email_box <- getitem boxes_of_interest 23 ;;
  corporate_company_secretary_crNo_box <- getitem boxes_of_interest 24 ;;
  hkid_box_1 <- getitem hkid_boxes 0 ;;
  hkid_1 <-
    ocr_segmented_box img (snd hkid_box_1) (py "eng") (py "letter") true ;;
  hkid_box_2 <- getitem hkid_boxes 1 ;;
  hkid_2_ocr <-
    ocr_segmented_box img (snd hkid_box_2) (py "eng") (py "number") true ;;
  let hkid_2 := clean_hkid hkid_2_ocr in
  company_secretary_string <-
    ocr_boxes img name_boxes (HalveBool false) true true false false false
      (py "eng") (py "--psm 12") ;;
  correspondance_address_string <-
    ocr_boxes img address_boxes (HalveBool false) true true false false
      false (py "chi_sim+eng") (py "--psm 12") ;;
  corporate_company_secretary_string <-
    ocr_box img (snd corporate_company_secretary_box) false
      (HalveBool false) true true false false false (py "eng")
      (py "--psm 4") ;;
  corporate_company_secretary_address_string <-
    ocr_boxes img corporate_company_secretary_address_boxes
      (HalveBool false) true true false false false (py "chi_sim+eng")
      (py "--psm 4") ;;
  corporate_company_secretary_email_string <-
    ocr_box img (snd corporate_company_secretary_email_box) false
      (HalveBool false) false true false false false (py "eng") [] ;;
  corporate_company_secretary_crNo_string <-
    ocr_box img (snd corporate_company_secretary_crNo_box) false
      (HalveBool false) true true false false false (py "eng")
      (py "--psm 7") ;;
  Ok {| company_secretary := clean_alphabet company_secretary_string;
        correspondance_address :=
          check_empty (clean_chinese correspondance_address_string);
        corporate_company_secretary :=
          clean_alphabet corporate_company_secretary_string;
        corporate_company_secretary_address :=
          check_empty
            (clean_chinese corporate_company_secretary_address_string);
        corporate_company_secretary_email :=
          if negb (str_eqb corporate_company_secretary_email_string
                     (py "(Nil)"))
          then corporate_company_secretary_email_string else py "None";
        corporate_company_secretary_crNo :=
          firstn 8
            (clean_number corporate_company_secretary_crNo_string
               (py "number"));
        secretarys_hkid := join_hkid hkid_1 hkid_2 |}.

Definition PageFour_boxes (page_path : str)
  : result (Img * Q * list box_info) :=
  img <- imread page_path ;;
  '(skew_angle, boxes_info) <-
    process_image img RETR_EXTERNAL CHAIN_APPROX_NONE true 80 true
      (py "horizontal") true false 2 3 ;;
  Ok (img, skew_angle, boxes_info).

Definition PageFour_init (page_path : str) : result PageFour :=
  '(img, skew_angle, boxes_info) <- PageFour_boxes page_path ;;
  let img :=
    if beyond_tolerance skew_angle then rotate_image img skew_angle
    else img in
  let boxes_of_interest := firstn 18 (sorted Z.leb by_area true boxes_info) in
  let boxes_of_interest := sorted Z.leb by_y false boxes_of_interest in
  let directors_name_boxes := slice boxes_of_interest 3 5 in
  let directors_address_boxes := slice boxes_of_interest 9 13 in
  directors_email_box <- getitem boxes_of_interest 13 ;;
  let hkid_boxes := sorted Z.leb by_x false (slice boxes_of_interest 14 16) in
  directors_name_string <-
    ocr_boxes img directors_name_boxes (HalveBool false) true true false
      false false (py "eng") (py "--psm 12") ;;
  directors_address_string <-
    ocr_boxes img directors_address_boxes (HalveBool false) true true false
      false false (py "chi_sim+eng") (py "--psm 12") ;;
  directors_email_string <-
    ocr_box img (snd directors_email_box) false (HalveBool false) false true
      false false false (py "eng") [] ;;
  hkid_box_1 <- getitem hkid_boxes 0 ;;
  hkid_1 <-
    ocr_segmented_box img (snd hkid_box_1) (py "eng") (py "letter") true ;;
  hkid_box_2 <- getitem hkid_boxes 1 ;;
  hkid_2_ocr <-
    ocr_segmented_box img (snd hkid_box_2) (py "eng") (py "number") true ;;
  let hkid_2 := clean_hkid hkid_2_ocr in
  Ok {| directors_name := clean_alphabet directors_name_string;
        directors_address :=
          check_empty (clean_chinese directors_address_string);
        directors_email :=
          if negb (str_eqb directors_email_string (py "(Nil)"))
          then directors_email_string else py "None";
        directors_hkid := join_hkid hkid_1 hkid_2 |}.

(** ** Page 8 *)

Definition PageEight_boxes (page_path : str)
  : result (Img * Q * list box_info) :=
  img <- imread page_path ;;
  '(skew_angle, boxes_info) <-
    process_image img RETR_EXTERNAL CHAIN_APPROX_NONE true 80 false
      (py "None") false true 3 3 ;;
  Ok (img, skew_angle, boxes_info).

Definition PageEight_init (page_path : str) : result PageEight :=
  '(img, skew_angle, boxes_info) <- PageEight_boxes page_path ;;
  let img :=
    if beyond_tolerance skew_angle then rotate_image img skew_angle
    else img in
  box_of_interest <- getitem (sorted Z.leb by_area true boxes_info) 0 ;;
  let table := crop_rect img (snd box_of_interest) in
  let table_gray := cv_cvtColor_gray table in
  let '(x_list, y_list) := get_line_coordinates table_gray 7 5 in
  y <- getitem y_list (-2) ;;
  let '(height, width) := np_shape table_gray in
  x0 <- getitem x_list 0 ;;
  x1 <- getitem x_list 1 ;;
  let shareholders_names_box := np_crop table y height x0 x1 in
  x1 <- getitem x_list 1 ;;
  x2 <- getitem x_list 2 ;;
  let shareholders_addresses_box := np_crop table y height x1 x2 in
  x2 <- getitem x_list 2 ;;
  x3 <- getitem x_list 3 ;;
  let shareholders_stake_box := np_crop table y height x2 x3 in
  shareholders_names <-
    separate_text_type_keyword
      (image_to_string shareholders_names_box (py "chi_sim+eng")
         (py "--psm 12")) ;;
  let shareholders_addresses :=
    separate_text
      (image_to_string shareholders_addresses_box (py "chi_sim+eng")
         (py "--psm 12"))
      3 None in
  shareholders_stake <-
    separate_text_type_keyword
      (image_to_string shareholders_stake_box (py "eng") (py "--psm 12")) ;;
  Ok {| shareholders_names := shareholders_names;
        shareholders_addresses := shareholders_addresses;
        shareholders_stake := shareholders_stake |}.

(** ** The document *)

(** A [dict] with text keys, in the order of insertion. *)
Definition dict (V : Type) : Type := list (str * V).

(** [d.update({k: v})]. *)
Fixpoint dict_update {V} (d : dict V) (k : str) (v : V) : dict V :=
  match d with
  | [] => [(k, v)]
  | (k', v') :: d' =>
      if str_eqb k' k then (k', v) :: d' else (k', v') :: dict_update d' k v
  end.

(** The property [page_data] of every page class. *)
Definition PageOne_page_data (p : PageOne) : str * dict str :=
  (py "page_1",
   [(py "company_name", company_name p);
    (py "company_address", address p);
    (py "company_number", company_number p);
    (py "date_of_return", date_of_return p);
    (py "presentors_name", presentors_name p);
    (py "presentors_address", presentors_address p);
    (py "presentors_telephone", presentors_telephone p);
    (py "presentors_fax", presentors_fax p);
    (py "presentors_email", presentors_email p)]).

Definition PageTwo_page_data (p : PageTwo) : str * dict str :=
  (py "page_2",
   [(py "company_email", company_email p);
    (py "total_shares", total_shares p);
    (py "total_amount", total_amount p);
    (py "total_paid_up", total_paid_up p)]).

Definition PageThree_page_data (p : PageThree) : str * dict str :=
  (py "page_3",
   [(py "company_secretary", company_secretary p);
    (py "correspondance_address", correspondance_address p);
    (py "secretarys_hkid", secretarys_hkid p);
    (py "corporate_company_secretary", corporate_company_secretary p);
    (py "corporate_company_secretary_address",
     corporate_company_secretary_address p);
    (py "corporate_company_secretary_email",
     corporate_company_secretary_email p);
    (py "corporate_company_secretary_crNo",
     corporate_company_secretary_crNo p)]).

Definition PageFour_page_data (p : PageFour) : str * dict str :=
  (py "page_4",
   [(py "directors_name", directors_name p);
    (py "directors_address", directors_address p);
    (py "directors_email", directors_email p);
    (py "directors_hkid", directors_hkid p)]).

Definition PageEight_page_data (p : PageEight) : str * dict str :=
  (py "page_8",
   [(py "shareholders_names", shareholders_names p);
    (py "shareholders_addresses", shareholders_addresses p);
    (py "shareholders_stake", shareholders_stake p)]).

(** [get_doc_data], up to the dictionary [reformed] from which pandas
    builds the data frame. *)
Definition get_doc_data (pages : list (str * dict str))
  : list ((str * str) * str) :=
  let data_dict :=
    fold_left (fun data_dict page_data =>
                 dict_update data_dict (fst page_data) (snd page_data))
              pages [] in
  flat_map (fun '(outerKey, innerDict) =>
              map (fun '(innerKey, value) => ((outerKey, innerKey), value))
                  innerDict)
           data_dict.

Record AnnualReturn : Type := {
  page_1 : PageOne; page_2 : PageTwo; page_3 : PageThree;
  page_4 : PageFour; page_8 : PageEight;
  doc_data : list ((str * str) * str) }.

(** [AnnualReturn.__init__], from the sorted [page_paths] on: the pages
    are built one after the other, and nothing catches what one of them
    raises. *)
Definition AnnualReturn_init (page_paths : list str) : result AnnualReturn :=
  path <- getitem page_paths 0 ;;
  page_1 <- PageOne_init path ;;
  path <- getitem page_paths 1 ;;
  page_2 <- PageTwo_init path ;;
  path <- getitem page_paths 2 ;;
  page_3 <- PageThree_init path ;;
  path <- getitem page_paths 3 ;;
  page_4 <- PageFour_init path ;;
  path <- getitem page_paths 7 ;;
  page_8 <- PageEight_init path ;;
  let pages :=
    [PageOne_page_data page_1; PageTwo_page_data page_2;
     PageThree_page_data page_3; PageFour_page_data page_4;
     PageEight_page_data page_8] in
  Ok {| page_1 := page_1; page_2 := page_2; page_3 := page_3;
        page_4 := page_4; page_8 := page_8;
        doc_data := get_doc_data pages |}.

(** ** The five pages, side by side *)

Inductive page_type : Type :=
| page_one | page_two | page_three | page_four | page_eight.

Inductive page_record : Type :=
| RecordOne (r : PageOne)
| RecordTwo (r : PageTwo)
| RecordThree (r : PageThree)
| RecordFour (r : PageFour)
| RecordEight (r : PageEight).

(** What the detector finds on a page, and the page built from it. *)
Definition page_boxes (p : page_type) (page_path : str)
  : result (Img * Q * list box_info) :=
  match p with
  | page_one => PageOne_boxes page_path
  | page_two => PageTwo_boxes page_path
  | page_three => PageThree_boxes page_path
  | page_four => PageFour_boxes page_path
  | page_eight => PageEight_boxes page_path
  end.

Definition page_init (p : page_type) (page_path : str) : result page_record :=
  match p with
  | page_one => r <- PageOne_init page_path ;; Ok (RecordOne r)
  | page_two => r <- PageTwo_init page_path ;; Ok (RecordTwo r)
  | page_three => r <- PageThree_init page_path ;; Ok (RecordThree r)
  | page_four => r <- PageFour_init page_path ;; Ok (RecordFour r)
  | page_eight => r <- PageEight_init page_path ;; Ok (RecordEight r)
  end.

(** The position of the page in [page_paths]. *)
Definition page_index (p : page_type) : Z :=
  match p with
  | page_one => 0
  | page_two => 1
  | page_three => 2
  | page_four => 3
  | page_eight => 7
  end.

(** The number of boxes that the indices and the unpacking of a page
    reach for: [small_boxes[:2]] of page 1 is two of the boxes from rank
    4 on, [small_boxes[1]] of page 2 is rank 2, [boxes_of_interest[24]]
    of page 3, [hkid_boxes[1]] of page 4 is rank 15, and rank 0 of
    page 8. *)
Definition boxes_needed (p : page_type) : nat :=
  match p with
  | page_one => 6
  | page_two => 3
  | page_three => 25
  | page_four => 16
  | page_eight => 1
  end.

End Layouts.

End DocumentLayouts.

(* ================================================================== *)
(** * A small model of the libraries *)
(* ================================================================== *)

(** The definitions above run on any [Externals].  This one is enough to
    evaluate them on concrete pages: an image is the number of times it
    was rotated; only the page as scanned shows the segments [lines] to
    the Hough transform; every image shows the contours [contours] and
    reads as [text]. *)
Module Toy.

Import Py OcrTools.

Local Open Scope Z_scope.

(** [math.degrees(math.atan2(dy, dx))] where it is an integer: on the
    axes and on the diagonals.  Elsewhere the model answers 0. *)
Definition atan2_degrees (dy dx : Z) : Q :=
  if dy =? 0 then (if 0 <=? dx then 0 else 180 # 1)
  else if dx =? 0 then (if 0 <? dy then 90 # 1 else -90 # 1)
  else if dy =? dx then (if 0 <? dx then 45 # 1 else -135 # 1)
  else if dy =? - dx then (if 0 <? dx then -45 # 1 else 135 # 1)
  else 0.

(** The rectangle from the first point of a contour to its second. *)
Definition boundingRect (c : contour) : rect :=
  let '(x, y) := first_point c in
  match more_points c with
  | [] => {| rect_x := x; rect_y := y; rect_w := 1; rect_h := 1 |}
  | (x', y') :: _ =>
      {| rect_x := x; rect_y := y; rect_w := x' - x + 1; rect_h := y' - y + 1 |}
  end.

Definition externals (lines : option (list segment))
    (contours : list contour) (text : str) : Externals :=
  {| Img := nat;
     cv_imread := fun _ => Some O;
     cv_cvtColor_gray := fun img => img;
     cv_threshold := fun img _ _ => img;
     np_255_minus := fun img => img;
     cv_dilate := fun img _ _ => img;
     cv_erode := fun img _ _ => img;
     cv_GaussianBlur := fun img _ _ => img;
     cv_bitwise_or := fun a _ => a;
     cv_Canny := fun img _ _ _ => img;
     skeletonize := fun img => img;
     img_as_float := fun img => img;
     img_as_ubyte := fun img => img;
     cv_HoughLinesP := fun img => match img with O => lines | S _ => None end;
     OcrTools.atan2_degrees := atan2_degrees;
     ndimage_rotate := fun img _ => S img;
     cv_findContours := fun _ _ _ => contours;
     cv_boundingRect := boundingRect;
     cv_contourArea := fun c =>
       inject_Z (rect_w (boundingRect c) * rect_h (boundingRect c));
     image_to_string := fun _ _ _ => text;
     np_crop := fun img _ _ _ _ => img;
     np_shape := fun _ => (70, 140);
     cv_resize := fun img _ _ => img;
     cv_filter2D := fun img _ => img;
     py_eval := fun s => Ok (str_eqb s (py "True"));
     re_search := fun _ _ => None;
     uc_isdigit := is_digit |}.

(** A contour from the corner [(x, y)] to the corner [(x', y')]. *)
Definition box (x y x' y' : Z) : contour :=
  {| first_point := (x, y); more_points := [(x', y')] |}.

(** Six boxes of a first page: the presentor's block, three large boxes
    and two small ones. *)
Definition six_boxes : list contour :=
  [box 100 100 899 499; box 100 600 899 799; box 100 900 899 1099;
   box 100 1200 899 1399; box 100 1500 399 1549; box 500 1500 799 1549].

(** A page that is scanned straight, and one whose only segment runs
    along the diagonal. *)
Definition straight : option (list segment) := None.
Definition diagonal : option (list segment) := Some [(0, 0, 300, 300)].

(** A page with one horizontal and one vertical segment. *)
Definition axes : option (list segment) :=
  Some [(0, 0, 300, 0); (5, 300, 5, 0)].

Definition straight_page : Externals :=
  externals straight six_boxes (py "Acme Trading Limited").
Definition diagonal_page : Externals :=
  externals diagonal six_boxes (py "Acme Trading Limited").
Definition axes_page : Externals :=
  externals axes six_boxes (py "Acme Trading Limited").

(** A page on which the engine reads a blank, and one on which it
    reads " None". *)
Definition blank_page : Externals := externals straight [] (py " ").
Definition none_page : Externals := externals straight [] (py " None").

Definition a_rect : rect :=
  {| rect_x := 0; rect_y := 0; rect_w := 10; rect_h := 10 |}.

(** What [get_boxes_info] makes of [six_boxes]. *)
Definition six_boxes_info : list box_info :=
  map (fun c => (rect_w (boundingRect c) * rect_h (boundingRect c),
                 boundingRect c))
      six_boxes.

End Toy.

(* ================================================================== *)
(** * __init__.py: documents and directories of documents *)
(* ================================================================== *)

Module Package.

Import Py PyNotations OcrTools DocumentLayouts.

(** What the package takes from the file system and from the Unicode
    tables: [os.path.isdir], the entries of [os.listdir] for a directory,
    and the value of a decimal digit ([None] for any other character),
    which is what [\d] matches and [int] reads. *)
Class FileSystem : Type := {
  os_isdir : str -> bool;
  os_listdir : str -> list str;
  uc_decimal : N -> option Z
}.

(** What a [try] of the package catches: an exception of the pages, or
    the [AttributeError] of a page file without a number in its name. *)
Inductive raised : Type :=
| Exn (e : exn)
| AttributeError.

(** The data of a document: the dictionary behind its data frame. *)
Definition doc_data_type : Type := list ((str * str) * str).

Section Documents.

Context {X : Externals} {F : FileSystem}.

Local Open Scope Z_scope.

(** [s.endswith(suffix)]. *)
Definition endswith (s suffix : str) : bool :=
  startswith (rev s) (rev suffix).

(** [int(sort_regex.search(s).group())] for [sort_regex], the pattern
    [\d{1,2}]: the first decimal digit of [s], with the next character
    when it is one too; [None] when [s] has no digit, and [search]
    answers [None]. *)
Fixpoint search_page_number (s : str) : option Z :=
  match s with
  | [] => None
  | c :: t =>
      match uc_decimal c with
      | Some d1 =>
          Some match t with
               | c2 :: _ =>
                   match uc_decimal c2 with
                   | Some d2 => 10 * d1 + d2
                   | None => d1
                   end
               | [] => d1
               end
      | None => search_page_number t
      end
  end.

(** The key of the sort of the pages:
    [int(sort_regex.search(page.split('/')[-1]).group())]. *)
Definition page_key (page : str) : option Z :=
  search_page_number (last (split_from (py "/") O [] page) []).

(** The first lines of [AnnualReturn.__init__]: the files of the
    directory that end in '.jpg', sorted by the number in their name.
    [None] stands for the [AttributeError] of a name without a number:
    the keys are all computed before anything is sorted. *)
Definition list_page_paths (doc_dir : str) : option (list str) :=
  let page_paths :=
    map (fun page => doc_dir ++ py "/" ++ page)
        (filter (fun page => endswith page (py ".jpg")) (os_listdir doc_dir)) in
  if forallb (fun page => match page_key page with
                          | Some _ => true
                          | None => false
                          end) page_paths
  then Some (sorted Z.leb
               (fun page => match page_key page with
                            | Some k => k
                            | None => 0
                            end)
               false page_paths)
  else None.

(** [AnnualReturn(doc_dir)]. *)
Definition AnnualReturn_new (doc_dir : str) : raised + AnnualReturn :=
  match list_page_paths doc_dir with
  | None => inl AttributeError
  | Some page_paths =>
      match AnnualReturn_init page_paths with
      | Ok document => inr document
      | Raise e => inl (Exn e)
      end
  end.

(** [process_doc_dir]: the data of the document, or [None] when the
    path is no directory or the type is not 'Annual Return'. *)
Definition process_doc_dir (doc_dir doc_type : str)
  : raised + option doc_data_type :=
  if os_isdir doc_dir then
    if str_eqb doc_type (py "Annual Return") then
      match AnnualReturn_new doc_dir with
      | inr doc_instance => inr (Some (doc_data doc_instance))
      | inl e => inl e
      end
    else inr None
  else inr None.

(** The loop of [process_dir] without [parallel]: a document that
    raises goes to [failed_list] with what it raised, in place of the
    text of its traceback; the others go to [doc_data_list]. *)
Definition process_dir_step
    (doc_type : str)
    (lists : list (option doc_data_type) * list (str * raised))
    (doc_dir : str)
  : list (option doc_data_type) * list (str * raised) :=
  let '(doc_data_list, failed_list) := lists in
  match process_doc_dir doc_dir doc_type with
  | inr doc_data => (doc_data_list ++ [doc_data], failed_list)
  | inl exception => (doc_data_list, failed_list ++ [(doc_dir, exception)])
  end.

(** [doc_list] of [process_dir]: the directories of [dir]. *)
Definition doc_list (dir : str) : list str :=
  filter os_isdir
    (map (fun doc_dir => dir ++ py "/" ++ doc_dir) (os_listdir dir)).

(** [process_dir(dir, doc_type, parallel = False)], up to the two lists
    from which pandas builds [data_df] and [failed_df]. *)
Definition process_dir (dir doc_type : str)
  : list (option doc_data_type) * list (str * raised) :=
  fold_left (process_dir_step doc_type) (doc_list dir) ([], []).

End Documents.

End Package.

(* ================================================================== *)
(** * Notions used in the statements *)
(* ================================================================== *)

Module Notions.

Import Py OcrTools.

(** What an entry of [separate_text] is: not empty, and without ";". *)
Definition entry_ok (e : str) : Prop :=
  e <> [] /\ forallb (fun x => negb (59 =? x)%N) e = true.

Section Marks.

Context {X : Externals}.

Local Open Scope Z_scope.

(** The contours that [ocr_segmented_box] counts in the crop of a
    box: one for each character it holds, as OpenCV lists them. *)
Definition segment_marks (img : Img) (coordinates : rect) : list contour :=
  let x := rect_x coordinates in
  let y := rect_y coordinates in
  let w := rect_w coordinates in
  let h := rect_h coordinates in
  let cropped_img := np_crop img y (y + h) x (x + w) in
  let height := fst (np_shape cropped_img) in
  let inv :=
    np_255_minus (cv_threshold (cv_cvtColor_gray cropped_img) 120 255) in
  let processed_img := cv_dilate inv (Ones 1 7) 3 in
  let processed_img := cv_dilate processed_img (Ones 3 1) 7 in
  let processed_img := cv_erode processed_img (Ones (2 * height / 5) 1) 10 in
  cv_findContours (img_as_ubyte (skeletonize (img_as_float processed_img)))
    RETR_LIST CHAIN_APPROX_NONE.

End Marks.

End Notions.

(* ================================================================== *)
(** * Properties of the text normaliser *)
(* ================================================================== *)

Import Py PyNotations StringProcessing OcrTools DocumentLayouts Notions.
Import Package.

Section StringFacts.

Local Open Scope N_scope.

Lemma str_eqb_eq (a b : str) : str_eqb a b = true <-> a = b.
Proof.
  revert b; induction a as [|x a IH]; intros [|y b]; simpl;
    try (split; (discriminate || reflexivity)).
  rewrite andb_true_iff, N.eqb_eq, IH.
  split; [intros [-> ->]; reflexivity | intros H; inversion H; auto].
Qed.

Lemma str_eqb_refl (a : str) : str_eqb a a = true.
Proof. apply str_eqb_eq; reflexivity. Qed.

Lemma str_eqb_neq (a b : str) : str_eqb a b = false <-> a <> b.
Proof.
  rewrite <- str_eqb_eq. destruct (str_eqb a b); split; congruence.
Qed.

(** Removing a class is a [filter] on its complement. *)
Lemma re_sub_class_remove (cls : N -> bool) (s : str) :
  re_sub_class cls [] s = filter (fun c => negb (cls c)) s.
Proof.
  unfold re_sub_class.
  induction s as [|c s IH]; simpl; [reflexivity|].
  destruct (cls c); simpl; rewrite IH; reflexivity.
Qed.

Lemma keep_digits_filter (s : str) : keep_digits s = filter is_digit s.
Proof.
  unfold keep_digits. rewrite re_sub_class_remove.
  apply filter_ext; intros c; apply negb_involutive.
Qed.

Lemma is_digit_spec (c : N) : is_digit c = true <-> 48 <= c <= 57.
Proof.
  unfold is_digit, in_range.
  change (ord "0") with 48; change (ord "9") with 57.
  rewrite andb_true_iff, !N.leb_le. reflexivity.
Qed.

Lemma keep_digits_all (s : str) : forallb is_digit (keep_digits s) = true.
Proof.
  rewrite keep_digits_filter, forallb_forall.
  intros c Hc. apply filter_In in Hc. tauto.
Qed.

Lemma filter_all {A} (f : A -> bool) (l : list A) :
  forallb f l = true -> filter f l = l.
Proof.
  induction l as [|x l IH]; simpl; [reflexivity|].
  rewrite andb_true_iff; intros [-> H]. rewrite IH; auto.
Qed.

Lemma keep_digits_digits (d : str) :
  forallb is_digit d = true -> keep_digits d = d.
Proof. rewrite keep_digits_filter. apply filter_all. Qed.

(** A class that no character of [s] belongs to leaves [s] as it is. *)
Lemma re_sub_class_absent (cls : N -> bool) (repl s : str) :
  forallb (fun c => negb (cls c)) s = true -> re_sub_class cls repl s = s.
Proof.
  unfold re_sub_class.
  induction s as [|c s IH]; simpl; [reflexivity|].
  rewrite andb_true_iff, negb_true_iff; intros [-> H].
  simpl. rewrite IH; auto.
Qed.

(** A literal whose first character is not in [s] leaves [s] as it is. *)
Lemma re_sub_literal_absent (p : N) (pat repl s : str) :
  forallb (fun c => negb (p =? c)) s = true ->
  re_sub_literal (p :: pat) repl s = s.
Proof.
  unfold re_sub_literal.
  induction s as [|c s IH]; simpl; [reflexivity|].
  rewrite andb_true_iff, negb_true_iff; intros [-> H].
  simpl. rewrite IH; auto.
Qed.

Lemma index_absent (s : str) (c : N) :
  forallb (fun x => negb (x =? c)) s = true -> index s c = None.
Proof.
  induction s as [|x s IH]; simpl; [reflexivity|].
  rewrite andb_true_iff, negb_true_iff; intros [-> H].
  rewrite IH; auto.
Qed.

Lemma forallb_impl {A} (f g : A -> bool) (l : list A) :
  (forall x, f x = true -> g x = true) ->
  forallb f l = true -> forallb g l = true.
Proof.
  intros Hfg. rewrite !forallb_forall. auto.
Qed.

Lemma digit_not_one_like (c : N) :
  is_digit c = true -> negb (one_like c) = true.
Proof.
  rewrite is_digit_spec. intros H. unfold one_like.
  rewrite negb_true_iff, !orb_false_iff, !N.eqb_neq.
  cbv [ord N_of_ascii N_of_digits]; simpl.
  repeat split; lia.
Qed.

Lemma digit_not_char (a : ascii) (c : N) :
  (ord a <? 48) || (57 <? ord a) = true ->
  is_digit c = true -> negb (ord a =? c) = true.
Proof.
  rewrite is_digit_spec, orb_true_iff, !N.ltb_lt, negb_true_iff, N.eqb_neq.
  lia.
Qed.

Lemma digit_not_char' (a : ascii) (c : N) :
  (ord a <? 48) || (57 <? ord a) = true ->
  is_digit c = true -> negb (c =? ord a) = true.
Proof.
  rewrite N.eqb_sym. apply digit_not_char.
Qed.

(** The confusable corrections leave a text of digits as it is. *)
Lemma confusables_digits (d : str) :
  forallb is_digit d = true -> confusables d = d.
Proof.
  intros H. unfold confusables.
  rewrite (re_sub_class_absent one_like).
  - change (py "oO") with (ord "o" :: [ord "O"]).
    rewrite re_sub_literal_absent.
    + change (py "sS") with (ord "s" :: [ord "S"]).
      apply re_sub_literal_absent.
      revert H; apply forallb_impl; intros c.
      apply digit_not_char; reflexivity.
    + revert H; apply forallb_impl; intros c.
      apply digit_not_char; reflexivity.
  - revert H; apply forallb_impl. apply digit_not_one_like.
Qed.

(** [clean_number] of a numeric field: the digits that are left, or the
    sentinel when none is. *)
Lemma clean_number_number (s : str) :
  clean_number s (py "number") =
  let d :=
    keep_digits
      (confusables
         match index s (ord ".") with
         | Some i => firstn i s
         | None => s
         end) in
  if str_eqb d [] then py "None" else d.
Proof.
  unfold clean_number.
  change (str_eqb (py "number") (py "contact")) with false.
  change (str_eqb (py "number") (py "number")) with true.
  cbv zeta. cbv iota.
  set (d := keep_digits (confusables _)).
  rewrite keep_digits_digits by apply keep_digits_all.
  fold d.
  assert (Hd : forallb is_digit d = true) by apply keep_digits_all.
  destruct d as [|c d']; [reflexivity|].
  simpl in Hd; apply andb_true_iff in Hd; destruct Hd as [Hc _].
  apply is_digit_spec in Hc.
  simpl str_eqb.
  destruct (N.eqb_spec c 40); [lia|]. reflexivity.
Qed.

Lemma clean_number_digits (d : str) :
  d <> [] -> forallb is_digit d = true -> clean_number d (py "number") = d.
Proof.
  intros Hne Hd. rewrite clean_number_number.
  rewrite index_absent.
  - cbv zeta. rewrite (confusables_digits _ Hd), (keep_digits_digits _ Hd).
    destruct d; [congruence | reflexivity].
  - revert Hd; apply forallb_impl; intros c.
    apply digit_not_char'; reflexivity.
Qed.

End StringFacts.

Section NormaliserClaims.

Local Open Scope N_scope.

(** C9.  Cleaning a numeric field is idempotent: [clean_number] applied
    to its own result gives that result again; a non-empty text of
    digits is returned as it is; and "I0I" is cleaned to "101". *)
Theorem clean_number_idempotent :
  (forall s : str,
      clean_number (clean_number s (py "number")) (py "number")
      = clean_number s (py "number"))
  /\ (forall d : str,
         d <> [] -> forallb is_digit d = true ->
         clean_number d (py "number") = d)
  /\ clean_number (py "I0I") (py "number") = py "101".
Proof.
  split; [|split].
  - intros s. rewrite (clean_number_number s). cbv zeta.
    set (d := keep_digits _).
    destruct (str_eqb d []) eqn:E.
    + reflexivity.
    + apply clean_number_digits.
      * apply str_eqb_neq; exact E.
      * apply keep_digits_all.
  - apply clean_number_digits.
  - reflexivity.
Qed.

Lemma clean_number_idempotent_witness :
  py "2024" <> []
  /\ forallb is_digit (py "2024") = true
  /\ clean_number (py "2024") (py "number") = py "2024".
Proof.
  split; [discriminate|].
  split; [reflexivity|].
  apply (proj1 (proj2 clean_number_idempotent)); [discriminate | reflexivity].
Defined.

(** The first of the three substitutions does what its pattern says:
    each of [[], []], [I], [i], [l], [!] and [|] is read as the digit 1. *)
Lemma clean_number_one_like (c : N) :
  one_like c = true -> clean_number [c] (py "number") = py "1".
Proof.
  unfold one_like. rewrite !orb_true_iff, !N.eqb_eq.
  intros H; repeat destruct H as [H|H]; subst c; reflexivity.
Qed.

(** The sub-type 'contact' is another matter: cutting the prefix 852
    and then the length to 8 can leave a text that starts with 852
    again. *)
Remark clean_number_contact_twice :
  clean_number (py "85285212345678") (py "contact") = py "85212345"
  /\ clean_number (py "85212345") (py "contact") = py "None".
Proof. split; reflexivity. Qed.

(** C3.  The patterns [r'oO'] and [r'sS'] of [clean_number] and
    [clean_single_character] are not character classes: they match the
    two-letter texts "oO" and "sS" only.  A lone O, o, S or s is not
    corrected, it is dropped with the other non-digits: "1O2" is cleaned
    to "12" and "S" to the sentinel, where the corrections O -> 0 and
    S -> 5 would give "102" and "5". *)
Theorem clean_number_lone_letters :
  clean_number (py "1O2") (py "number") = py "12"
  /\ clean_number (py "1o2") (py "number") = py "12"
  /\ clean_number (py "S") (py "number") = py "None"
  /\ clean_number (py "4s") (py "number") = py "4"
  /\ clean_single_character (py "O") (py "number") = Ok []
  /\ clean_number (py "1oO2sS3") (py "number") = py "10253".
Proof. repeat split; reflexivity. Qed.

(** C8, as stated, fails on six surviving characters: fewer than seven
    survive, and the result is not the sentinel. *)
Lemma clean_hkid_six_characters :
  (List.length (keep_upper_digits (py "A12345")) < 7)%nat
  /\ clean_hkid (py "A12345") = py "A1234(5)"
  /\ clean_hkid (py "A12345") <> py "None".
Proof.
  split; [vm_compute; lia|].
  split; [reflexivity | discriminate].
Qed.

Lemma skipn_pred_length {A} (l : list A) (d : A) :
  l <> [] -> skipn (Nat.pred (List.length l)) l = [last l d].
Proof.
  intros H.
  rewrite (app_removelast_last d H) at 2.
  rewrite (app_removelast_last d H) at 1.
  rewrite length_app, Nat.add_1_r. simpl Nat.pred.
  rewrite skipn_app, skipn_all, Nat.sub_diag. reflexivity.
Qed.

Lemma list_insert_before_last {A} (l : list A) (x d : A) :
  l <> [] -> list_insert l (-1) x = removelast l ++ [x; last l d].
Proof.
  intros H. unfold list_insert.
  change (-1 <? 0)%Z with true. cbv iota.
  assert (Hn : (0 < List.length l)%nat) by (destruct l; simpl; [congruence | lia]).
  replace (Z.to_nat (Z.max 0 (-1 + Z.of_nat (List.length l))))
    with (Nat.pred (List.length l)) by lia.
  rewrite <- removelast_firstn_len, (skipn_pred_length d H). reflexivity.
Qed.

Lemma list_insert_length {A} (l : list A) (i : Z) (x : A) :
  List.length (list_insert l i x) = S (List.length l).
Proof.
  unfold list_insert.
  rewrite length_app. simpl. rewrite length_firstn, length_skipn. lia.
Qed.

(** C8, amended.  [clean_hkid] keeps the capital letters and the digits,
    puts "(" before the last one kept and ")" after it, and answers the
    sentinel when the text so formed has at most 7 characters, which is
    when fewer than 6 characters were kept. *)
Theorem clean_hkid_spec (s : str) :
  let kept := keep_upper_digits s in
  let formed := list_insert kept (-1) (ord "(") ++ [ord ")"] in
  forallb (fun c => is_upper c || is_digit c) kept = true
  /\ List.length formed = (List.length kept + 2)%nat
  /\ clean_hkid s = (if (List.length formed <=? 7)%nat then py "None" else formed)
  /\ clean_hkid s =
     (if (List.length kept <? 6)%nat then py "None"
      else removelast kept ++ [ord "("; last kept 0; ord ")"]).
Proof.
  intros kept formed.
  assert (Hlen : List.length formed = (List.length kept + 2)%nat).
  { unfold formed. rewrite length_app, list_insert_length. simpl. lia. }
  split; [|split; [exact Hlen|split]].
  - unfold kept, keep_upper_digits. rewrite re_sub_class_remove.
    apply forallb_forall. intros c Hc. apply filter_In in Hc.
    destruct Hc as [_ Hc]. rewrite negb_involutive in Hc. exact Hc.
  - unfold clean_hkid. fold kept. cbv zeta. fold formed.
    destruct (Nat.ltb_spec 7 (List.length formed));
      destruct (Nat.leb_spec (List.length formed) 7); try lia; reflexivity.
  - unfold clean_hkid. fold kept. cbv zeta. fold formed.
    destruct (Nat.ltb_spec 7 (List.length formed));
      destruct (Nat.ltb_spec (List.length kept) 6); try lia; try reflexivity.
    unfold formed. rewrite (@list_insert_before_last _ kept (ord "(") 0).
    + rewrite <- app_assoc. reflexivity.
    + intros E. rewrite E in *. simpl in *. lia.
Qed.

End NormaliserClaims.

(* ================================================================== *)
(** * Properties of the OCR wrappers and of the cell splitter *)
(* ================================================================== *)

Section StripFacts.

Lemma lstrip_nil (s : str) : lstrip s = [] <-> forallb is_space s = true.
Proof.
  induction s as [|c s IH]; simpl; [tauto|].
  destruct (is_space c); simpl; [exact IH | split; discriminate].
Qed.

Lemma forallb_rev {A} (f : A -> bool) (l : list A) :
  forallb f (rev l) = forallb f l.
Proof.
  induction l as [|x l IH]; simpl; [reflexivity|].
  rewrite forallb_app, IH. simpl. rewrite andb_true_r. apply andb_comm.
Qed.

Lemma lstrip_spaces (s : str) :
  forallb is_space (lstrip s) = true -> lstrip s = [].
Proof.
  induction s as [|c s IH]; simpl; [reflexivity|].
  destruct (is_space c) eqn:E; [exact IH|].
  simpl. rewrite E. discriminate.
Qed.

Lemma rev_nil {A} (l : list A) : rev l = [] <-> l = [].
Proof.
  split; [|intros ->; reflexivity].
  intros H. apply (f_equal (@rev A)) in H. rewrite rev_involutive in H.
  exact H.
Qed.

(** Stripping leaves nothing exactly of a text of white space. *)
Lemma strip_nil (s : str) : strip s = [] <-> forallb is_space s = true.
Proof.
  unfold strip, rstrip. split.
  - intros H. apply rev_nil, lstrip_nil in H. rewrite forallb_rev in H.
    apply lstrip_nil, lstrip_spaces, H.
  - intros H. apply lstrip_nil in H. rewrite H. reflexivity.
Qed.

Lemma strip_nilb (s : str) : str_eqb (strip s) [] = forallb is_space s.
Proof.
  destruct (forallb is_space s) eqn:E.
  - apply str_eqb_eq, strip_nil, E.
  - apply str_eqb_neq. rewrite strip_nil, E. discriminate.
Qed.

End StripFacts.

Section WrapperClaims.

Context {X : Externals}.

(** C10, amended.  [ocr_box] answers the sentinel when the text of the
    engine is empty or is "N/A", and otherwise that text stripped of the
    white space around it.  What it returns is empty exactly when the
    text of the engine is not empty and is white space only.  With a
    boolean [halve] the call always returns. *)
Theorem ocr_box_sentinel (img : Img) (coordinates : rect)
    (concentrate : bool) (halve : halve_arg)
    (resize blur sharpen erode dilate : bool) (lang config : str) :
  match
    ocr_box_region img coordinates concentrate halve resize blur sharpen
      erode dilate
  with
  | Ok region =>
      ocr_box img coordinates concentrate halve resize blur sharpen erode
        dilate lang config
      = Ok (let raw := image_to_string region lang config in
            if str_eqb raw [] || str_eqb raw (py "N/A") then py "None"
            else strip raw)
      /\ (let raw := image_to_string region lang config in
          let returned :=
            if str_eqb raw [] || str_eqb raw (py "N/A") then py "None"
            else strip raw in
          str_eqb returned []
          = negb (str_eqb raw []) && forallb is_space raw)
  | Raise e =>
      ocr_box img coordinates concentrate halve resize blur sharpen erode
        dilate lang config = Raise e
      /\ exists s, halve = HalveStr s
  end.
Proof.
  unfold ocr_box.
  destruct (ocr_box_region _ _ _ _ _ _ _ _ _) as [region|e] eqn:E;
    cbn [bind].
  - split.
    + unfold ocr_box_return. cbv zeta.
      destruct (str_eqb (image_to_string region lang config) []);
        destruct (str_eqb (image_to_string region lang config) (py "N/A"));
        reflexivity.
    + cbv zeta.
      destruct (str_eqb (image_to_string region lang config) []) eqn:E1;
        [reflexivity|].
      destruct (str_eqb (image_to_string region lang config) (py "N/A"))
        eqn:E2; cbn [negb andb orb].
      * apply str_eqb_eq in E2. rewrite E2. reflexivity.
      * apply strip_nilb.
  - split; [reflexivity|].
    destruct halve as [b|s]; [|eauto].
    unfold ocr_box_region in E. cbn [bind] in E.
    repeat match type of E with
           | context [if ?c then _ else _] => destruct c
           end; discriminate.
Qed.

End WrapperClaims.

(** C10, as stated, fails on a text of white space: the engine reads a
    blank, which is neither empty nor "N/A", and [ocr_box] returns the
    empty text.  It also answers the sentinel for a text that reads
    " None". *)
Lemma ocr_box_returns_empty :
  @ocr_box Toy.blank_page O Toy.a_rect false (HalveBool false) false true
    false false false (py "eng") []
  = Ok []
  /\ @ocr_box Toy.none_page O Toy.a_rect false (HalveBool false) false true
       false false false (py "eng") []
     = Ok (py "None").
Proof. split; reflexivity. Qed.

Section SplitterClaims.

Local Open Scope Z_scope.

Lemma in_range_bounds (n k : Z) : In k (range n) -> 0 <= k < n.
Proof.
  unfold range. rewrite in_map_iff. intros [i [<- Hi]].
  apply in_seq in Hi. lia.
Qed.

Lemma range_length (n : Z) : List.length (range n) = Z.to_nat n.
Proof. unfold range. rewrite length_map, length_seq. reflexivity. Qed.

Lemma map_constant {A B} (f : A -> B) (c : B) (l : list A) :
  (forall x, In x l -> f x = c) -> map f l = repeat c (List.length l).
Proof.
  induction l as [|x l IH]; simpl; intros H; [reflexivity|].
  rewrite H by auto. rewrite IH by auto. reflexivity.
Qed.

(** A cell that ends within the crop is cut as it is bounded. *)
Lemma cell_slice_inside (s L k : Z) :
  0 <= s -> 0 <= k -> s * (k + 1) <= L ->
  cell_slice s L k = (s * k, s * (k + 1))
  /\ cell_width L (cell_slice s L k) = s.
Proof.
  intros Hs Hk Hin. unfold cell_slice, cell_width.
  rewrite Z.min_l by lia. split; [reflexivity|].
  cbn [fst snd]. unfold slice_len, slice_bound.
  assert (0 <= s * k) by nia.
  assert (s * k <= s * (k + 1)) by nia.
  destruct (Z.ltb_spec (s * (k + 1)) 0); [lia|].
  destruct (Z.ltb_spec (s * k) 0); [lia|].
  rewrite !Z.min_l by lia. nia.
Qed.

(** C2, as stated, fails on a crop of width 141 cut into 7 cells: every
    cell, the last one too, is 20 columns wide; column 140 is in none. *)
Lemma cell_widths_141_7 :
  floordiv 141 7 = Ok 20
  /\ cell_slices 20 141 7
     = [(0, 20); (20, 40); (40, 60); (60, 80); (80, 100); (100, 120);
        (120, 140)]
  /\ map (cell_width 141) (cell_slices 20 141 7)
     <> [20; 20; 20; 20; 20; 20; 21].
Proof.
  split; [reflexivity|]. split; [reflexivity|].
  vm_compute. discriminate.
Qed.

(** C2, amended.  A crop of width [L] cut into [n >= 1] cells: the cells
    are bounded by the multiples of [L / n], every cell is [L / n]
    columns wide, and the [L mod n] columns that remain on the right
    are in no cell. *)
Theorem cell_slices_even (L n : Z) :
  0 <= L -> 1 <= n ->
  floordiv L n = Ok (L / n)
  /\ cell_slices (L / n) L n
     = map (fun k => (L / n * k, L / n * (k + 1))) (range n)
  /\ map (cell_width L) (cell_slices (L / n) L n)
     = repeat (L / n) (Z.to_nat n)
  /\ L / n * n = L - L mod n.
Proof.
  intros HL Hn.
  assert (Hs : 0 <= L / n) by (apply Z.div_pos; lia).
  assert (Hle : L / n * n <= L) by (rewrite Z.mul_comm; apply Z.mul_div_le; lia).
  assert (Hin : forall k, In k (range n) -> L / n * (k + 1) <= L).
  { intros k Hk. apply in_range_bounds in Hk. nia. }
  split; [|split; [|split]].
  - unfold floordiv. destruct (Z.eqb_spec n 0); [lia | reflexivity].
  - unfold cell_slices. apply map_ext_in. intros k Hk.
    apply cell_slice_inside; auto.
    apply in_range_bounds in Hk; lia.
  - unfold cell_slices. rewrite map_map, <- range_length.
    apply map_constant. intros k Hk.
    apply cell_slice_inside; auto.
    apply in_range_bounds in Hk; lia.
  - rewrite Z.mod_eq by lia. lia.
Qed.

Lemma cell_slices_even_witness :
  0 <= 141 /\ 1 <= 7
  /\ map (cell_width 141) (cell_slices (141 / 7) 141 7)
     = repeat (141 / 7) (Z.to_nat 7).
Proof.
  split; [lia|]. split; [lia|].
  apply (proj1 (proj2 (proj2 (@cell_slices_even 141 7 ltac:(lia) ltac:(lia))))).
Defined.

End SplitterClaims.

(* ================================================================== *)
(** * Properties of the skew estimate and of the box detector *)
(* ================================================================== *)

Section QFacts.

Lemma Qltb_lt (a b : Q) : Qltb a b = true <-> (a < b)%Q.
Proof.
  unfold Qltb. rewrite negb_true_iff.
  split.
  - intros H. apply Qnot_le_lt. intros Hle.
    apply Qle_bool_iff in Hle. congruence.
  - intros H. destruct (Qle_bool b a) eqn:E; [|reflexivity].
    apply Qle_bool_iff in E. exfalso. exact (Qlt_not_le _ _ H E).
Qed.

Lemma Qltb_ge (a b : Q) : Qltb a b = false <-> (b <= a)%Q.
Proof.
  unfold Qltb. rewrite negb_false_iff. apply Qle_bool_iff.
Qed.

End QFacts.

Section DetectorClaims.

Context {X : Externals}.

Lemma calculate_angle_step_axis (angles : list Q) (line : segment) :
  axis_aligned line -> calculate_angle_step angles line = angles.
Proof.
  destruct line as [[[x1 y1] x2] y2]. unfold axis_aligned, calculate_angle_step.
  intros [H|H]; apply Qeq_bool_iff in H; rewrite H; simpl.
  - reflexivity.
  - rewrite andb_false_r. reflexivity.
Qed.

Lemma calculate_angle_loop_axis (lines : list segment) (angles : list Q) :
  Forall axis_aligned lines ->
  fold_left calculate_angle_step lines angles = angles.
Proof.
  intros H; revert angles.
  induction H as [|line lines Hl _ IH]; intros angles; simpl; [reflexivity|].
  rewrite calculate_angle_step_axis by assumption. apply IH.
Qed.

(** C7.  When the Hough transform finds no segment, or when every
    segment it finds is passed over as axis-aligned, [calculate_angle]
    returns the angle 0; it is a total function, nothing is raised. *)
Theorem calculate_angle_no_segment (boxes : Img) :
  let lines :=
    cv_HoughLinesP (img_as_ubyte (skeletonize (img_as_float boxes))) in
  (lines = None
   \/ exists l, lines = Some l /\ Forall axis_aligned l) ->
  calculate_angle boxes = 0%Q.
Proof.
  cbv zeta. unfold calculate_angle.
  intros [->|[l [-> Hl]]]; cbn [bind]; [reflexivity|].
  rewrite calculate_angle_loop_axis by assumption. reflexivity.
Qed.

(** One segment whose angle [a] lies above 30 (and not above 120, so
    that the second test does not fire): the loop records [90 - a]. *)
Lemma calculate_angle_step_above_30 (angles : list Q) (x1 y1 x2 y2 : Z) :
  let a := OcrTools.atan2_degrees (y2 - y1) (x2 - x1) in
  (30 # 1 < a)%Q -> (a <= 120 # 1)%Q ->
  calculate_angle_step angles (x1, y1, x2, y2)
  = angles ++ [((90 # 1) - a)%Q].
Proof.
  cbv zeta. intros Hlo Hhi. unfold calculate_angle_step.
  set (a := OcrTools.atan2_degrees _ _) in *.
  assert (E0 : Qeq_bool a 0 = false).
  { destruct (Qeq_bool a 0) eqn:E; [|reflexivity].
    apply Qeq_bool_iff in E. rewrite E in Hlo. discriminate Hlo. }
  assert (E90 : Qeq_bool a (-90 # 1) = false).
  { destruct (Qeq_bool a (-90 # 1)) eqn:E; [|reflexivity].
    apply Qeq_bool_iff in E. rewrite E in Hlo. discriminate Hlo. }
  rewrite E0, E90. cbn [negb andb].
  apply Qltb_lt in Hlo. rewrite Hlo.
  assert (Hn : Qltb ((90 # 1) - a) (-30 # 1) = false).
  { apply Qltb_ge. lra. }
  rewrite Hn. reflexivity.
Qed.

(** One segment whose angle [a] lies below -30 and is not -90: the loop
    records [a + 90]. *)
Lemma calculate_angle_step_below_minus_30 (angles : list Q)
    (x1 y1 x2 y2 : Z) :
  let a := OcrTools.atan2_degrees (y2 - y1) (x2 - x1) in
  (a < -30 # 1)%Q -> ~ (a == -90 # 1)%Q ->
  calculate_angle_step angles (x1, y1, x2, y2)
  = angles ++ [(a + (90 # 1))%Q].
Proof.
  cbv zeta. intros Hlo Hne. unfold calculate_angle_step.
  set (a := OcrTools.atan2_degrees _ _) in *.
  assert (E0 : Qeq_bool a 0 = false).
  { destruct (Qeq_bool a 0) eqn:E; [|reflexivity].
    apply Qeq_bool_iff in E. rewrite E in Hlo. discriminate Hlo. }
  assert (E90 : Qeq_bool a (-90 # 1) = false).
  { destruct (Qeq_bool a (-90 # 1)) eqn:E; [|reflexivity].
    apply Qeq_bool_iff in E. contradiction. }
  rewrite E0, E90. cbn [negb andb].
  assert (Hn : Qltb (30 # 1) a = false) by (apply Qltb_ge; lra).
  rewrite Hn. apply Qltb_lt in Hlo. rewrite Hlo. reflexivity.
Qed.

End DetectorClaims.

Lemma calculate_angle_no_segment_witness :
  (exists l,
      @cv_HoughLinesP Toy.axes_page
        (@img_as_ubyte Toy.axes_page
           (@skeletonize Toy.axes_page (@img_as_float Toy.axes_page O)))
      = Some l
      /\ Forall (@axis_aligned Toy.axes_page) l)
  /\ @calculate_angle Toy.axes_page O = 0%Q.
Proof.
  assert (H : exists l,
             @cv_HoughLinesP Toy.axes_page
               (@img_as_ubyte Toy.axes_page
                  (@skeletonize Toy.axes_page
                     (@img_as_float Toy.axes_page O)))
             = Some l
             /\ Forall (@axis_aligned Toy.axes_page) l).
  { eexists; split; [reflexivity|].
    apply Forall_cons; [left; vm_compute; reflexivity|].
    apply Forall_cons; [right; vm_compute; reflexivity|].
    apply Forall_nil. }
  split; [exact H|].
  apply (@calculate_angle_no_segment Toy.axes_page O).
  right; exact H.
Defined.

(** C6.  A segment at 45 degrees is recorded as [90 - 45 = 45], not as
    [45 - 90 = -45]: above 30 degrees the source computes [90 - angle],
    which is the fold [angle - 90] with its sign reversed, while below
    -30 degrees it computes [angle + 90].  The estimate of a mask whose
    only segment runs from (0,0) to (300,300) is 45. *)
Theorem calculate_angle_diagonal :
  @calculate_angle Toy.diagonal_page O = 45 # 1
  /\ @calculate_angle_step Toy.diagonal_page [] (0, 0, 300, 300)%Z
     = [45 # 1]
  /\ @calculate_angle_step Toy.diagonal_page [] (0, 0, 300, -300)%Z
     = [45 # 1].
Proof. repeat split; reflexivity. Qed.

Section DetectBoxesFacts.

Context {X : Externals}.

Variables (thin_lines : bool) (thin_alignment : str) (skel canny : bool).
Variables (vertical_iterations horizontal_iterations : Z).

(** A call of [detect_boxes] without alignment is one frame deep: it
    rotates nothing and calls nothing. *)
Lemma detect_boxes_no_align (fuel : nat) (img : Img) (thresh_value : Z) :
  detect_boxes (S fuel) img false thin_lines thin_alignment skel canny
    thresh_value vertical_iterations horizontal_iterations
  = Some ([Call img false],
          match dilate_kernels thin_lines thin_alignment with
          | Raise e => Raise e
          | Ok (vk, hk) =>
              thin_and_return
                (line_mask img vk hk vertical_iterations horizontal_iterations)
                None None skel canny thresh_value
          end).
Proof.
  cbn [detect_boxes].
  destruct (dilate_kernels thin_lines thin_alignment) as [[vk hk]|e];
    reflexivity.
Qed.

(** With a recursive result in hand, the tail of the outer call pairs
    it with the angle. *)
Lemma thin_and_return_rotated (boxes : Img) (a : Q) (v : value)
    (thresh_value : Z) :
  thin_and_return boxes (Some a) (Some v) false false thresh_value
  = Ok (VPair a v).
Proof. reflexivity. Qed.

(** A call of [detect_boxes] with alignment, on two frames or more. *)
Lemma detect_boxes_align (fuel : nat) (img : Img) (thresh_value : Z)
    (vk hk : kernel) :
  dilate_kernels thin_lines thin_alignment = Ok (vk, hk) ->
  let boxes :=
    line_mask img vk hk vertical_iterations horizontal_iterations in
  let skew := calculate_angle boxes in
  let rotated := rotate_image img skew in
  detect_boxes (S (S fuel)) img true thin_lines thin_alignment skel canny
    thresh_value vertical_iterations horizontal_iterations
  = if Qltb (15 # 100) skew || Qltb skew (-15 # 100)
    then
      Some ([Call img true; Rotate img skew; Call rotated false],
            match
              thin_and_return
                (line_mask rotated vk hk vertical_iterations
                   horizontal_iterations)
                None None skel canny 80
            with
            | Ok v => Ok (VPair skew v)
            | Raise e => Raise e
            end)
    else
      Some ([Call img true],
            thin_and_return boxes (Some skew) None skel canny thresh_value).
Proof.
  intros Hk boxes skew rotated.
  change (detect_boxes (S (S fuel)) img true thin_lines thin_alignment skel
            canny thresh_value vertical_iterations horizontal_iterations)
    with
      (match dilate_kernels thin_lines thin_alignment with
       | Raise e => Some ([Call img true], Raise e)
       | Ok (vk, hk) =>
           let boxes :=
             line_mask img vk hk vertical_iterations horizontal_iterations in
           let skew := calculate_angle boxes in
           if Qltb (15 # 100) skew || Qltb skew (-15 # 100) then
             match
               detect_boxes (S fuel) (rotate_image img skew) false thin_lines
                 thin_alignment skel canny 80 vertical_iterations
                 horizontal_iterations
             with
             | None => None
             | Some (history, Raise e) =>
                 Some (Call img true :: Rotate img skew :: history, Raise e)
             | Some (history, Ok boxes_thinned) =>
                 Some (Call img true :: Rotate img skew :: history,
                       thin_and_return boxes (Some skew) (Some boxes_thinned)
                         false false thresh_value)
             end
           else
             Some ([Call img true],
                   thin_and_return boxes (Some skew) None skel canny
                     thresh_value)
       end).
  rewrite Hk. cbv zeta. fold boxes. fold skew. fold rotated.
  destruct (Qltb (15 # 100) skew || Qltb skew (-15 # 100)); [|reflexivity].
  rewrite detect_boxes_no_align, Hk.
  destruct (thin_and_return _ None None skel canny 80) as [v|e];
    reflexivity.
Qed.

(** The kernels are chosen unless thin lines come without their
    alignment. *)
Lemma dilate_kernels_ok :
  (thin_lines = true ->
   thin_alignment = py "vertical" \/ thin_alignment = py "horizontal") ->
  exists vk hk, dilate_kernels thin_lines thin_alignment = Ok (vk, hk).
Proof.
  unfold dilate_kernels. destruct thin_lines; [|eauto].
  intros H. destruct (H eq_refl) as [->| ->]; do 2 eexists; reflexivity.
Qed.

(** With [skel] or [canny] the tail of [detect_boxes] finds a mask to
    return. *)
Lemma thin_and_return_ok (boxes : Img) (thresh_value : Z) :
  skel || canny = true ->
  exists m,
    thin_and_return boxes None None skel canny thresh_value = Ok (VMask m)
    /\ forall a,
         thin_and_return boxes (Some a) None skel canny thresh_value
         = Ok (VPair a (VMask m)).
Proof.
  unfold thin_and_return. destruct canny, skel; try discriminate; intros _;
    eexists; split; reflexivity.
Qed.

End DetectBoxesFacts.

Section DetectBoxesClaims.

Context {X : Externals}.

(** C5.  With alignment, [detect_boxes] corrects the skew at most once.
    When the estimate is beyond 0.15 degrees either way, the image is
    rotated by the estimate and [detect_boxes] runs once more, without
    alignment, on the rotated image: the history holds one rotation and
    one inner call, which is one frame deep.  When the estimate is
    within [-0.15, 0.15], nothing is rotated and the mask of the image
    as given is thinned and returned. *)
Theorem detect_boxes_corrects_skew_once (fuel : nat) (img : Img)
    (thin_lines : bool) (thin_alignment : str) (skel canny : bool)
    (thresh_value vertical_iterations horizontal_iterations : Z)
    (vk hk : kernel) :
  (2 <= fuel)%nat ->
  dilate_kernels thin_lines thin_alignment = Ok (vk, hk) ->
  let boxes :=
    line_mask img vk hk vertical_iterations horizontal_iterations in
  let skew := calculate_angle boxes in
  let rotated := rotate_image img skew in
  ((15 # 100 < skew \/ skew < -15 # 100)%Q ->
   detect_boxes fuel img true thin_lines thin_alignment skel canny
     thresh_value vertical_iterations horizontal_iterations
   = Some ([Call img true; Rotate img skew; Call rotated false],
           match
             thin_and_return
               (line_mask rotated vk hk vertical_iterations
                  horizontal_iterations)
               None None skel canny 80
           with
           | Ok v => Ok (VPair skew v)
           | Raise e => Raise e
           end)
   /\ exists inner,
        detect_boxes 1 rotated false thin_lines thin_alignment skel canny 80
          vertical_iterations horizontal_iterations
        = Some ([Call rotated false], inner))
  /\ ((-15 # 100 <= skew /\ skew <= 15 # 100)%Q ->
      detect_boxes fuel img true thin_lines thin_alignment skel canny
        thresh_value vertical_iterations horizontal_iterations
      = Some ([Call img true],
              thin_and_return boxes (Some skew) None skel canny
                thresh_value)).
Proof.
  intros Hfuel Hk boxes skew rotated.
  destruct fuel as [|[|fuel]]; try lia.
  rewrite (detect_boxes_align thin_lines thin_alignment skel canny
             vertical_iterations horizontal_iterations fuel img thresh_value
             Hk).
  fold boxes. fold skew. fold rotated.
  split.
  - intros Hout.
    assert (E : Qltb (15 # 100) skew || Qltb skew (-15 # 100) = true).
    { apply orb_true_iff. destruct Hout as [H|H]; [left|right];
        apply Qltb_lt; exact H. }
    rewrite E. split; [reflexivity|].
    rewrite detect_boxes_no_align. eauto.
  - intros [Hlo Hhi].
    assert (E : Qltb (15 # 100) skew || Qltb skew (-15 # 100) = false).
    { apply orb_false_iff. split; apply Qltb_ge; assumption. }
    rewrite E. reflexivity.
Qed.

(** C4, amended.  Unless thin lines are asked for without an alignment
    of 'vertical' or 'horizontal', and provided one of [skel] and
    [canny] is set, [detect_boxes] returns a mask (paired with the angle
    when alignment was on), and [get_boxes_info] returns one entry for
    each contour of that mask: no entry when there is no contour. *)
Theorem detect_boxes_returns (fuel : nat) (img : Img) (align : bool)
    (thin_lines : bool) (thin_alignment : str) (skel canny : bool)
    (thresh_value vertical_iterations horizontal_iterations : Z) :
  (2 <= fuel)%nat ->
  (thin_lines = true ->
   thin_alignment = py "vertical" \/ thin_alignment = py "horizontal") ->
  skel || canny = true ->
  exists history v m,
    detect_boxes fuel img align thin_lines thin_alignment skel canny
      thresh_value vertical_iterations horizontal_iterations
    = Some (history, Ok v)
    /\ (if align then exists a, v = VPair a (VMask m) else v = VMask m)
    /\ forall retr approx,
         exists boxes_info,
           get_boxes_info (VMask m) retr approx = Ok boxes_info
           /\ List.length boxes_info
              = List.length (cv_findContours m retr CHAIN_APPROX_SIMPLE)
           /\ (cv_findContours m retr CHAIN_APPROX_SIMPLE = [] ->
               boxes_info = []).
Proof.
  intros Hfuel Hthin Hmode.
  destruct (dilate_kernels_ok Hthin) as [vk [hk Hk]].
  assert (Hinfo : forall m retr approx,
             exists boxes_info,
               get_boxes_info (VMask m) retr approx = Ok boxes_info
               /\ List.length boxes_info
                  = List.length (cv_findContours m retr CHAIN_APPROX_SIMPLE)
               /\ (cv_findContours m retr CHAIN_APPROX_SIMPLE = [] ->
                   boxes_info = [])).
  { intros m retr approx. eexists. split; [reflexivity|]. split.
    - unfold box_info. rewrite length_combine, !length_map.
      apply Nat.min_id.
    - intros ->. reflexivity. }
  destruct fuel as [|[|fuel]]; try lia.
  destruct align.
  - rewrite (detect_boxes_align thin_lines thin_alignment skel canny
               vertical_iterations horizontal_iterations fuel img
               thresh_value Hk).
    destruct (Qltb _ _ || Qltb _ _).
    + destruct (thin_and_return_ok skel canny
                  (line_mask
                     (rotate_image img
                        (calculate_angle
                           (line_mask img vk hk vertical_iterations
                              horizontal_iterations)))
                     vk hk vertical_iterations horizontal_iterations)
                  80 Hmode) as [m [Hm _]].
      rewrite Hm. do 3 eexists. split; [reflexivity|]. split; eauto.
    + destruct (thin_and_return_ok skel canny
                  (line_mask img vk hk vertical_iterations
                     horizontal_iterations)
                  thresh_value Hmode) as [m [_ Hm]].
      rewrite Hm. do 3 eexists. split; [reflexivity|]. split; eauto.
  - rewrite detect_boxes_no_align, Hk.
    destruct (thin_and_return_ok skel canny
                (line_mask img vk hk vertical_iterations
                   horizontal_iterations)
                thresh_value Hmode) as [m [Hm _]].
    rewrite Hm. do 3 eexists. split; [reflexivity|]. split; eauto.
Qed.

End DetectBoxesClaims.

Lemma detect_boxes_corrects_skew_once_witness :
  (2 <= 2)%nat
  /\ @dilate_kernels true (py "vertical") = Ok (Ones 10 1, Ones 1 2)
  /\ @detect_boxes Toy.diagonal_page 2 O true true (py "vertical") true false
       80 5 3
     = Some ([@Call Toy.diagonal_page O true;
              @Rotate Toy.diagonal_page O (45 # 1);
              @Call Toy.diagonal_page 1%nat false],
             Ok (@VPair Toy.diagonal_page (45 # 1)
                   (@VMask Toy.diagonal_page 1%nat))).
Proof.
  split; [lia|]. split; [reflexivity|].
  refine (proj1
            (proj1
               (@detect_boxes_corrects_skew_once Toy.diagonal_page 2 O true
                  (py "vertical") true false 80 5 3 (Ones 10 1) (Ones 1 2)
                  _ _)
               _));
    [lia | reflexivity | left; reflexivity].
Defined.

(** C4, as stated, fails when thin lines are asked for and the alignment
    is left at its default 'None': the assertion at the head of
    [detect_boxes] raises. *)
Lemma detect_boxes_thin_lines_default :
  @detect_boxes Toy.straight_page 2 O true true (py "None") true false 80 5 3
  = Some ([@Call Toy.straight_page O true], Raise AssertionError).
Proof. reflexivity. Qed.

Lemma detect_boxes_returns_witness :
  (2 <= 2)%nat
  /\ (true = true ->
      py "vertical" = py "vertical" \/ py "vertical" = py "horizontal")
  /\ true || false = true
  /\ exists history v m,
       @detect_boxes Toy.straight_page 2 O true true (py "vertical") true
         false 80 5 3
       = Some (history, Ok v)
       /\ (exists a, v = VPair a (@VMask Toy.straight_page m))
       /\ forall retr approx,
            exists boxes_info,
              @get_boxes_info Toy.straight_page (VMask m) retr approx
              = Ok boxes_info
              /\ List.length boxes_info
                 = List.length
                     (@cv_findContours Toy.straight_page m retr
                        CHAIN_APPROX_SIMPLE)
              /\ (@cv_findContours Toy.straight_page m retr
                    CHAIN_APPROX_SIMPLE = [] ->
                  boxes_info = []).
Proof.
  split; [lia|]. split; [intros _; left; reflexivity|].
  split; [reflexivity|].
  apply (@detect_boxes_returns Toy.straight_page 2 O true true (py "vertical")
           true false 80 5 3);
    [lia | intros _; left; reflexivity | reflexivity].
Defined.

(* ================================================================== *)
(** * Properties of the page layouts *)
(* ================================================================== *)

Section ListFacts.

Lemma insert_by_length {A} (before : A -> A -> bool) (x : A) (l : list A) :
  List.length (insert_by before x l) = S (List.length l).
Proof.
  induction l as [|y l IH]; simpl; [reflexivity|].
  destruct (before x y); simpl; [reflexivity | rewrite IH; reflexivity].
Qed.

(** Sorting keeps every box. *)
Lemma sorted_length {A K} (leb : K -> K -> bool) (key : A -> K)
    (reverse : bool) (l : list A) :
  List.length (sorted leb key reverse l) = List.length l.
Proof.
  unfold sorted. induction l as [|x l IH]; simpl; [reflexivity|].
  rewrite insert_by_length, IH. reflexivity.
Qed.

Lemma slice_length {A} (l : list A) (a b : nat) :
  List.length (slice l a b) = Nat.min (b - a) (List.length l - a).
Proof. unfold slice. rewrite length_firstn, length_skipn. reflexivity. Qed.

(** An index that is answered lies within the list. *)
Lemma getitem_ok {A} (l : list A) (i : Z) (x : A) :
  getitem l i = Ok x ->
  (- Z.of_nat (List.length l) <= i < Z.of_nat (List.length l))%Z.
Proof.
  unfold getitem.
  destruct (Z.ltb_spec i 0);
    match goal with
    | |- context [(?a <=? ?b)%Z && (?c <? ?d)%Z] =>
        destruct (Z.leb_spec a b); destruct (Z.ltb_spec c d)
    end; cbn [andb]; try discriminate; intros _; lia.
Qed.

Lemma unpack2_ok {A} (l : list A) (p : A * A) :
  unpack2 l = Ok p -> List.length l = 2%nat.
Proof.
  destruct l as [|a [|b [|c l]]]; simpl; try discriminate. reflexivity.
Qed.

End ListFacts.

(** One step through a page: the next call either raises, which ends
    the page, or returns, and the lengths that an answered index
    implies are kept. *)
Ltac page_lengths :=
  repeat match goal with
         | H : getitem _ _ = Ok _ |- _ => apply getitem_ok in H
         | H : unpack2 _ = Ok _ |- _ => apply unpack2_ok in H
         end;
  repeat match goal with
         | H : context [List.length (sorted _ _ _ _)] |- _ =>
             rewrite sorted_length in H
         | H : context [List.length (slice _ _ _)] |- _ =>
             rewrite slice_length in H
         | H : context [List.length (firstn _ _)] |- _ =>
             rewrite length_firstn in H
         | H : context [List.length (skipn _ _)] |- _ =>
             rewrite length_skipn in H
         end.

Ltac page_step :=
  match goal with
  | |- raises (Raise _) => eexists; reflexivity
  | |- raises (bind ?r _) =>
      let E := fresh "E" in
      destruct r eqn:E; cbn [bind];
      [ try discriminate E; try (exfalso; page_lengths; lia)
      | eexists; reflexivity ]
  | |- raises (match ?a with pair _ _ => _ end) => destruct a
  end.

Section LayoutClaims.

Context {X : Externals}.

Lemma raises_bind {A B} (r : result A) (k : A -> result B) :
  raises r -> raises (bind r k).
Proof. intros [e ->]. exists e. reflexivity. Qed.

Lemma PageOne_needs_six (page_path : str) (img : Img) (skew : Q)
    (boxes : list box_info) :
  PageOne_boxes page_path = Ok (img, skew, boxes) ->
  (List.length boxes < 6)%nat -> raises (PageOne_init page_path).
Proof.
  intros Hb Hlen. unfold PageOne_init. rewrite Hb. cbn [bind]. cbv zeta.
  repeat page_step.
Qed.

Lemma PageTwo_needs_three (page_path : str) (img : Img) (skew : Q)
    (boxes : list box_info) :
  PageTwo_boxes page_path = Ok (img, skew, boxes) ->
  (List.length boxes < 3)%nat -> raises (PageTwo_init page_path).
Proof.
  intros Hb Hlen. unfold PageTwo_init. rewrite Hb. cbn [bind]. cbv zeta.
  repeat page_step.
Qed.

Lemma PageThree_needs_twenty_five (page_path : str) (img : Img) (skew : Q)
    (boxes : list box_info) :
  PageThree_boxes page_path = Ok (img, skew, boxes) ->
  (List.length boxes < 25)%nat -> raises (PageThree_init page_path).
Proof.
  intros Hb Hlen. unfold PageThree_init. rewrite Hb. cbn [bind]. cbv zeta.
  repeat page_step.
Qed.

Lemma PageFour_needs_sixteen (page_path : str) (img : Img) (skew : Q)
    (boxes : list box_info) :
  PageFour_boxes page_path = Ok (img, skew, boxes) ->
  (List.length boxes < 16)%nat -> raises (PageFour_init page_path).
Proof.
  intros Hb Hlen. unfold PageFour_init. rewrite Hb. cbn [bind]. cbv zeta.
  repeat page_step.
Qed.

Lemma PageEight_needs_one (page_path : str) (img : Img) (skew : Q)
    (boxes : list box_info) :
  PageEight_boxes page_path = Ok (img, skew, boxes) ->
  (List.length boxes < 1)%nat -> raises (PageEight_init page_path).
Proof.
  intros Hb Hlen. unfold PageEight_init. rewrite Hb. cbn [bind]. cbv zeta.
  repeat page_step.
Qed.

End LayoutClaims.

Section DocumentClaims.

Context {X : Externals}.

Lemma page_init_raises (p : page_type) (page_path : str) :
  raises (page_init p page_path) ->
  match p with
  | page_one => raises (PageOne_init page_path)
  | page_two => raises (PageTwo_init page_path)
  | page_three => raises (PageThree_init page_path)
  | page_four => raises (PageFour_init page_path)
  | page_eight => raises (PageEight_init page_path)
  end.
Proof.
  destruct p; cbn [page_init]; intros [e He];
    match type of He with
    | bind ?r _ = _ => destruct r as [a|e']; cbn [bind] in He;
                       [discriminate He | exists e'; reflexivity]
    end.
Qed.

(** Nothing in [AnnualReturn.__init__] catches what a page raises. *)
Lemma AnnualReturn_propagates (p : page_type) (page_path : str)
    (page_paths : list str) :
  getitem page_paths (page_index p) = Ok page_path ->
  raises (page_init p page_path) ->
  raises (AnnualReturn_init page_paths).
Proof.
  intros Hget Hr. apply page_init_raises in Hr.
  unfold AnnualReturn_init.
  destruct p; destruct Hr as [e He]; cbn [page_index] in Hget;
    repeat match goal with
           | |- raises (bind (getitem page_paths ?i) _) =>
               first [ rewrite Hget; cbn [bind]; rewrite He; cbn [bind];
                       eexists; reflexivity
                     | destruct (getitem page_paths i); cbn [bind];
                       [ | eexists; reflexivity ] ]
           | |- raises (bind ?r _) =>
               destruct r; cbn [bind]; [ | eexists; reflexivity ]
           end.
Qed.

(** C1, amended.  A page whose detected boxes are fewer than its
    bindings reach for raises, and the document with it: fewer than 6
    boxes on page 1, than 3 on page 2, than 25 on page 3, than 16 on
    page 4, and none on page 8.  No page record is built then. *)
Theorem page_raises_without_boxes (p : page_type) (page_path : str)
    (img : Img) (skew : Q) (boxes : list box_info) :
  page_boxes p page_path = Ok (img, skew, boxes) ->
  (List.length boxes < boxes_needed p)%nat ->
  raises (page_init p page_path)
  /\ forall page_paths,
       getitem page_paths (page_index p) = Ok page_path ->
       raises (AnnualReturn_init page_paths).
Proof.
  intros Hb Hlen.
  assert (Hr : raises (page_init p page_path)).
  { destruct p; cbn [page_boxes boxes_needed page_init] in *;
      apply raises_bind.
    - eapply PageOne_needs_six; eassumption.
    - eapply PageTwo_needs_three; eassumption.
    - eapply PageThree_needs_twenty_five; eassumption.
    - eapply PageFour_needs_sixteen; eassumption.
    - eapply PageEight_needs_one; eassumption. }
  split; [exact Hr|].
  intros page_paths Hget. eapply AnnualReturn_propagates; eassumption.
Qed.

(** Pages 2 and 8 call [separate_text] with a keyword that it does not
    have: whatever the boxes, they raise, and so does the document. *)
Remark PageTwo_always_raises (page_path : str) :
  raises (PageTwo_init page_path).
Proof.
  unfold PageTwo_init.
  destruct (PageTwo_boxes page_path) as [[[img skew] boxes]|e]; cbn [bind];
    [|eexists; reflexivity].
  cbv zeta. unfold separate_text_type_keyword. repeat page_step.
Qed.

Remark PageEight_always_raises (page_path : str) :
  raises (PageEight_init page_path).
Proof.
  unfold PageEight_init.
  destruct (PageEight_boxes page_path) as [[[img skew] boxes]|e]; cbn [bind];
    [|eexists; reflexivity].
  cbv zeta. unfold separate_text_type_keyword. repeat page_step.
Qed.

Remark AnnualReturn_always_raises (page_paths : list str) :
  raises (AnnualReturn_init page_paths).
Proof.
  destruct (getitem page_paths 1) as [path|e] eqn:E.
  - apply (@AnnualReturn_propagates page_two path page_paths E).
    cbn [page_init]. apply raises_bind, PageTwo_always_raises.
  - unfold AnnualReturn_init.
    destruct (getitem page_paths 0); cbn [bind]; [|eexists; reflexivity].
    destruct (PageOne_init _); cbn [bind]; [|eexists; reflexivity].
    rewrite E. eexists; reflexivity.
Qed.

End DocumentClaims.

(** C1, as stated, fails on a first page with six boxes: fewer than 8
    are detected, and the page is built all the same, its fields bound
    to the six boxes there are. *)
Lemma page_one_with_six_boxes :
  @page_boxes Toy.straight_page page_one (py "page_1.jpg")
  = Ok (O, 0%Q, Toy.six_boxes_info)
  /\ (List.length Toy.six_boxes_info < 8)%nat
  /\ @page_init Toy.straight_page page_one (py "page_1.jpg")
     = Ok (RecordOne
             {| company_name := py "Acme Trading Limited";
                address := py "Acme Trading Limited";
                company_number := py "111";
                date_of_return := py "111/111/111/111/111/111";
                presentors_name := py "None";
                presentors_address := py "None";
                presentors_telephone := py "None";
                presentors_fax := py "None";
                presentors_email := py "None" |}).
Proof.
  split; [vm_compute; reflexivity|].
  split; [vm_compute; lia|].
  vm_compute; reflexivity.
Qed.

Lemma page_raises_without_boxes_witness :
  @page_boxes Toy.straight_page page_three (py "page_3.jpg")
  = Ok (O, 0%Q, Toy.six_boxes_info)
  /\ (List.length Toy.six_boxes_info < boxes_needed page_three)%nat
  /\ raises (@page_init Toy.straight_page page_three (py "page_3.jpg")).
Proof.
  assert (Hb : @page_boxes Toy.straight_page page_three (py "page_3.jpg")
               = Ok (O, 0%Q, Toy.six_boxes_info))
    by (vm_compute; reflexivity).
  assert (Hlen : (List.length Toy.six_boxes_info
                  < boxes_needed page_three)%nat)
    by (vm_compute; lia).
  split; [exact Hb|]. split; [exact Hlen|].
  exact (proj1
           (@page_raises_without_boxes Toy.straight_page page_three
              (py "page_3.jpg") O 0%Q Toy.six_boxes_info Hb Hlen)).
Defined.

(* ================================================================== *)
(** * Further properties of the text normaliser *)
(* ================================================================== *)

Section NumberShape.

Local Open Scope N_scope.

Lemma forallb_firstn {A} (f : A -> bool) (n : nat) (l : list A) :
  forallb f l = true -> forallb f (firstn n l) = true.
Proof.
  rewrite !forallb_forall. intros H x Hx. apply H.
  eapply In_nth_error in Hx. destruct Hx as [i Hi].
  rewrite <- (firstn_skipn n l). apply in_or_app. left.
  eapply nth_error_In; eassumption.
Qed.

Lemma forallb_skipn {A} (f : A -> bool) (n : nat) (l : list A) :
  forallb f l = true -> forallb f (skipn n l) = true.
Proof.
  rewrite !forallb_forall. intros H x Hx. apply H.
  rewrite <- (firstn_skipn n l). apply in_or_app. right. exact Hx.
Qed.

(** The last line of [clean_number] on a text of digits: only the
    empty text is replaced by the sentinel. *)
Lemma sentinel_of_digits (d : str) :
  forallb is_digit d = true ->
  (if negb (str_eqb d []) && negb (str_eqb d (py "()")) then d
   else py "None")
  = if str_eqb d [] then py "None" else d.
Proof.
  destruct d as [|c d]; [reflexivity|].
  simpl forallb. rewrite andb_true_iff. intros [Hc _].
  apply is_digit_spec in Hc. simpl str_eqb.
  destruct (N.eqb_spec c 40); [lia|]. reflexivity.
Qed.

Lemma not_nil_eqb (d : str) : str_eqb d [] = false -> d <> [].
Proof. apply str_eqb_neq. Qed.

Lemma digits_or_sentinel (d : str) :
  forallb is_digit d = true ->
  let r := if negb (str_eqb d []) && negb (str_eqb d (py "()")) then d
           else py "None" in
  r = py "None" \/ (r <> [] /\ forallb is_digit r = true).
Proof.
  intros Hd r.
  assert (Hr : r = if str_eqb d [] then py "None" else d)
    by apply sentinel_of_digits, Hd.
  clearbody r. subst r.
  destruct (str_eqb d []) eqn:E; [left; reflexivity|].
  right. split; [apply not_nil_eqb, E | exact Hd].
Qed.

Lemma contact_digits (d : str) :
  forallb is_digit d = true ->
  forallb is_digit
    (if startswith d (py "852") then skipn 3 d
     else if startswith d (py "0852") then skipn 4 d else d) = true.
Proof.
  intros Hd. destruct (startswith d (py "852"));
    [apply forallb_skipn; exact Hd|].
  destruct (startswith d (py "0852"));
    [apply forallb_skipn; exact Hd | exact Hd].
Qed.

Lemma clean_number_shape (s data_type : str) :
  clean_number s data_type = py "None"
  \/ (clean_number s data_type <> []
      /\ forallb is_digit (clean_number s data_type) = true).
Proof.
  unfold clean_number. cbv zeta.
  set (d := keep_digits (confusables _)).
  assert (Hd : forallb is_digit d = true) by apply keep_digits_all.
  destruct (str_eqb data_type (py "contact")).
  - pose proof (contact_digits d Hd) as Hd'.
    set (d' := if startswith d (py "852") then skipn 3 d
               else if startswith d (py "0852") then skipn 4 d else d) in *.
    destruct (Nat.leb_spec 8 (List.length d')); [|left; reflexivity].
    apply digits_or_sentinel, forallb_firstn, Hd'.
  - destruct (str_eqb data_type (py "number")).
    + replace (keep_digits d) with d
        by (symmetry; apply keep_digits_digits, Hd).
      apply digits_or_sentinel, Hd.
    + apply digits_or_sentinel, Hd.
Qed.

(** Whatever the text and the type asked for, [clean_number] answers
    the sentinel or a text of digits that is not empty. *)
Theorem clean_number_digits_or_sentinel (s data_type : str) :
  clean_number s data_type = py "None"
  \/ (clean_number s data_type <> []
      /\ forallb is_digit (clean_number s data_type) = true).
Proof. apply clean_number_shape. Qed.

(** A contact number is the sentinel or exactly eight digits. *)
Theorem clean_number_contact_eight (s : str) :
  clean_number s (py "contact") = py "None"
  \/ (List.length (clean_number s (py "contact")) = 8%nat
      /\ forallb is_digit (clean_number s (py "contact")) = true).
Proof.
  unfold clean_number. cbv zeta.
  set (d := keep_digits (confusables _)).
  assert (Hd : forallb is_digit d = true) by apply keep_digits_all.
  change (str_eqb (py "contact") (py "contact")) with true. cbv iota.
  pose proof (contact_digits d Hd) as Hd'.
  set (d' := if startswith d (py "852") then skipn 3 d
             else if startswith d (py "0852") then skipn 4 d else d) in *.
  destruct (Nat.leb_spec 8 (List.length d')); [|left; reflexivity].
  assert (Hf : forallb is_digit (firstn 8 d') = true)
    by (apply forallb_firstn; exact Hd').
  assert (Hl : List.length (firstn 8 d') = 8%nat)
    by (rewrite length_firstn; lia).
  set (r := if negb (str_eqb (firstn 8 d') []) && _ then _ else _).
  assert (Hr : r = if str_eqb (firstn 8 d') [] then py "None"
                   else firstn 8 d')
    by apply sentinel_of_digits, Hf.
  clearbody r. subst r.
  destruct (firstn 8 d') as [|c r] eqn:E; [discriminate Hl|].
  right. split; [exact Hl | exact Hf].
Qed.

Lemma index_first (a b : str) (c : N) :
  forallb (fun x => negb (x =? c)) a = true ->
  index (a ++ c :: b) c = Some (List.length a).
Proof.
  induction a as [|x a IH]; simpl.
  - rewrite N.eqb_refl. reflexivity.
  - rewrite andb_true_iff, negb_true_iff. intros [-> H].
    rewrite IH by exact H. reflexivity.
Qed.

(** [clean_number] reads a text up to its first full stop: what
    follows it, the decimals of an amount, changes nothing. *)
Theorem clean_number_cuts_decimals (a b data_type : str) :
  forallb (fun x => negb (x =? ord ".")) a = true ->
  clean_number (a ++ ord "." :: b) data_type = clean_number a data_type.
Proof.
  intros H. unfold clean_number. cbv zeta.
  rewrite index_first by exact H. rewrite index_absent by exact H.
  rewrite firstn_app, Nat.sub_diag, firstn_all. simpl firstn.
  rewrite app_nil_r. reflexivity.
Qed.

End NumberShape.

Lemma clean_number_cuts_decimals_witness :
  forallb (fun x => negb (x =? ord "."))%N (py "1,250") = true
  /\ clean_number (py "1,250" ++ ord "." :: py "75") (py "number")
     = clean_number (py "1,250") (py "number").
Proof.
  split; [reflexivity|].
  apply (@clean_number_cuts_decimals (py "1,250") (py "75") (py "number")).
  reflexivity.
Defined.


Section WordFacts.

Local Open Scope N_scope.

Lemma letter_bounds (c : N) :
  is_upper c || is_lower c = true -> 65 <= c <= 122.
Proof.
  unfold is_upper, is_lower, in_range.
  change (ord "A") with 65; change (ord "Z") with 90;
    change (ord "a") with 97; change (ord "z") with 122.
  rewrite orb_true_iff, !andb_true_iff, !N.leb_le. lia.
Qed.

Lemma space_bounds (c : N) : is_space c = true -> c <= 32 \/ 133 <= c.
Proof.
  unfold is_space, in_range.
  rewrite !orb_true_iff, !andb_true_iff, !N.leb_le, !N.eqb_eq. lia.
Qed.

Lemma letter_not_space (c : N) :
  is_upper c || is_lower c = true -> is_space c = false.
Proof.
  intros H. apply letter_bounds in H.
  destruct (is_space c) eqn:E; [|reflexivity].
  apply space_bounds in E. lia.
Qed.

Lemma join_cons (sep x : str) (t : list str) :
  t <> [] -> join sep (x :: t) = x ++ sep ++ join sep t.
Proof. destruct t; [congruence | reflexivity]. Qed.

(** A substitution does not bring in characters that neither the text
    nor the replacement has. *)
Lemma re_sub_literal_from_chars (P : N -> bool) (pat repl : str) (k : nat)
    (s : str) :
  forallb P repl = true -> forallb P s = true ->
  forallb P (re_sub_literal_from pat repl k s) = true.
Proof.
  intros Hr. revert k. induction s as [|c s IH]; intros k;
    cbn [re_sub_literal_from forallb]; [reflexivity|].
  rewrite andb_true_iff. intros [Hc Hs].
  destruct k; [|apply IH, Hs].
  destruct (startswith (c :: s) pat).
  - rewrite forallb_app, Hr. apply IH, Hs.
  - cbn [forallb]. rewrite Hc. apply IH, Hs.
Qed.

Lemma replace_chars (P : N -> bool) (s old new : str) :
  forallb P new = true -> forallb P s = true ->
  forallb P (replace s old new) = true.
Proof. apply re_sub_literal_from_chars. Qed.

(** The words of [s.split()]: none is empty, none holds white space,
    and their characters are characters of [s]. *)
Lemma split_ws_from_words (P : N -> bool) (s cur : str) :
  forallb P s = true ->
  forallb (fun c => P c && negb (is_space c)) cur = true ->
  Forall (fun w => w <> []
                   /\ forallb (fun c => P c && negb (is_space c)) w = true)
         (split_ws_from cur s).
Proof.
  revert cur. induction s as [|c s IH]; intros cur; simpl.
  - intros _ Hcur. destruct cur as [|x cur]; [constructor|].
    constructor; [|constructor]. split.
    + intros E. apply (f_equal (@List.length N)) in E.
      rewrite length_rev in E. discriminate E.
    + rewrite forallb_rev. exact Hcur.
  - rewrite andb_true_iff. intros [Hc Hs] Hcur.
    destruct (is_space c) eqn:E.
    + destruct cur as [|x cur]; [apply IH; auto|].
      constructor; [|apply IH; auto]. split.
      * intros E'. apply (f_equal (@List.length N)) in E'.
        rewrite length_rev in E'. discriminate E'.
      * rewrite forallb_rev. exact Hcur.
    + apply IH; [exact Hs|]. simpl. rewrite Hc, E, Hcur. reflexivity.
Qed.

Lemma split_ws_from_word (w rest cur : str) :
  forallb (fun c => negb (is_space c)) w = true ->
  split_ws_from cur (w ++ rest) = split_ws_from (rev w ++ cur) rest.
Proof.
  revert cur. induction w as [|c w IH]; intros cur; simpl; [reflexivity|].
  rewrite andb_true_iff, negb_true_iff. intros [-> Hw].
  rewrite IH by exact Hw. rewrite <- app_assoc. reflexivity.
Qed.

(** Words joined by single blanks split back into the same words. *)
Lemma split_ws_join (ws : list str) :
  Forall (fun w => w <> []
                   /\ forallb (fun c => negb (is_space c)) w = true) ws ->
  split_ws (join [32] ws) = ws.
Proof.
  unfold split_ws. induction 1 as [|w ws [Hne Hw] Hws IH]; [reflexivity|].
  assert (Hrev : rev (rev w ++ []) = w)
    by (rewrite app_nil_r; apply rev_involutive).
  destruct ws as [|w' ws'].
  - simpl join. rewrite <- (app_nil_r w) at 1.
    rewrite split_ws_from_word by exact Hw. simpl.
    destruct (rev w ++ []) eqn:E; [|rewrite Hrev; reflexivity].
    simpl in Hrev. congruence.
  - rewrite join_cons by discriminate.
    rewrite split_ws_from_word by exact Hw.
    change ([32] ++ join [32] (w' :: ws')) with (32 :: join [32] (w' :: ws')).
    simpl split_ws_from at 1. change (is_space 32) with true. cbv iota.
    destruct (rev w ++ []) eqn:E.
    + simpl in Hrev. congruence.
    + rewrite Hrev. f_equal. exact IH.
Qed.

(** A text in which the literal cannot start twice in a row: the
    substitution of a doubled character passes over a word without that
    character and over a single occurrence before another character. *)
Lemma re_sub_double_word (a : N) (repl w rest : str) :
  forallb (fun c => negb (a =? c)) w = true ->
  re_sub_literal_from [a; a] repl O (w ++ rest)
  = w ++ re_sub_literal_from [a; a] repl O rest.
Proof.
  induction w as [|c w IH]; simpl; [reflexivity|].
  rewrite andb_true_iff, negb_true_iff. intros [-> Hw].
  simpl. rewrite IH by exact Hw. reflexivity.
Qed.

Lemma re_sub_double_join (ws : list str) :
  Forall (fun w => w <> []
                   /\ forallb (fun c => negb (32 =? c)) w = true) ws ->
  re_sub_literal [32; 32] [32] (join [32] ws) = join [32] ws.
Proof.
  unfold re_sub_literal. induction 1 as [|w ws [Hne Hw] Hws IH];
    [reflexivity|].
  destruct ws as [|w' ws'].
  - simpl join. rewrite <- (app_nil_r w) at 1.
    rewrite re_sub_double_word by exact Hw. simpl. apply app_nil_r.
  - rewrite join_cons by discriminate.
    rewrite re_sub_double_word by exact Hw. f_equal.
    change ([32] ++ join [32] (w' :: ws')) with (32 :: join [32] (w' :: ws')).
    inversion Hws as [|? ? [Hne' Hw'] _]; subst.
    destruct w' as [|c w'']; [congruence|].
    simpl in Hw'. apply andb_true_iff in Hw'. destruct Hw' as [Hc _].
    apply negb_true_iff in Hc.
    assert (Hj : exists t, join [32] ((c :: w'') :: ws') = c :: t).
    { destruct ws'; simpl; eauto. }
    destruct Hj as [t Hj]. rewrite Hj in *.
    simpl in IH |- *. rewrite Hc in IH |- *. simpl in IH |- *.
    f_equal. exact IH.
Qed.

Lemma filter_length_all {A} (f : A -> bool) (l : list A) :
  List.length (filter f l) = List.length l -> forallb f l = true.
Proof.
  induction l as [|x l IH]; simpl; [reflexivity|].
  destruct (f x); simpl.
  - intros H. apply IH. lia.
  - intros H. pose proof (filter_length_le f l). lia.
Qed.

Lemma filter_length_some {A} (f : A -> bool) (l : list A) :
  List.length (filter f l) <> List.length l ->
  Exists (fun x => f x = false) l.
Proof.
  induction l as [|x l IH]; simpl; [congruence|].
  destruct (f x) eqn:E; simpl.
  - intros H. right. apply IH. lia.
  - intros _. left. exact E.
Qed.

End WordFacts.


Section AlphabetProperties.

Local Open Scope N_scope.

Lemma forallb_join (Q : N -> bool) (sep : str) (ws : list str) :
  forallb Q sep = true -> Forall (fun w => forallb Q w = true) ws ->
  forallb Q (join sep ws) = true.
Proof.
  intros Hsep. induction 1 as [|w ws Hw Hws IH]; [reflexivity|].
  destruct ws as [|w' ws']; [exact Hw|].
  rewrite join_cons by discriminate.
  rewrite !forallb_app, Hw, Hsep, IH. reflexivity.
Qed.

Lemma Forall_forallb_impl (P Q : N -> bool) (ws : list str) :
  (forall c, P c = true -> Q c = true) ->
  Forall (fun w => w <> [] /\ forallb P w = true) ws ->
  Forall (fun w => w <> [] /\ forallb Q w = true) ws.
Proof.
  intros H. apply Forall_impl. intros w [Hne Hw]. split; [exact Hne|].
  revert Hw. apply forallb_impl, H.
Qed.

(** The words that [clean_alphabet] is left with are words of
    letters. *)
Lemma clean_alphabet_split (s : str) :
  Forall (fun w => w <> []
                   /\ forallb (fun c => is_upper c || is_lower c) w = true)
    (split_ws
       (replace
          (replace
             (re_sub_class
                (fun c => negb (is_upper c || is_lower c || (c =? ord " ")
                                || (c =? 10)))
                [] s)
             [10] (py " "))
          (py "  ") (py " "))).
Proof.
  set (P := fun c => is_upper c || is_lower c || is_space c).
  apply Forall_forallb_impl
    with (P := fun c => P c && negb (is_space c)).
  { intros c. unfold P. rewrite andb_true_iff, negb_true_iff.
    intros [H E]. rewrite E, orb_false_r in H. exact H. }
  apply split_ws_from_words; [|reflexivity].
  apply replace_chars; [reflexivity|].
  apply replace_chars; [reflexivity|].
  rewrite re_sub_class_remove. apply forallb_forall. intros c Hc.
  apply filter_In in Hc. destruct Hc as [_ Hc].
  rewrite negb_involutive in Hc. unfold P.
  rewrite !orb_true_iff in Hc. rewrite !orb_true_iff.
  destruct Hc as [[[H|H]|H]|H]; auto;
    apply N.eqb_eq in H; subst c; right; reflexivity.
Qed.

Lemma clean_alphabet_shape (s : str) :
  clean_alphabet s = py "None"
  \/ exists ws,
       clean_alphabet s = join (py " ") ws
       /\ Forall (fun w => w <> []
                           /\ forallb (fun c => is_upper c || is_lower c) w
                              = true) ws
       /\ Exists (fun w => (3 <= List.length w)%nat) ws.
Proof.
  pose proof (clean_alphabet_split s) as Hws.
  unfold clean_alphabet. cbv zeta.
  set (ws := split_ws _) in *.
  destruct (Nat.eqb_spec
              (List.length (filter (fun w => (List.length w <? 3)%nat) ws))
              (List.length ws)) as [E|E].
  - left. reflexivity.
  - right. exists ws. split; [reflexivity|]. split; [exact Hws|].
    apply filter_length_some in E. revert E. apply Exists_impl.
    intros w Hw. apply Nat.ltb_ge in Hw. exact Hw.
Qed.

(** What [clean_alphabet] returns is the sentinel, or words of letters
    with one blank between them, one word at least three letters long:
    it is never empty, and it holds no other character. *)
Theorem clean_alphabet_words (s : str) :
  clean_alphabet s = py "None"
  \/ exists ws,
       clean_alphabet s = join (py " ") ws
       /\ Forall (fun w => w <> []
                           /\ forallb (fun c => is_upper c || is_lower c) w
                              = true) ws
       /\ Exists (fun w => (3 <= List.length w)%nat) ws.
Proof. apply clean_alphabet_shape. Qed.

(** On words of letters joined by single blanks, [clean_alphabet] only
    applies its test on the lengths. *)
Lemma clean_alphabet_of_words (ws : list str) :
  Forall (fun w => w <> []
                   /\ forallb (fun c => is_upper c || is_lower c) w = true)
         ws ->
  clean_alphabet (join (py " ") ws)
  = join (py " ")
      (if (List.length (filter (fun w => (List.length w <? 3)%nat) ws)
           =? List.length ws)%nat
       then [py "None"] else ws).
Proof.
  intros Hws. unfold clean_alphabet. cbv zeta.
  change (py " ") with [32]. change (py "  ") with [32; 32].
  assert (H1 : re_sub_class
                 (fun c => negb (is_upper c || is_lower c || (c =? ord " ")
                                 || (c =? 10)))
                 [] (join [32] ws) = join [32] ws).
  { rewrite re_sub_class_remove. apply filter_all.
    apply forallb_forall. intros c Hc. rewrite negb_involutive.
    revert c Hc. apply forallb_forall.
    apply forallb_join; [reflexivity|].
    revert Hws. apply Forall_impl. intros w [_ Hw]. revert Hw.
    apply forallb_impl. intros c Hc. rewrite Hc. reflexivity. }
  rewrite H1.
  assert (H2 : replace (join [32] ws) [10] [32] = join [32] ws).
  { unfold replace. apply re_sub_literal_absent.
    apply forallb_join; [reflexivity|].
    revert Hws. apply Forall_impl. intros w [_ Hw]. revert Hw.
    apply forallb_impl. intros c Hc. apply letter_bounds in Hc.
    apply negb_true_iff, N.eqb_neq. lia. }
  rewrite H2.
  assert (H3 : replace (join [32] ws) [32; 32] [32] = join [32] ws).
  { unfold replace. apply re_sub_double_join.
    revert Hws. apply Forall_forallb_impl. intros c Hc.
    apply letter_bounds in Hc. apply negb_true_iff, N.eqb_neq. lia. }
  rewrite H3.
  rewrite split_ws_join; [reflexivity|].
  revert Hws. apply Forall_forallb_impl. intros c Hc.
  rewrite (letter_not_space _ Hc). reflexivity.
Qed.

(** [clean_alphabet] is idempotent: a cleaned name is left as it is. *)
Theorem clean_alphabet_idempotent (s : str) :
  clean_alphabet (clean_alphabet s) = clean_alphabet s.
Proof.
  destruct (clean_alphabet_shape s) as [->|[ws [-> [Hws Hlong]]]];
    [reflexivity|].
  rewrite (clean_alphabet_of_words Hws).
  destruct (Nat.eqb_spec
              (List.length (filter (fun w => (List.length w <? 3)%nat) ws))
              (List.length ws)) as [E|E]; [|reflexivity].
  exfalso. apply filter_length_all in E.
  apply Exists_exists in Hlong. destruct Hlong as [w [Hin Hw]].
  rewrite forallb_forall in E. specialize (E w Hin).
  apply Nat.ltb_lt in E. lia.
Qed.

End AlphabetProperties.


Section SplitProperties.

Local Open Scope N_scope.

Lemma startswith_nil (s : str) : startswith s [] = true.
Proof. destruct s; reflexivity. Qed.

Lemma startswith_single (c x : N) (s : str) :
  startswith (x :: s) [c] = (c =? x).
Proof. simpl. rewrite startswith_nil. apply andb_true_r. Qed.

Lemma split_from_not_nil (sep : str) (k : nat) (cur s : str) :
  split_from sep k cur s <> [].
Proof.
  revert k cur. induction s as [|x s IH]; intros k cur;
    cbn [split_from]; [discriminate|].
  destruct k; [|apply IH].
  destruct (startswith (x :: s) sep); [discriminate | apply IH].
Qed.

(** [' '.join(s.split(' '))] is [s]: splitting on one character and
    joining with it gives the text back. *)
Lemma join_split_from (c : N) (cur s : str) :
  join [c] (split_from [c] O cur s) = rev cur ++ s.
Proof.
  revert cur. induction s as [|x s IH]; intros cur; cbn [split_from].
  - simpl. symmetry. apply app_nil_r.
  - rewrite startswith_single. cbn [List.length Nat.pred].
    destruct (N.eqb_spec c x) as [->|Hne].
    + rewrite join_cons by apply split_from_not_nil.
      rewrite IH. reflexivity.
    + rewrite IH. simpl. rewrite <- app_assoc. reflexivity.
Qed.

(** No piece of a split is longer than the text. *)
Lemma split_from_lengths (sep : str) (k : nat) (cur s : str) :
  Forall (fun p => (List.length p <= List.length cur + List.length s)%nat)
         (split_from sep k cur s).
Proof.
  revert k cur. induction s as [|x s IH]; intros k cur; cbn [split_from].
  - constructor; [rewrite length_rev; lia | constructor].
  - destruct k.
    + destruct (startswith (x :: s) sep).
      * constructor; [rewrite length_rev; lia|].
        eapply Forall_impl; [|apply IH]. simpl. intros p Hp. lia.
      * eapply Forall_impl; [|apply IH]. simpl. intros p Hp. lia.
    + eapply Forall_impl; [|apply IH]. simpl. intros p Hp. lia.
Qed.

(** No piece of a split on one character holds that character. *)
Lemma split_from_no_sep (c : N) (cur s : str) :
  forallb (fun x => negb (c =? x)) cur = true ->
  Forall (fun p => forallb (fun x => negb (c =? x)) p = true)
         (split_from [c] O cur s).
Proof.
  revert cur. induction s as [|x s IH]; intros cur Hcur; cbn [split_from].
  - constructor; [rewrite forallb_rev; exact Hcur | constructor].
  - rewrite startswith_single. cbn [List.length Nat.pred].
    destruct (c =? x) eqn:E.
    + constructor; [rewrite forallb_rev; exact Hcur | apply IH; reflexivity].
    + apply IH. simpl. rewrite E, Hcur. reflexivity.
Qed.

Lemma filter_length_eq {A} (f : A -> bool) (l : list A) :
  forallb f l = true -> List.length (filter f l) = List.length l.
Proof. intros H. rewrite (filter_all _ _ H). reflexivity. Qed.

Lemma check_empty_facts (s : str) :
  (check_empty s = s \/ check_empty s = py "None")
  /\ check_empty (check_empty s) = check_empty s
  /\ ((List.length s < 3)%nat -> check_empty s = py "None").
Proof.
  assert (Hcases : check_empty s = s \/ check_empty s = py "None").
  { unfold check_empty. cbv zeta.
    match goal with
    | |- context [(?a =? ?b)%nat] => destruct (Nat.eqb_spec a b)
    end; [right; reflexivity|].
    left. change (py " ") with [32]. apply (join_split_from 32 [] s). }
  split; [exact Hcases|]. split.
  - destruct Hcases as [H|H]; rewrite H; [exact H | reflexivity].
  - intros Hlen. unfold check_empty. cbv zeta.
    rewrite filter_length_eq; [rewrite Nat.eqb_refl; reflexivity|].
    apply forallb_forall. intros p Hp.
    pose proof (split_from_lengths (py " ") O [] s) as H.
    rewrite Forall_forall in H. specialize (H p Hp). simpl in H.
    apply Nat.ltb_lt. lia.
Qed.

(** [check_empty] answers its text as it is, or the sentinel: the
    sentinel for every text under three characters, the empty one
    too.  Applied twice it does what it does once. *)
Theorem check_empty_keeps_or_rejects (s : str) :
  (check_empty s = s \/ check_empty s = py "None")
  /\ check_empty (check_empty s) = check_empty s
  /\ ((List.length s < 3)%nat -> check_empty s = py "None").
Proof. apply check_empty_facts. Qed.

Lemma check_empty_keeps_or_rejects_witness :
  (List.length (py "Ab") < 3)%nat /\ check_empty (py "Ab") = py "None".
Proof.
  split; [vm_compute; lia|].
  apply (proj2 (proj2 (check_empty_keeps_or_rejects (py "Ab")))).
  vm_compute; lia.
Defined.

(** [clean_single_character] answers at most one character, a capital
    letter for the type 'letter' and a digit for the type 'number'; any
    other type leaves its result unassigned, which raises. *)
Theorem clean_single_character_one (s data_type : str) :
  match clean_single_character s data_type with
  | Ok r =>
      (List.length r <= 1)%nat
      /\ ((data_type = py "letter" /\ forallb is_upper r = true)
          \/ (data_type = py "number" /\ forallb is_digit r = true))
  | Raise e =>
      e = UnboundLocalError
      /\ data_type <> py "letter" /\ data_type <> py "number"
  end.
Proof.
  unfold clean_single_character.
  destruct (str_eqb data_type (py "letter")) eqn:El.
  - apply str_eqb_eq in El. split; [rewrite length_firstn; lia|].
    left. split; [exact El|]. apply forallb_firstn.
    rewrite re_sub_class_remove. apply forallb_forall. intros c Hc.
    apply filter_In in Hc. destruct Hc as [_ Hc].
    rewrite negb_involutive in Hc. exact Hc.
  - destruct (str_eqb data_type (py "number")) eqn:En.
    + apply str_eqb_eq in En. cbv zeta.
      split; [rewrite length_firstn; lia|].
      right. split; [exact En|]. apply forallb_firstn, keep_digits_all.
    + split; [reflexivity|]. split; apply str_eqb_neq; assumption.
Qed.

End SplitProperties.


Section SeparateText.

Local Open Scope N_scope.

Lemma join_not_nil (sep : str) (ws : list str) :
  ws <> [] -> Forall (fun w => w <> []) ws -> join sep ws <> [].
Proof.
  intros Hne Hws. destruct ws as [|w ws]; [congruence|].
  inversion Hws as [|? ? Hw _]; subst.
  destruct w as [|c w]; [congruence|].
  destruct ws; simpl; discriminate.
Qed.

Lemma split_from_word (c : N) (w rest cur : str) :
  forallb (fun x => negb (c =? x)) w = true ->
  split_from [c] O cur (w ++ rest) = split_from [c] O (rev w ++ cur) rest.
Proof.
  revert cur. induction w as [|x w IH]; intros cur; [reflexivity|].
  simpl forallb. rewrite andb_true_iff, negb_true_iff. intros [Hx Hw].
  rewrite <- app_comm_cons. cbn [split_from].
  rewrite startswith_single, Hx, IH by exact Hw.
  simpl. rewrite <- app_assoc. reflexivity.
Qed.

(** Entries without the separator, joined by it, split back into the
    same entries. *)
Lemma split_from_join (c : N) (es : list str) :
  es <> [] ->
  Forall (fun e => forallb (fun x => negb (c =? x)) e = true) es ->
  split_from [c] O [] (join [c] es) = es.
Proof.
  intros Hne Hes. revert Hne.
  induction Hes as [|e es He Hes IH]; intros Hne;
    [exfalso; apply Hne; reflexivity|].
  destruct es as [|e' es'].
  - simpl join. rewrite <- (app_nil_r e) at 1.
    rewrite split_from_word by exact He. cbn [split_from].
    rewrite app_nil_r, rev_involutive. reflexivity.
  - rewrite join_cons by discriminate.
    rewrite split_from_word by exact He.
    change ([c] ++ join [c] (e' :: es')) with (c :: join [c] (e' :: es')).
    cbn [split_from]. rewrite startswith_single, N.eqb_refl.
    cbn [List.length Nat.pred].
    rewrite app_nil_r, rev_involutive, IH by discriminate. reflexivity.
Qed.

Lemma clean_alphabet_entry (s : str) : entry_ok (clean_alphabet s).
Proof.
  destruct (clean_alphabet_shape s) as [->|[ws [-> [Hws Hlong]]]].
  - split; [discriminate | reflexivity].
  - split.
    + apply join_not_nil.
      * intros ->. inversion Hlong.
      * revert Hws. apply Forall_impl. tauto.
    + apply forallb_join; [reflexivity|].
      revert Hws. apply Forall_impl. intros w [_ Hw]. revert Hw.
      apply forallb_impl. intros c Hc. apply letter_bounds in Hc.
      apply negb_true_iff, N.eqb_neq. lia.
Qed.

Lemma clean_number_entry (s data_type : str) :
  entry_ok (clean_number s data_type).
Proof.
  destruct (clean_number_shape s data_type) as [->|[Hne Hd]].
  - split; [discriminate | reflexivity].
  - split; [exact Hne|]. revert Hd. apply forallb_impl. intros c Hc.
    apply is_digit_spec in Hc. apply negb_true_iff, N.eqb_neq. lia.
Qed.

Lemma Forall_map_all {A B} (P : B -> Prop) (f : A -> B) (l : list A) :
  (forall x, P (f x)) -> Forall P (map f l).
Proof. intros H. induction l; simpl; constructor; auto. Qed.

(** For every text, every run length of at least 1 and every type,
    [separate_text] answers the sentinel or entries joined by ";":
    no entry is empty, none holds a ";", and splitting the answer on
    ";" gives the entries back. *)
Theorem separate_text_entries (s : str) (nSpaces : nat)
    (data_type : option str) :
  (1 <= nSpaces)%nat ->
  separate_text s nSpaces data_type = py "None"
  \/ exists entries,
       entries <> []
       /\ separate_text s nSpaces data_type = join (py ";") entries
       /\ Forall (fun e => e <> []
                           /\ forallb (fun x => negb (ord ";" =? x)) e = true)
                 entries
       /\ split_from (py ";") O [] (separate_text s nSpaces data_type)
          = entries.
Proof.
  intros _. unfold separate_text. cbv zeta.
  change (py ";") with [59]. change (ord ";") with 59.
  set (text := re_sub_spaces nSpaces [59] _).
  set (pieces := filter (fun p => negb (str_eqb p [])) _).
  assert (Hpieces : Forall entry_ok pieces).
  { unfold pieces. apply Forall_forall. intros p Hp.
    apply filter_In in Hp. destruct Hp as [Hin Hne]. split.
    - apply str_eqb_neq, negb_true_iff, Hne.
    - pose proof (split_from_no_sep 59 [] text eq_refl) as H.
      rewrite Forall_forall in H. apply H, Hin. }
  set (entries := if match data_type with
                     | Some d => str_eqb d (py "letter")
                     | None => false
                     end then _ else _).
  assert (Hentries : Forall entry_ok entries).
  { unfold entries.
    destruct (match data_type with
              | Some d => str_eqb d (py "letter")
              | None => false
              end).
    - apply Forall_map_all. intros p.
      destruct (negb (contains (lower p) (py "nil")));
        [apply clean_alphabet_entry | split; [discriminate | reflexivity]].
    - destruct (match data_type with
                | Some d => str_eqb d (py "number")
                | None => false
                end); [|exact Hpieces].
      apply Forall_map_all. intros p.
      destruct (negb (contains (lower p) (py "nil")));
        [apply clean_number_entry | split; [discriminate | reflexivity]]. }
  clearbody entries. clear Hpieces pieces text.
  destruct entries as [|e es]; [left; reflexivity|].
  right. exists (e :: es).
  assert (Hj : join [59] (e :: es) <> []).
  { apply join_not_nil; [discriminate|].
    revert Hentries. apply Forall_impl. intros x Hx. apply Hx. }
  apply str_eqb_neq in Hj. rewrite Hj. cbn [negb].
  split; [discriminate|]. split; [reflexivity|]. split; [exact Hentries|].
  apply split_from_join; [discriminate|].
  revert Hentries. apply Forall_impl. intros x Hx. apply Hx.
Qed.

End SeparateText.

Lemma separate_text_entries_witness :
  (1 <= 2)%nat
  /\ separate_text (py "Chan Tai Man   Lee Siu Ming") 2 (Some (py "letter"))
     = py "Chan Tai Man;Lee Siu Ming".
Proof.
  split; [lia|].
  destruct (@separate_text_entries (py "Chan Tai Man   Lee Siu Ming") 2
              (Some (py "letter")) ltac:(lia)) as [H|_];
    [vm_compute in H; discriminate H | reflexivity].
Defined.


(* ================================================================== *)
(** * Further properties of the detector *)
(* ================================================================== *)

Section DetectorProperties.

Context {X : Externals}.

Local Open Scope Z_scope.

(** Every box of [get_boxes_info] has the area of its rectangle. *)
Lemma get_boxes_info_mask (m : Img) (retr : retr_mode)
    (approx : approx_method) :
  get_boxes_info (VMask m) retr approx
  = Ok (map (fun c => (rect_w (cv_boundingRect c) * rect_h (cv_boundingRect c),
                       cv_boundingRect c))
            (cv_findContours m retr CHAIN_APPROX_SIMPLE)).
Proof.
  unfold get_boxes_info. cbv zeta. f_equal.
  induction (cv_findContours m retr CHAIN_APPROX_SIMPLE) as [|c l IH];
    simpl; [reflexivity|]. rewrite IH. reflexivity.
Qed.

Lemma boxes_of_contours_area (l : list contour) :
  Forall (fun b : box_info => fst b = rect_w (snd b) * rect_h (snd b))
    (map (fun c => (rect_w (cv_boundingRect c) * rect_h (cv_boundingRect c),
                    cv_boundingRect c)) l).
Proof. induction l; simpl; constructor; auto. Qed.

(** [get_boxes_info] on a mask never raises.  It answers one box for
    each contour, in the order of the contours; the area of a box is the
    width of its rectangle times its height; and the approximation
    method that the caller passes makes no difference. *)
Theorem get_boxes_info_boxes (m : Img) (retr : retr_mode)
    (approx approx' : approx_method) :
  exists boxes,
    get_boxes_info (VMask m) retr approx = Ok boxes
    /\ get_boxes_info (VMask m) retr approx' = Ok boxes
    /\ map snd boxes
       = map cv_boundingRect (cv_findContours m retr CHAIN_APPROX_SIMPLE)
    /\ Forall (fun b : box_info => fst b = rect_w (snd b) * rect_h (snd b))
              boxes.
Proof.
  eexists. rewrite !get_boxes_info_mask.
  split; [reflexivity|]. split; [reflexivity|]. split.
  - rewrite map_map. reflexivity.
  - apply boxes_of_contours_area.
Qed.

(** Two frames of stack are enough for every call of [detect_boxes]:
    with more the result is the same, and it is a result. *)
Theorem detect_boxes_two_frames (fuel : nat) (img : Img) (align : bool)
    (thin_lines : bool) (thin_alignment : str) (skel canny : bool)
    (thresh_value vertical_iterations horizontal_iterations : Z) :
  (2 <= fuel)%nat ->
  detect_boxes fuel img align thin_lines thin_alignment skel canny
    thresh_value vertical_iterations horizontal_iterations
  = detect_boxes 2 img align thin_lines thin_alignment skel canny
      thresh_value vertical_iterations horizontal_iterations
  /\ detect_boxes 2 img align thin_lines thin_alignment skel canny
       thresh_value vertical_iterations horizontal_iterations
     <> None.
Proof.
  intros Hfuel. destruct fuel as [|[|fuel]]; try lia.
  destruct (dilate_kernels thin_lines thin_alignment) as [[vk hk]|e] eqn:Hk.
  - destruct align.
    + rewrite !(detect_boxes_align thin_lines thin_alignment skel canny
                  vertical_iterations horizontal_iterations _ img
                  thresh_value Hk).
      split; [reflexivity|]. destruct (_ || _); discriminate.
    + rewrite !detect_boxes_no_align. split; [reflexivity | discriminate].
  - cbn [detect_boxes]. rewrite Hk. split; [reflexivity | discriminate].
Qed.

(** With neither [skel] nor [canny], [detect_boxes] has no mask to
    return: once the kernels are chosen, every call raises, with
    alignment or without. *)
Theorem detect_boxes_without_mode (fuel : nat) (img : Img) (align : bool)
    (thin_lines : bool) (thin_alignment : str)
    (thresh_value vertical_iterations horizontal_iterations : Z)
    (vk hk : kernel) :
  (2 <= fuel)%nat ->
  dilate_kernels thin_lines thin_alignment = Ok (vk, hk) ->
  exists history,
    detect_boxes fuel img align thin_lines thin_alignment false false
      thresh_value vertical_iterations horizontal_iterations
    = Some (history, Raise UnboundLocalError).
Proof.
  intros Hfuel Hk. destruct fuel as [|[|fuel]]; try lia.
  destruct align.
  - rewrite (detect_boxes_align thin_lines thin_alignment false false
               vertical_iterations horizontal_iterations _ img thresh_value
               Hk).
    destruct (_ || _); eexists; reflexivity.
  - rewrite detect_boxes_no_align, Hk. eexists; reflexivity.
Qed.

Lemma process_image_align (img : Img) (retr : retr_mode)
    (approx : approx_method) (thresh_value : Z) (thin_lines : bool)
    (thin_alignment : str) (skel canny : bool)
    (vertical_iterations horizontal_iterations : Z) (vk hk : kernel) :
  dilate_kernels thin_lines thin_alignment = Ok (vk, hk) ->
  skel || canny = true ->
  exists boxes,
    process_image img retr approx true thresh_value thin_lines thin_alignment
      skel canny vertical_iterations horizontal_iterations
    = Ok (calculate_angle
            (line_mask (load_image img) vk hk vertical_iterations
               horizontal_iterations),
          boxes)
    /\ Forall (fun b : box_info => fst b = rect_w (snd b) * rect_h (snd b))
              boxes.
Proof.
  intros Hk Hmode. unfold process_image. cbv zeta.
  change recursion_limit with (S (S 998)).
  rewrite (detect_boxes_align thin_lines thin_alignment skel canny
             vertical_iterations horizontal_iterations 998 (load_image img)
             thresh_value Hk).
  cbv zeta.
  set (boxes := line_mask (load_image img) vk hk vertical_iterations
                  horizontal_iterations).
  set (skew := calculate_angle boxes).
  destruct (Qltb (15 # 100) skew || Qltb skew (-15 # 100)).
  - destruct (thin_and_return_ok skel canny
                (line_mask (rotate_image (load_image img) skew) vk hk
                   vertical_iterations horizontal_iterations)
                80 Hmode) as [m [Hm _]].
    rewrite Hm. cbn [bind]. rewrite get_boxes_info_mask. cbn [bind].
    eexists. split; [reflexivity | apply boxes_of_contours_area].
  - destruct (thin_and_return_ok skel canny boxes thresh_value Hmode)
      as [m [_ Hm]].
    rewrite Hm. cbn [bind]. rewrite get_boxes_info_mask. cbn [bind].
    eexists. split; [reflexivity | apply boxes_of_contours_area].
Qed.

(** [process_image] with alignment: once the kernels are chosen and one
    of [skel] and [canny] is set, it returns the estimate of the skew of
    the image as given, and boxes whose area is that of their
    rectangle. *)
Theorem process_image_returns (img : Img) (retr : retr_mode)
    (approx : approx_method) (thresh_value : Z) (thin_lines : bool)
    (thin_alignment : str) (skel canny : bool)
    (vertical_iterations horizontal_iterations : Z) (vk hk : kernel) :
  dilate_kernels thin_lines thin_alignment = Ok (vk, hk) ->
  skel || canny = true ->
  exists boxes,
    process_image img retr approx true thresh_value thin_lines thin_alignment
      skel canny vertical_iterations horizontal_iterations
    = Ok (calculate_angle
            (line_mask (load_image img) vk hk vertical_iterations
               horizontal_iterations),
          boxes)
    /\ Forall (fun b : box_info => fst b = rect_w (snd b) * rect_h (snd b))
              boxes.
Proof. apply process_image_align. Qed.

Lemma page_boxes_read (p : page_type) (page_path : str) :
  match cv_imread page_path with
  | Some img =>
      exists skew boxes,
        page_boxes p page_path = Ok (img, skew, boxes)
        /\ Forall (fun b : box_info =>
                     fst b = rect_w (snd b) * rect_h (snd b)) boxes
  | None => page_boxes p page_path = Raise CvError
  end.
Proof.
  destruct p; cbn [page_boxes];
    unfold PageOne_boxes, PageTwo_boxes, PageThree_boxes, PageFour_boxes,
      PageEight_boxes, imread;
    destruct (cv_imread page_path) as [img|]; cbn [bind]; try reflexivity;
    match goal with
    | |- context [process_image img ?r ?a true ?t ?tl ?ta ?sk ?ca ?vi ?hi] =>
        let H := fresh in
        assert (H : exists vk hk, dilate_kernels tl ta = Ok (vk, hk))
          by (do 2 eexists; reflexivity);
        destruct H as [vk [hk Hk]];
        destruct (process_image_align img r a t tl ta sk ca vi hi Hk eq_refl)
          as [boxes [Hp Hb]];
        rewrite Hp; cbn [bind]; eauto
    end.
Qed.

(** The detection of every page of the Annual Return is called with
    parameters under which it returns: a page whose file is read gets
    its angle and its boxes, and a file that cannot be read is the only
    failure of this step. *)
Theorem page_boxes_returns (p : page_type) (page_path : str) :
  match cv_imread page_path with
  | Some img =>
      exists skew boxes,
        page_boxes p page_path = Ok (img, skew, boxes)
        /\ Forall (fun b : box_info =>
                     fst b = rect_w (snd b) * rect_h (snd b)) boxes
  | None => page_boxes p page_path = Raise CvError
  end.
Proof. apply page_boxes_read. Qed.

End DetectorProperties.


Section SortedProperties.

Local Open Scope Z_scope.

Variables (A : Type) (key : A -> Z).

Lemma insert_by_hd (reverse : bool) (x y : A) (l : list A) :
  (if reverse then key x <= key y else key y <= key x) ->
  HdRel (fun a b => if reverse then key b <= key a else key a <= key b) y l ->
  HdRel (fun a b => if reverse then key b <= key a else key a <= key b) y
    (insert_by (fun a b => if reverse then key b <=? key a
                           else key a <=? key b) x l).
Proof.
  intros Hxy Hl. destruct l as [|z l]; simpl.
  - constructor. exact Hxy.
  - destruct (if reverse then key z <=? key x else key x <=? key z);
      constructor; [exact Hxy|].
    inversion Hl; assumption.
Qed.

Lemma insert_by_sorted (reverse : bool) (x : A) (l : list A) :
  Sorted (fun a b => if reverse then key b <= key a else key a <= key b) l ->
  Sorted (fun a b => if reverse then key b <= key a else key a <= key b)
    (insert_by (fun a b => if reverse then key b <=? key a
                           else key a <=? key b) x l).
Proof.
  induction 1 as [|y l Hl IH Hy]; simpl.
  - constructor; constructor.
  - destruct (if reverse then key y <=? key x else key x <=? key y) eqn:E.
    + constructor; [constructor; assumption|]. constructor.
      destruct reverse; apply Z.leb_le; exact E.
    + constructor; [exact IH|]. apply insert_by_hd; [|exact Hy].
      destruct reverse; apply Z.leb_gt in E; lia.
Qed.

(** The model of [sorted] sorts: the keys ascend, or descend with
    [reverse]. *)
Lemma sorted_by_key (reverse : bool) (l : list A) :
  Sorted (fun a b => if reverse then key b <= key a else key a <= key b)
    (sorted Z.leb key reverse l).
Proof.
  unfold sorted. induction l as [|x l IH]; simpl; [constructor|].
  apply insert_by_sorted. exact IH.
Qed.

End SortedProperties.

Section LineCoordinates.

Context {X : Externals}.

(** [get_line_coordinates] answers its coordinates in ascending order,
    as its documentation says, and no more of them than the numbers of
    lines asked for. *)
Theorem get_line_coordinates_ascending (gray_box : Img) (v_num h_num : nat) :
  let x_list := fst (get_line_coordinates gray_box v_num h_num) in
  let y_list := snd (get_line_coordinates gray_box v_num h_num) in
  Sorted Z.le x_list /\ Sorted Z.le y_list
  /\ (List.length x_list <= v_num)%nat /\ (List.length y_list <= h_num)%nat.
Proof.
  cbv zeta. unfold get_line_coordinates. cbv zeta. cbn [fst snd].
  split; [apply (sorted_by_key (fun x : Z => x) false)|].
  split; [apply (sorted_by_key (fun y : Z => y) false)|].
  rewrite !sorted_length, !length_map, !length_firstn. lia.
Qed.

End LineCoordinates.

Section WrapperProperties.

Context {X : Externals}.


(** The texts that [ocr_boxes] keeps: all but the two sentinels. *)
Lemma ocr_boxes_loop_texts (img : Img) (halve : halve_arg)
    (resize blur sharpen erode dilate : bool) (lang config : str)
    (boxes : list box_info) (texts acc : list str) :
  Forall2 (fun box text =>
             ocr_box img (snd box) false halve resize blur sharpen erode
               dilate lang config = Ok text)
          boxes texts ->
  ocr_boxes_loop img boxes halve resize blur sharpen erode dilate lang
    config acc
  = Ok (acc ++ filter (fun text => negb (str_eqb text (py "None"))
                                   && negb (str_eqb text (py "N/A")))
                      texts).
Proof.
  intros H. revert acc.
  induction H as [|box text boxes texts Hb _ IH]; intros acc;
    cbn [ocr_boxes_loop filter].
  - rewrite app_nil_r. reflexivity.
  - rewrite Hb. cbn [bind]. rewrite IH.
    destruct (negb (str_eqb text (py "None"))
              && negb (str_eqb text (py "N/A")));
      [rewrite <- app_assoc|]; reflexivity.
Qed.

(** [ocr_boxes] reads every box in turn, leaves out the boxes that read
    "None" or "N/A", and joins the other texts with blanks; with no box,
    or none left, it answers the sentinel. *)
Theorem ocr_boxes_joins (img : Img) (halve : halve_arg)
    (resize blur sharpen erode dilate : bool) (lang config : str)
    (boxes : list box_info) (texts : list str) :
  Forall2 (fun box text =>
             ocr_box img (snd box) false halve resize blur sharpen erode
               dilate lang config = Ok text)
          boxes texts ->
  ocr_boxes img boxes halve resize blur sharpen erode dilate lang config
  = Ok (match filter (fun text => negb (str_eqb text (py "None"))
                                  && negb (str_eqb text (py "N/A")))
                     texts
        with
        | [] => py "None"
        | kept => join (py " ") kept
        end).
Proof.
  intros H. unfold ocr_boxes.
  erewrite ocr_boxes_loop_texts; [|exact H]. cbn [bind app].
  destruct (filter _ texts); reflexivity.
Qed.


Lemma split_from_count (c : N) (cur s : str) :
  List.length (split_from [c] O cur s) = S (count_occ N.eq_dec s c).
Proof.
  revert cur. induction s as [|x s IH]; intros cur; cbn [split_from];
    [reflexivity|].
  rewrite startswith_single. cbn [List.length Nat.pred count_occ].
  destruct (N.eqb_spec c x) as [->|Hne].
  - destruct (N.eq_dec x x); [|congruence].
    cbn [List.length]. rewrite IH. reflexivity.
  - destruct (N.eq_dec x c); [congruence|]. apply IH.
Qed.

(** A text for [halve] must be two words with one blank between them:
    with no blank, or more than one, the unpacking of its split is a
    [ValueError]. *)
Theorem ocr_box_halve_text (img : Img) (coordinates : rect)
    (concentrate : bool) (s : str)
    (resize blur sharpen erode dilate : bool) (lang config : str) :
  count_occ N.eq_dec s (ord " ") <> 1%nat ->
  ocr_box img coordinates concentrate (HalveStr s) resize blur sharpen erode
    dilate lang config = Raise ValueError.
Proof.
  intros Hc. unfold ocr_box, ocr_box_region. cbn [bind].
  change (split s (py " ")) with (Ok (split_from [32%N] O [] s)).
  cbn [bind].
  pose proof (split_from_count 32 [] s) as Hl.
  change (ord " ") with 32%N in Hc.
  destruct (split_from [32%N] O [] s) as [|a [|b [|c l]]]; cbn [bind];
    try reflexivity.
  simpl in Hl. congruence.
Qed.

End WrapperProperties.


Section SplitterProperties.

Context {X : Externals}.

Local Open Scope Z_scope.

(** An index within the list is answered. *)
Lemma getitem_in_range {A} (l : list A) (i : Z) :
  0 <= i < Z.of_nat (List.length l) -> exists x, getitem l i = Ok x.
Proof.
  intros H. unfold getitem.
  destruct (Z.ltb_spec i 0); [lia|].
  destruct (Z.leb_spec 0 i); [|lia].
  destruct (Z.ltb_spec i (Z.of_nat (List.length l))); [|lia].
  cbn [andb].
  destruct (nth_error l (Z.to_nat i)) eqn:E; [eauto|].
  apply nth_error_None in E. lia.
Qed.

Lemma clean_single_character_typed (s data_type : str) :
  data_type = py "letter" \/ data_type = py "number" ->
  exists r, clean_single_character s data_type = Ok r.
Proof.
  intros [->| ->]; eexists; reflexivity.
Qed.

Lemma ocr_cell_typed (order : Z) (box : Img) (lang data_type : str)
    (single : bool) :
  single = false \/ data_type = py "letter" \/ data_type = py "number" ->
  exists text, ocr_cell order box lang data_type single = Ok text.
Proof.
  intros H. unfold ocr_cell. destruct (np_shape box) as [height width].
  cbv zeta. destruct (negb (order =? 6)).
  - destruct single; cbn [negb].
    + destruct H as [H|H]; [discriminate|].
      apply clean_single_character_typed, H.
    + eexists; reflexivity.
  - destruct (negb (existsb is_upper _)); [|eexists; reflexivity].
    apply clean_single_character_typed. right; reflexivity.
Qed.

Lemma ocr_cells_typed (boxes : list Img) (order : Z) (lang data_type : str)
    (single : bool) (acc : list str) :
  single = false \/ data_type = py "letter" \/ data_type = py "number" ->
  exists entries,
    ocr_cells order boxes lang data_type single acc = Ok (acc ++ entries)
    /\ List.length entries = List.length boxes.
Proof.
  intros H. revert order acc.
  induction boxes as [|box boxes IH]; intros order acc; cbn [ocr_cells].
  - exists []. rewrite app_nil_r. split; reflexivity.
  - destruct (ocr_cell_typed order box lang H) as [text Ht].
    rewrite Ht. cbn [bind].
    destruct (IH (order + 1) (acc ++ [text])) as [entries [He Hl]].
    exists (text :: entries). rewrite He, <- app_assoc.
    split; [reflexivity | simpl; rewrite Hl; reflexivity].
Qed.

(** With two contours or more there is a cell to cut: the count is at
    least 1, whether or not the leftmost contour is left out. *)
Lemma count_cells_positive (contours : list contour) :
  (2 <= List.length contours)%nat ->
  exists n, count_cells contours = Ok n /\ 1 <= n
            /\ (n = Z.of_nat (List.length contours)
                \/ n = Z.of_nat (List.length contours) - 1).
Proof.
  intros H. unfold count_cells.
  destruct (@getitem_in_range _ contours 0) as [c0 Hc]; [lia|].
  rewrite Hc. cbn [bind].
  destruct (fst (first_point c0) <? 50); eexists;
    (split; [reflexivity|]); split; try lia; auto.
Qed.

Lemma ocr_segmented_box_typed (img : Img) (coordinates : rect)
    (lang data_type : str) (single : bool) :
  let marks :=
    sorted Z.leb (fun c => fst (first_point c)) false
      (segment_marks img coordinates) in
  ((List.length marks < 2)%nat ->
   ocr_segmented_box img coordinates lang data_type single = Ok (py "None"))
  /\ ((2 <= List.length marks)%nat ->
      single = false \/ data_type = py "letter" \/ data_type = py "number" ->
      exists n entries,
        count_cells marks = Ok n /\ 1 <= n
        /\ ocr_segmented_box img coordinates lang data_type single
           = Ok (join (py " ") entries)
        /\ Z.of_nat (List.length entries) = n).
Proof.
  cbv zeta. unfold ocr_segmented_box, segment_marks. cbv zeta.
  set (marks := sorted Z.leb _ false _). split.
  - intros H. destruct (Nat.leb_spec 2 (List.length marks)); [lia|].
    reflexivity.
  - intros H Ht. destruct (Nat.leb_spec 2 (List.length marks)); [|lia].
    destruct (count_cells_positive marks H) as [n [Hn [Hpos _]]].
    rewrite Hn. cbn [bind]. unfold floordiv.
    destruct (Z.eqb_spec n 0); [lia|]. cbn [bind].
    match goal with
    | |- context [ocr_cells 0 ?boxes lang data_type single []] =>
        destruct (ocr_cells_typed boxes 0 lang [] Ht) as [entries [He Hl]]
    end.
    rewrite He. cbn [bind app].
    exists n, entries. split; [reflexivity|]. split; [exact Hpos|].
    split; [reflexivity|].
    rewrite Hl. unfold box_generator, cell_slices.
    rewrite !length_map, range_length. lia.
Qed.

(** [ocr_segmented_box] answers the sentinel when it finds fewer than
    two contours in the crop.  With two or more it cuts at least one
    cell, so that the division of the width never fails; for the types
    'number' and 'letter', and for every type when [single] is off, it
    returns, and its text is one entry for each cell, joined by
    blanks. *)
Theorem ocr_segmented_box_cells (img : Img) (coordinates : rect)
    (lang data_type : str) (single : bool) :
  let marks :=
    sorted Z.leb (fun c => fst (first_point c)) false
      (segment_marks img coordinates) in
  ((List.length marks < 2)%nat ->
   ocr_segmented_box img coordinates lang data_type single = Ok (py "None"))
  /\ ((2 <= List.length marks)%nat ->
      single = false \/ data_type = py "letter" \/ data_type = py "number" ->
      exists n entries,
        count_cells marks = Ok n /\ 1 <= n
        /\ ocr_segmented_box img coordinates lang data_type single
           = Ok (join (py " ") entries)
        /\ Z.of_nat (List.length entries) = n).
Proof. apply ocr_segmented_box_typed. Qed.


End SplitterProperties.

Section IdentityProperties.

Lemma clean_hkid_cases (s : str) :
  ((List.length (keep_upper_digits s) < 6)%nat /\ clean_hkid s = py "None")
  \/ ((6 <= List.length (keep_upper_digits s))%nat
      /\ clean_hkid s
         = list_insert (keep_upper_digits s) (-1) (ord "(") ++ [ord ")"]
      /\ (8 <= List.length (clean_hkid s))%nat).
Proof.
  unfold clean_hkid. cbv zeta.
  set (kept := keep_upper_digits s).
  assert (Hl : List.length (list_insert kept (-1) (ord "(") ++ [ord ")"])
               = (List.length kept + 2)%nat).
  { rewrite length_app, list_insert_length. simpl. lia. }
  destruct (Nat.ltb_spec 7
              (List.length (list_insert kept (-1) (ord "(") ++ [ord ")"]))).
  - right. split; [lia|]. split; [reflexivity | lia].
  - left. split; [lia | reflexivity].
Qed.

(** The identity number of a page, [join_hkid] of the letters read in
    the first box and of [clean_hkid] of the second: it is the sentinel
    exactly when fewer than six capital letters and digits were read in
    the second box.  The further test on a length above 5 decides
    nothing. *)
Theorem join_hkid_clean_hkid (hkid_1 s : str) :
  join_hkid hkid_1 (clean_hkid s)
  = if (List.length (keep_upper_digits s) <? 6)%nat then py "None"
    else replace hkid_1 (py " ") [] ++ py " " ++ clean_hkid s.
Proof.
  unfold join_hkid.
  destruct (clean_hkid_cases s) as [[Hlt ->]|[Hge [_ Hlen]]].
  - destruct (Nat.ltb_spec (List.length (keep_upper_digits s)) 6); [|lia].
    reflexivity.
  - destruct (Nat.ltb_spec (List.length (keep_upper_digits s)) 6); [lia|].
    destruct (Nat.ltb_spec 5 (List.length (clean_hkid s))); [|lia].
    assert (Hne : str_eqb (clean_hkid s) (py "None") = false).
    { apply str_eqb_neq. intros E. rewrite E in Hlen. simpl in Hlen. lia. }
    rewrite Hne. reflexivity.
Qed.

End IdentityProperties.


(* ================================================================== *)
(** * Further properties of the page layouts *)
(* ================================================================== *)




Section BuiltPages.

Context {X : Externals}.





(** Pages 2 and 8 are never built: they call [separate_text] with a
    keyword [type] that it does not have, so that whatever the image and
    the boxes, constructing them raises. *)
Theorem pages_two_and_eight_raise (page_path : str) :
  raises (PageTwo_init page_path) /\ raises (PageEight_init page_path)
  /\ raises (page_init page_two page_path)
  /\ raises (page_init page_eight page_path).
Proof.
  split; [apply PageTwo_always_raises|].
  split; [apply PageEight_always_raises|].
  split; cbn [page_init]; apply raises_bind;
    [apply PageTwo_always_raises | apply PageEight_always_raises].
Qed.

(** No Annual Return is built: whatever the list of its page files, the
    constructor raises, at the latest on page 2. *)
Theorem AnnualReturn_never_built (page_paths : list str) :
  raises (AnnualReturn_init page_paths)
  /\ forall r, AnnualReturn_init page_paths <> Ok r.
Proof.
  pose proof (AnnualReturn_always_raises page_paths) as [e He].
  split; [exists e; exact He|]. intros r. rewrite He. discriminate.
Qed.

End BuiltPages.


Section PageOneFields.

Context {X : Externals}.

Lemma clean_alphabet_not_nil (s : str) : clean_alphabet s <> [].
Proof. apply clean_alphabet_entry. Qed.

Lemma clean_number_not_nil (s data_type : str) :
  clean_number s data_type <> [].
Proof. apply clean_number_entry. Qed.

Lemma check_empty_not_nil (s : str) : check_empty s <> [].
Proof.
  destruct s as [|c s]; [discriminate|].
  destruct (check_empty_facts (c :: s)) as [[-> | ->] _]; discriminate.
Qed.

(** A cleaned name starts with a letter: stripping it leaves it whole. *)
Lemma clean_alphabet_not_blank (s : str) :
  forallb is_space (clean_alphabet s) = false.
Proof.
  destruct (clean_alphabet_shape s) as [->|[ws [-> [Hws Hlong]]]];
    [reflexivity|].
  destruct ws as [|w ws]; [inversion Hlong|].
  inversion Hws as [|? ? [Hne Hw] _]; subst.
  destruct w as [|c w]; [congruence|].
  simpl in Hw. apply andb_true_iff in Hw. destruct Hw as [Hc _].
  destruct ws; simpl; rewrite (letter_not_space _ Hc); reflexivity.
Qed.

Lemma strip_clean_alphabet_not_nil (s : str) :
  strip (clean_alphabet s) <> [].
Proof.
  intros E. apply strip_nil in E. rewrite clean_alphabet_not_blank in E.
  discriminate E.
Qed.

Lemma replace_not_nil (s old new : str) :
  s <> [] -> new <> [] -> replace s old new <> [].
Proof.
  unfold replace, re_sub_literal. destruct s as [|c s]; [congruence|].
  intros _ Hn. cbn [re_sub_literal_from].
  destruct (startswith (c :: s) old); [|discriminate].
  destruct new; [congruence | discriminate].
Qed.

Lemma sentinel_or (b : bool) (v : str) :
  (b = true -> v <> []) -> (if b then v else py "None") <> [].
Proof. destruct b; [auto | discriminate]. Qed.

(** The sentinel, never the empty text: every field of a first page
    that is built holds a text that is not empty. *)
Theorem PageOne_fields_not_empty (page_path : str) (r : PageOne) :
  PageOne_init page_path = Ok r ->
  Forall (fun field : str * str => snd field <> [])
         (snd (PageOne_page_data r)).
Proof.
  intros H. unfold PageOne_init in H.
  repeat match type of H with
         | bind ?c _ = Ok _ =>
             destruct c; cbn [bind] in H; [|discriminate H]
         | match ?a with pair _ _ => _ end = Ok _ => destruct a
         end.
  cbv zeta in H. 
  repeat match type of H with
         | bind ?c _ = Ok _ =>
             destruct c; cbn [bind] in H; [|discriminate H]
         | match ?a with pair _ _ => _ end = Ok _ => destruct a
         end.
  injection H as <-.
  unfold PageOne_page_data.
  cbn [snd company_name address company_number date_of_return
         presentors_name presentors_address presentors_telephone
         presentors_fax presentors_email].
  repeat apply Forall_cons; try apply Forall_nil; cbn [snd].
  - apply sentinel_or. intros _. apply strip_clean_alphabet_not_nil.
  - apply sentinel_or. intros E. apply negb_true_iff, str_eqb_neq in E.
    exact E.
  - apply sentinel_or. intros _.
    match goal with
    | |- context [clean_number ?x ?t] =>
        pose proof (clean_number_not_nil x t) as Hn;
        destruct (clean_number x t)
    end; [congruence | discriminate].
  - apply sentinel_or. unfold isdigit. rewrite andb_true_iff.
    intros [E _]. apply negb_true_iff, str_eqb_neq in E.
    apply replace_not_nil; [|discriminate].
    intros E'. rewrite E' in E. apply E. reflexivity.
  - apply clean_alphabet_not_nil.
  - apply check_empty_not_nil.
  - apply clean_number_not_nil.
  - apply clean_number_not_nil.
  - apply check_empty_not_nil.
Qed.

End PageOneFields.


(* ================================================================== *)
(** * Properties of the package *)
(* ================================================================== *)

Section PackageProperties.

Context {X : Externals} {F : FileSystem}.

Lemma AnnualReturn_new_raises (doc_dir : str) :
  exists e, AnnualReturn_new doc_dir = inl e.
Proof.
  unfold AnnualReturn_new.
  destruct (list_page_paths doc_dir) as [page_paths|]; [|eauto].
  destruct (AnnualReturn_always_raises page_paths) as [e ->]. eauto.
Qed.

Lemma process_doc_dir_cases (doc_dir doc_type : str) :
  (process_doc_dir doc_dir doc_type = inr None
   /\ (os_isdir doc_dir = false \/ doc_type <> py "Annual Return"))
  \/ (os_isdir doc_dir = true /\ doc_type = py "Annual Return"
      /\ exists e, process_doc_dir doc_dir doc_type = inl e).
Proof.
  unfold process_doc_dir.
  destruct (os_isdir doc_dir); [|left; auto].
  destruct (str_eqb doc_type (py "Annual Return")) eqn:E.
  - right. apply str_eqb_eq in E.
    destruct (AnnualReturn_new_raises doc_dir) as [e ->]. eauto.
  - left. apply str_eqb_neq in E. auto.
Qed.

(** [process_doc_dir] never returns the data of a document: for a
    directory and the type 'Annual Return' it raises, and otherwise it
    answers [None]. *)
Theorem process_doc_dir_no_data (doc_dir doc_type : str) :
  (forall data, process_doc_dir doc_dir doc_type <> inr (Some data))
  /\ ((os_isdir doc_dir = true /\ doc_type = py "Annual Return")
      -> exists e, process_doc_dir doc_dir doc_type = inl e)
  /\ ((os_isdir doc_dir = false \/ doc_type <> py "Annual Return")
      -> process_doc_dir doc_dir doc_type = inr None).
Proof.
  destruct (process_doc_dir_cases doc_dir doc_type)
    as [[H Hc]|[Hd [Ht [e H]]]].
  - split; [intros data; rewrite H; discriminate|].
    split; [|intros _; exact H].
    intros [Hd Ht]. destruct Hc; congruence.
  - split; [intros data; rewrite H; discriminate|].
    split; [eauto|]. intros [Hc|Hc]; congruence.
Qed.

Lemma process_dir_loop (doc_type : str) (dirs : list str)
    (doc_data_list : list (option doc_data_type))
    (failed_list : list (str * raised)) :
  Forall (fun d => os_isdir d = true) dirs ->
  exists data failed,
    fold_left (process_dir_step doc_type) dirs (doc_data_list, failed_list)
    = (doc_data_list ++ data, failed_list ++ failed)
    /\ Forall (fun d => d = None) data
    /\ (List.length data + List.length failed = List.length dirs)%nat
    /\ (doc_type = py "Annual Return" -> data = [] /\ map fst failed = dirs)
    /\ (doc_type <> py "Annual Return" -> failed = []).
Proof.
  intros Hd. revert doc_data_list failed_list.
  induction Hd as [|d dirs Hdir _ IH]; intros doc_data_list failed_list.
  - exists [], []. simpl. rewrite !app_nil_r. repeat split; auto.
  - cbn [fold_left process_dir_step].
    destruct (process_doc_dir_cases d doc_type)
      as [[H Hc]|[_ [Ht [e H]]]]; rewrite H.
    + destruct Hc as [Hc|Hc]; [congruence|].
      destruct (IH (doc_data_list ++ [None]) failed_list)
        as [data [failed [E [Hn [Hl [_ Hf]]]]]].
      exists (None :: data), failed. rewrite E, <- app_assoc.
      split; [reflexivity|]. split; [constructor; auto|].
      split; [simpl; lia|]. split; [congruence | exact Hf].
    + destruct (IH doc_data_list (failed_list ++ [(d, e)]))
        as [data [failed [E [Hn [Hl [Ha _]]]]]].
      exists data, ((d, e) :: failed). rewrite E, <- app_assoc.
      split; [reflexivity|]. split; [exact Hn|].
      split; [simpl; lia|]. split; [|congruence].
      intros _. destruct (Ha Ht) as [-> Hm]. simpl. rewrite Hm. auto.
Qed.

(** The loop of [process_dir] without [parallel] never collects the
    data of a document.  Every directory it lists ends in one of its two
    lists; for the type 'Annual Return' all of them end in the list of
    failures, in the order of the listing, and for any other type the
    list of data holds one [None] for each. *)
Theorem process_dir_no_data (dir doc_type : str) :
  let doc_data_list := fst (process_dir dir doc_type) in
  let failed_list := snd (process_dir dir doc_type) in
  Forall (fun d => d = None) doc_data_list
  /\ (List.length doc_data_list + List.length failed_list
      = List.length (doc_list dir))%nat
  /\ (doc_type = py "Annual Return" ->
      doc_data_list = [] /\ map fst failed_list = doc_list dir)
  /\ (doc_type <> py "Annual Return" -> failed_list = []).
Proof.
  cbv zeta. unfold process_dir.
  destruct (@process_dir_loop doc_type (doc_list dir) [] [])
    as [data [failed [E H]]].
  - unfold doc_list. apply Forall_forall. intros d Hd.
    apply filter_In in Hd. tauto.
  - rewrite E. cbn [fst snd app]. exact H.
Qed.

End PackageProperties.


Section MoreDetectorProperties.

Context {X : Externals}.

(** [canny] takes precedence over [skel]: with [canny] set, the value
    of [skel] makes no difference to what [detect_boxes] does. *)
Theorem detect_boxes_canny_over_skel (fuel : nat) (img : Img) (align : bool)
    (thin_lines : bool) (thin_alignment : str)
    (thresh_value vertical_iterations horizontal_iterations : Z) :
  detect_boxes fuel img align thin_lines thin_alignment true true
    thresh_value vertical_iterations horizontal_iterations
  = detect_boxes fuel img align thin_lines thin_alignment false true
      thresh_value vertical_iterations horizontal_iterations.
Proof.
  revert img align thresh_value.
  induction fuel as [|fuel IH]; intros img align thresh_value;
    [reflexivity|].
  cbn [detect_boxes].
  destruct (dilate_kernels thin_lines thin_alignment) as [[vk hk]|e];
    [|reflexivity].
  destruct align; [|reflexivity].
  cbv zeta. destruct (_ || _); [|reflexivity].
  rewrite IH. reflexivity.
Qed.

End MoreDetectorProperties.

Section DocumentData.

Lemma dict_update_fresh {V} (d : dict V) (k : str) (v : V) :
  ~ In k (map fst d) -> dict_update d k v = d ++ [(k, v)].
Proof.
  induction d as [|[k' v'] d IH]; simpl; [reflexivity|].
  intros H. destruct (str_eqb k' k) eqn:E.
  - apply str_eqb_eq in E. tauto.
  - rewrite IH by tauto. reflexivity.
Qed.

Lemma dict_update_all {V} (pages acc : dict V) :
  NoDup (map fst acc ++ map fst pages) ->
  fold_left (fun data_dict page_data =>
               dict_update data_dict (fst page_data) (snd page_data))
            pages acc
  = acc ++ pages.
Proof.
  revert acc. induction pages as [|[k v] pages IH]; intros acc H; simpl.
  - symmetry. apply app_nil_r.
  - rewrite dict_update_fresh.
    + rewrite IH.
      * rewrite <- app_assoc. reflexivity.
      * rewrite map_app, <- app_assoc. exact H.
    + simpl in H. apply NoDup_remove_2 in H. intros Hin. apply H.
      apply in_or_app. left. exact Hin.
Qed.

Lemma reformed_keys (pages : list (str * dict str)) :
  NoDup (map fst pages) ->
  Forall (fun page => NoDup (map fst (snd page))) pages ->
  NoDup (map fst
           (flat_map (fun page : str * dict str =>
                        map (fun field : str * str =>
                               ((fst page, fst field), snd field))
                            (snd page))
                     pages)).
Proof.
  induction pages as [|[outer inner] pages IH]; simpl; intros Hp Hi;
    [constructor|].
  inversion Hp as [|? ? Hout Hrest]; subst.
  inversion Hi as [|? ? Hinner Hothers]; subst. simpl in Hinner.
  rewrite map_app. apply NoDup_app.
  - rewrite map_map. simpl.
    rewrite <- (map_map fst (fun k => (outer, k))).
    apply NoDup_map_NoDup_ForallPairs; [|exact Hinner].
    intros a b _ _ E. congruence.
  - apply IH; assumption.
  - intros [o k] H1 H2. apply Hout.
    rewrite map_map in H1. apply in_map_iff in H1.
    destruct H1 as [field [E _]]. simpl in E.
    apply in_map_iff in H2. destruct H2 as [[[o' k'] v] [E' H2]].
    simpl in E'. apply in_flat_map in H2.
    destruct H2 as [page [Hpage H2]].
    apply in_map_iff in H2. destruct H2 as [field' [E'' _]].
    apply in_map_iff. exists page. split; [congruence | exact Hpage].
Qed.

(** Pages under different names lose nothing in [get_doc_data]: the data
    of the document are the fields of every page, in the order of the
    pages, each under the pair of the name of its page and its own, and
    no two of them under the same pair. *)
Theorem get_doc_data_distinct_pages (pages : list (str * dict str)) :
  NoDup (map fst pages) ->
  Forall (fun page => NoDup (map fst (snd page))) pages ->
  get_doc_data pages
  = flat_map (fun page =>
                map (fun field => ((fst page, fst field), snd field))
                    (snd page))
             pages
  /\ NoDup (map fst (get_doc_data pages)).
Proof.
  intros H Hi.
  assert (E : get_doc_data pages
              = flat_map (fun page : str * dict str =>
                            map (fun field : str * str =>
                                   ((fst page, fst field), snd field))
                                (snd page))
                         pages).
  { unfold get_doc_data. cbv zeta.
    rewrite (dict_update_all pages []) by exact H. simpl app.
    apply flat_map_ext. intros [outer inner].
    apply map_ext. intros [k v]. reflexivity. }
  split; [exact E|]. rewrite E. apply reformed_keys; assumption.
Qed.

End DocumentData.

Lemma get_doc_data_distinct_pages_witness :
  NoDup (map fst [(py "page_1", [(py "company_name", py "Acme")]);
                  (py "page_2", [(py "company_email", py "None")])])
  /\ Forall (fun page : str * dict str => NoDup (map fst (snd page)))
            [(py "page_1", [(py "company_name", py "Acme")]);
             (py "page_2", [(py "company_email", py "None")])]
  /\ get_doc_data [(py "page_1", [(py "company_name", py "Acme")]);
                   (py "page_2", [(py "company_email", py "None")])]
     = [((py "page_1", py "company_name"), py "Acme");
        ((py "page_2", py "company_email"), py "None")].
Proof.
  assert (H : NoDup (map fst [(py "page_1", [(py "company_name", py "Acme")]);
                              (py "page_2",
                               [(py "company_email", py "None")])])).
  { apply NoDup_cons; [simpl; intros [E|[]]; discriminate E|].
    apply NoDup_cons; [simpl; intros []|]. apply NoDup_nil. }
  assert (Hi : Forall (fun page : str * dict str =>
                         NoDup (map fst (snd page)))
                      [(py "page_1", [(py "company_name", py "Acme")]);
                       (py "page_2", [(py "company_email", py "None")])]).
  { repeat apply Forall_cons; try apply Forall_nil;
      (apply NoDup_cons; [simpl; intros []|apply NoDup_nil]). }
  split; [exact H|]. split; [exact Hi|].
  exact (proj1 (get_doc_data_distinct_pages H Hi)).
Defined.

Section PageFiles.

Context {F : FileSystem}.



End PageFiles.

(* ================================================================== *)
(** * The properties at work on small pages *)
(* ================================================================== *)

Lemma detect_boxes_two_frames_witness :
  (2 <= 5)%nat
  /\ @detect_boxes Toy.straight_page 5 O true true (py "vertical") true false
       80 5 3
     = @detect_boxes Toy.straight_page 2 O true true (py "vertical") true
         false 80 5 3
  /\ @detect_boxes Toy.straight_page 2 O true true (py "vertical") true false
       80 5 3
     <> None.
Proof.
  split; [lia|].
  apply (@detect_boxes_two_frames Toy.straight_page 5 O true true
           (py "vertical") true false 80 5 3).
  lia.
Defined.

Lemma detect_boxes_without_mode_witness :
  (2 <= 2)%nat
  /\ @dilate_kernels true (py "vertical") = Ok (Ones 10 1, Ones 1 2)
  /\ exists history,
       @detect_boxes Toy.diagonal_page 2 O true true (py "vertical") false
         false 80 5 3
       = Some (history, Raise UnboundLocalError).
Proof.
  split; [lia|]. split; [reflexivity|].
  apply (@detect_boxes_without_mode Toy.diagonal_page 2 O true true
           (py "vertical") 80 5 3 (Ones 10 1) (Ones 1 2));
    [lia | reflexivity].
Defined.

Lemma process_image_returns_witness :
  @dilate_kernels true (py "vertical") = Ok (Ones 10 1, Ones 1 2)
  /\ true || false = true
  /\ exists boxes,
       @process_image Toy.diagonal_page O RETR_EXTERNAL CHAIN_APPROX_SIMPLE
         true 80 true (py "vertical") true false 4 3
       = Ok (@calculate_angle Toy.diagonal_page
               (@line_mask Toy.diagonal_page
                  (@load_image Toy.diagonal_page O) (Ones 10 1) (Ones 1 2)
                  4 3),
             boxes)
       /\ Forall (fun b : box_info => fst b = (rect_w (snd b) * rect_h (snd b))%Z)
                 boxes.
Proof.
  split; [reflexivity|]. split; [reflexivity|].
  apply (@process_image_returns Toy.diagonal_page O RETR_EXTERNAL
           CHAIN_APPROX_SIMPLE 80 true (py "vertical") true false 4 3
           (Ones 10 1) (Ones 1 2));
    reflexivity.
Defined.

Lemma ocr_boxes_joins_witness :
  Forall2 (fun box text =>
             @ocr_box Toy.straight_page O (snd box) false (HalveBool false)
               false false false false false (py "eng") (py "--psm 7")
             = Ok text)
          [(100%Z, Toy.a_rect); (100%Z, Toy.a_rect)]
          [py "Acme Trading Limited"; py "Acme Trading Limited"]
  /\ @ocr_boxes Toy.straight_page O [(100%Z, Toy.a_rect); (100%Z, Toy.a_rect)]
       (HalveBool false) false false false false false (py "eng")
       (py "--psm 7")
     = Ok (py "Acme Trading Limited Acme Trading Limited").
Proof.
  assert (H : Forall2
                (fun box text =>
                   @ocr_box Toy.straight_page O (snd box) false
                     (HalveBool false) false false false false false
                     (py "eng") (py "--psm 7")
                   = Ok text)
                [(100%Z, Toy.a_rect); (100%Z, Toy.a_rect)]
                [py "Acme Trading Limited"; py "Acme Trading Limited"])
    by (repeat constructor).
  split; [exact H|].
  exact (@ocr_boxes_joins Toy.straight_page O (HalveBool false) false false
           false false false (py "eng") (py "--psm 7") _ _ H).
Defined.

Lemma ocr_box_halve_text_witness :
  count_occ N.eq_dec (py "True") (ord " ") <> 1%nat
  /\ @ocr_box Toy.straight_page O Toy.a_rect false (HalveStr (py "True"))
       false false false false false (py "eng") (py "--psm 7")
     = Raise ValueError.
Proof.
  assert (H : count_occ N.eq_dec (py "True") (ord " ") <> 1%nat)
    by (vm_compute; discriminate).
  split; [exact H|].
  exact (@ocr_box_halve_text Toy.straight_page O Toy.a_rect false (py "True")
           false false false false false (py "eng") (py "--psm 7") H).
Defined.


Lemma PageOne_fields_not_empty_witness :
  @PageOne_init Toy.straight_page (py "page_1.jpg")
  = Ok {| company_name := py "Acme Trading Limited";
          address := py "Acme Trading Limited";
          company_number := py "111";
          date_of_return := py "111/111/111/111/111/111";
          presentors_name := py "None";
          presentors_address := py "None";
          presentors_telephone := py "None";
          presentors_fax := py "None";
          presentors_email := py "None" |}
  /\ Forall (fun field : str * str => snd field <> [])
       (snd (PageOne_page_data
               {| company_name := py "Acme Trading Limited";
                  address := py "Acme Trading Limited";
                  company_number := py "111";
                  date_of_return := py "111/111/111/111/111/111";
                  presentors_name := py "None";
                  presentors_address := py "None";
                  presentors_telephone := py "None";
                  presentors_fax := py "None";
                  presentors_email := py "None" |})).
Proof.
  assert (H : @PageOne_init Toy.straight_page (py "page_1.jpg")
              = Ok {| company_name := py "Acme Trading Limited";
                      address := py "Acme Trading Limited";
                      company_number := py "111";
                      date_of_return := py "111/111/111/111/111/111";
                      presentors_name := py "None";
                      presentors_address := py "None";
                      presentors_telephone := py "None";
                      presentors_fax := py "None";
                      presentors_email := py "None" |})
    by (vm_compute; reflexivity).
  split; [exact H|].
  exact (@PageOne_fields_not_empty Toy.straight_page (py "page_1.jpg") _ H).
Defined.
